(** * FlexFlow serving front-end: resource cache, request normalisation,
      adapter registration and Falcon weight conversion

    A shallow embedding of [python/flexflow/serve/serve.py] and of the weight
    converter and the constructor checks of
    [python/flexflow/serve/models/falcon.py].

    Python strings are modelled by Rocq strings whose characters are the code
    points 0..255; Python integers by [Z]; objects by records; dictionaries by
    finite maps or association lists; exceptions by an explicit error result
    threaded together with the mutable state. *)

From Stdlib Require Import ZArith String Ascii List Bool Lia.
From stdpp Require Import base option list gmap strings.
Import ListNotations.

Local Open Scope string_scope.
Local Open Scope list_scope.
Local Open Scope Z_scope.
Local Set Warnings "-register-all".

(** ** Python string primitives *)

Module PyStr.

(** Code point of a character. *)
Definition ord (c : ascii) : Z := Z.of_nat (nat_of_ascii c).

Definition chr (z : Z) : ascii := ascii_of_nat (Z.to_nat z).

Definition str_of_list (l : list ascii) : string :=
  fold_right String EmptyString l.

Fixpoint list_of_str (s : string) : list ascii :=
  match s with
  | EmptyString => []
  | String c r => c :: list_of_str r
  end.

(** [len(s)] *)
Definition len (s : string) : nat := String.length s.

(** [s[n:]] for a non-negative [n]. *)
Fixpoint slice_from (n : nat) (s : string) : string :=
  match n, s with
  | O, _ => s
  | S _, EmptyString => EmptyString
  | S k, String _ r => slice_from k r
  end.

(** [s.startswith(p)] *)
Fixpoint startswith (p s : string) : bool :=
  match p, s with
  | EmptyString, _ => true
  | String a p', String b s' => if Ascii.eqb a b then startswith p' s' else false
  | String _ _, EmptyString => false
  end.

(** [sub in s] *)
Fixpoint contains (sub s : string) : bool :=
  startswith sub s ||
  match s with
  | EmptyString => false
  | String _ r => contains sub r
  end.

(** [s.replace(old, new)] for a non-empty [old]: the non-overlapping
    occurrences are replaced from left to right.  [skip] counts the
    characters of a matched occurrence still to be dropped. *)
Fixpoint replace_from (old new : string) (skip : nat) (s : string) : string :=
  match s with
  | EmptyString => EmptyString
  | String c r =>
      match skip with
      | S k => replace_from old new k r
      | O =>
          if startswith old s
          then new +:+ replace_from old new (Nat.pred (String.length old)) r
          else String c (replace_from old new O r)
      end
  end.

Definition replace (old new s : string) : string := replace_from old new O s.

(** [s.lower()] on the code points 0..255. *)
Definition lower_char (c : ascii) : ascii :=
  let n := ord c in
  if ((65 <=? n) && (n <=? 90)) || ((192 <=? n) && (n <=? 222) && negb (n =? 215))
  then chr (n + 32) else c.

Fixpoint lower (s : string) : string :=
  match s with
  | EmptyString => EmptyString
  | String c r => String (lower_char c) (lower r)
  end.

(** [c.isspace()] on the code points 0..255. *)
Definition isspace (c : ascii) : bool :=
  let n := ord c in
  ((9 <=? n) && (n <=? 13)) || ((28 <=? n) && (n <=? 32)) || (n =? 133) || (n =? 160).

(** ["".join(s.split())]: every whitespace character is dropped. *)
Fixpoint join_split (s : string) : string :=
  match s with
  | EmptyString => EmptyString
  | String c r => if isspace c then join_split r else String c (join_split r)
  end.

Definition no_space (s : string) : Prop :=
  Forall (fun c => isspace c = false) (list_of_str s).

Definition hexdigit (n : Z) : ascii :=
  if n <? 10 then chr (48 + n) else chr (87 + n).

(** Two lower-case hexadecimal digits of a byte. *)
Definition hex2 (n : Z) : string :=
  String (hexdigit (Z.shiftr n 4)) (String (hexdigit (Z.land n 15)) EmptyString).

Definition quote1 : ascii := chr 39.
Definition quote2 : ascii := chr 34.
Definition backslash : ascii := chr 92.

Definition has_char (q : ascii) (s : string) : bool :=
  existsb (Ascii.eqb q) (list_of_str s).

(** Characters that [repr] leaves as they are. *)
Definition isprintable (c : ascii) : bool :=
  let n := ord c in
  ((32 <=? n) && (n <? 127)) || ((161 <=? n) && negb (n =? 173)).

Definition repr_char (q c : ascii) : string :=
  let n := ord c in
  if Ascii.eqb c q || Ascii.eqb c backslash then String backslash (String c EmptyString)
  else if n =? 9 then String backslash "t"
  else if n =? 10 then String backslash "n"
  else if n =? 13 then String backslash "r"
  else if isprintable c then String c EmptyString
  else String backslash (String "x" (hex2 n)).

Fixpoint repr_body (q : ascii) (s : string) : string :=
  match s with
  | EmptyString => EmptyString
  | String c r => repr_char q c +:+ repr_body q r
  end.

(** [repr(s)] of a [str]. *)
Definition repr (s : string) : string :=
  let q := if has_char quote1 s && negb (has_char quote2 s) then quote2 else quote1 in
  String q (repr_body q s +:+ String q EmptyString).

(** [sep.join(l)] *)
Fixpoint join (sep : string) (l : list string) : string :=
  match l with
  | [] => EmptyString
  | [x] => x
  | x :: r => x +:+ sep +:+ join sep r
  end.

(** [s.encode("utf-8")] on the code points 0..255, as a list of bytes. *)
Definition utf8_char (c : ascii) : list Z :=
  let n := ord c in
  if n <? 128 then [n]
  else [Z.lor 192 (Z.shiftr n 6); Z.lor 128 (Z.land n 63)].

Definition encode_utf8 (s : string) : list Z :=
  flat_map utf8_char (list_of_str s).

End PyStr.

(** ** [hashlib.md5] *)

Module MD5.

Definition mask32 : Z := 0xFFFFFFFF.

Definition add32 (a b : Z) : Z := Z.land (a + b) mask32.

Definition rotl32 (x c : Z) : Z :=
  Z.land (Z.lor (Z.shiftl x c) (Z.shiftr x (32 - c))) mask32.

Definition not32 (x : Z) : Z := Z.lxor x mask32.

Definition K : list Z :=
  [ 0xd76aa478; 0xe8c7b756; 0x242070db; 0xc1bdceee;
    0xf57c0faf; 0x4787c62a; 0xa8304613; 0xfd469501;
    0x698098d8; 0x8b44f7af; 0xffff5bb1; 0x895cd7be;
    0x6b901122; 0xfd987193; 0xa679438e; 0x49b40821;
    0xf61e2562; 0xc040b340; 0x265e5a51; 0xe9b6c7aa;
    0xd62f105d; 0x02441453; 0xd8a1e681; 0xe7d3fbc8;
    0x21e1cde6; 0xc33707d6; 0xf4d50d87; 0x455a14ed;
    0xa9e3e905; 0xfcefa3f8; 0x676f02d9; 0x8d2a4c8a;
    0xfffa3942; 0x8771f681; 0x6d9d6122; 0xfde5380c;
    0xa4beea44; 0x4bdecfa9; 0xf6bb4b60; 0xbebfbc70;
    0x289b7ec6; 0xeaa127fa; 0xd4ef3085; 0x04881d05;
    0xd9d4d039; 0xe6db99e5; 0x1fa27cf8; 0xc4ac5665;
    0xf4292244; 0x432aff97; 0xab9423a7; 0xfc93a039;
    0x655b59c3; 0x8f0ccc92; 0xffeff47d; 0x85845dd1;
    0x6fa87e4f; 0xfe2ce6e0; 0xa3014314; 0x4e0811a1;
    0xf7537e82; 0xbd3af235; 0x2ad7d2bb; 0xeb86d391 ].

Definition shifts : list Z :=
  [ 7; 12; 17; 22; 7; 12; 17; 22; 7; 12; 17; 22; 7; 12; 17; 22;
    5; 9; 14; 20; 5; 9; 14; 20; 5; 9; 14; 20; 5; 9; 14; 20;
    4; 11; 16; 23; 4; 11; 16; 23; 4; 11; 16; 23; 4; 11; 16; 23;
    6; 10; 15; 21; 6; 10; 15; 21; 6; 10; 15; 21; 6; 10; 15; 21 ].

Record regs := Regs { ra : Z; rb : Z; rc : Z; rd : Z }.

Definition init : regs :=
  Regs 0x67452301 0xefcdab89 0x98badcfe 0x10325476.

(** Little-endian 32-bit words of a byte list. *)
Fixpoint words (bs : list Z) : list Z :=
  match bs with
  | b0 :: b1 :: b2 :: b3 :: r =>
      (b0 + Z.shiftl b1 8 + Z.shiftl b2 16 + Z.shiftl b3 24) :: words r
  | _ => []
  end.

Definition le_bytes (n : nat) (x : Z) : list Z :=
  map (fun i => Z.land (Z.shiftr x (8 * Z.of_nat i)) 255) (seq 0 n).

(** Message padding: a 1 bit, zeros up to 56 mod 64, the bit length. *)
Definition pad (bs : list Z) : list Z :=
  let n := Z.of_nat (List.length bs) in
  let zeros := Z.to_nat ((55 - n) mod 64) in
  bs ++ [128] ++ repeat 0 zeros ++ le_bytes 8 (8 * n).

Definition round (m : list Z) (r : regs) (i : nat) : regs :=
  let iz := Z.of_nat i in
  let '(Regs a b c d) := r in
  let '(f, g) :=
    if iz <? 16 then (Z.lor (Z.land b c) (Z.land (not32 b) d), iz)
    else if iz <? 32 then (Z.lor (Z.land d b) (Z.land (not32 d) c), (5 * iz + 1) mod 16)
    else if iz <? 48 then (Z.lxor (Z.lxor b c) d, (3 * iz + 5) mod 16)
    else (Z.lxor c (Z.lor b (not32 d)), (7 * iz) mod 16) in
  let f' := add32 (add32 (add32 f a) (nth i K 0)) (nth (Z.to_nat g) m 0) in
  Regs d (add32 b (rotl32 f' (nth i shifts 0))) b c.

Definition block (r : regs) (m : list Z) : regs :=
  let r' := fold_left (round m) (seq 0 64) r in
  Regs (add32 (ra r) (ra r')) (add32 (rb r) (rb r'))
       (add32 (rc r) (rc r')) (add32 (rd r) (rd r')).

(** The 16-word blocks of a word list. *)
Fixpoint blocks (fuel : nat) (ws : list Z) : list (list Z) :=
  match fuel, ws with
  | S k, _ :: _ => firstn 16 ws :: blocks k (skipn 16 ws)
  | _, _ => []
  end.

Definition digest (bs : list Z) : list Z :=
  let ws := words (pad bs) in
  let r := fold_left block (blocks (List.length ws) ws) init in
  flat_map (le_bytes 4) [ra r; rb r; rc r; rd r].

(** [hashlib.md5(bs).hexdigest()] *)
Definition hexdigest (bs : list Z) : string :=
  fold_right (fun b acc => PyStr.hex2 b +:+ acc) EmptyString (digest bs).

End MD5.

(** ** Exceptions and the state-and-exception monad *)

Definition path := list string.

Inductive exn : Type :=
  | FileNotFoundError (p : path)
  | NotADirectoryError (p : path)
  | IsADirectoryError (p : path)
  | FileExistsError (p : path)
  | RepositoryNotFoundError (repo : string)
  | LoadError (model_name : string)
      (* the OSError of [from_pretrained] *)
  | ZeroDivisionError
  | TorchSplitError (sizes : list Z) (dim_size : Z)
      (* RuntimeError: split_with_sizes expects the sizes to sum to the dimension *)
  | LoraConfigNone
      (* ValueError("lora_config cannot be None") *)
  | EmptyPeftModelId
      (* ValueError("PEFT model id cannot be empty") *)
  | PeftTypeNotSupported (peft_type : string)
      (* RuntimeError: PEFT type ... not yet supported in FlexFlow *)
  | NoAssociatedBaseModel (peft_model_id : string)
      (* ValueError: PEFT model ... does not have an associated base model *)
  | BaseModelMismatch (base : option string) (model_name : string)
      (* RuntimeError: Attempting to add PEFT with base model name ... to LLM ... *)
  | PeftNotRegistered
      (* ValueError, [get_ff_peft_id] *)
  | PeftNotCompiled
      (* RuntimeError, [get_ff_peft_id] *)
  | BoundsExceeded (max_length max_new_tokens max_seq_length : Z)
      (* ValueError: max_length or max_new_tokens exceeds the maximum sequence length *)
  | NewTokensInFinetuning (max_new_tokens : Z)
      (* ValueError: max_new_tokens is not allowed for finetuning requests *)
  | FinetuneBoundsExceeded (max_length max_seq_length : Z)
      (* ValueError: max_length exceeds the maximum sequence length *)
  | InvalidChatMessage
      (* ValueError: each element must be a dictionary with the keys role and content *)
  | NoChatTemplate (model_name : string)
      (* ValueError: the model does not support chat completion *)
  | UnpackError
      (* ValueError: wrong number of values to unpack *)
  | TypeError
  | AssertionError
  | AttributeError (attr : string)
  | EngineError.

Inductive outcome (A : Type) : Type :=
  | Returns (a : A)
  | Raises (e : exn).
Arguments Returns {A} a.
Arguments Raises {A} e.

(** A Python procedure over a mutable state [S]: what it returns or raises,
    and the state it leaves behind (effects made before a raise persist). *)
Definition prog (S A : Type) : Type := S -> outcome A * S.

Definition ret {S A} (a : A) : prog S A := fun s => (Returns a, s).
Definition raise {S A} (e : exn) : prog S A := fun s => (Raises e, s).
Definition bind {S A B} (m : prog S A) (k : A -> prog S B) : prog S B :=
  fun s => match m s with
           | (Returns a, s') => k a s'
           | (Raises e, s') => (Raises e, s')
           end.
Definition get {S} : prog S S := fun s => (Returns s, s).
Definition put {S} (s : S) : prog S unit := fun _ => (Returns tt, s).
Definition lift {S A} (o : outcome A) : prog S A := fun s => (o, s).

Notation "'let*' x ':=' m 'in' k" := (bind m (fun x => k))
  (at level 10, x pattern, m at level 100, k at level 200).
Notation "m ';;' k" := (bind m (fun _ => k))
  (at level 100, k at level 200, right associativity).

(** [for x in l: body x] *)
Fixpoint for_each {S A} (body : A -> prog S unit) (l : list A) : prog S unit :=
  match l with
  | [] => ret tt
  | x :: r => body x ;; for_each body r
  end.

(** [[f x for x in l]] *)
Fixpoint map_m {S A B} (f : A -> prog S B) (l : list A) : prog S (list B) :=
  match l with
  | [] => ret []
  | x :: r => let* y := f x in let* ys := map_m f r in ret (y :: ys)
  end.

(** ** The file system, the hub and the [os] / [shutil] primitives *)

(** A float is only ever printed here (a modification time inside
    [str(state)]); it is represented by its [repr]. *)
Record pyfloat := PyFloat { float_repr : string }.

(** A directory keeps its entries in the order in which the operating system
    lists them. *)
Inductive node : Type :=
  | File (content : string) (mtime : pyfloat)
  | Dir (entries : list (string * node)) (mtime : pyfloat).

Definition node_mtime (n : node) : pyfloat :=
  match n with File _ t | Dir _ t => t end.

(** Geometry fields of a HuggingFace Falcon configuration. *)
Record hf_config := HfConfig {
  cfg_n_head : option Z;          (* present in [config.__dict__] or not *)
  cfg_num_attention_heads : Z;
  cfg_hidden_size : Z
}.

(** A tensor as the list of its slices along axis 0; a scalar is its raw
    bytes, so that equality of tensors is equality bit for bit. *)
Definition scalar := string.
Definition tensor := list (list scalar).

Record hf_model := HfModel {
  hf_cfg : hf_config;
  named_parameters : list (string * tensor);
  lm_head_weight : tensor
}.

(** ** Values, requests and adapter configurations *)

Inductive RequestType := REQ_INFERENCE | REQ_FINETUNING.

(** A [Request] object, over the type [V] of the values a prompt may be. *)
Record RequestOf (V : Type) := mkRequest {
  req_type : RequestType;
  prompt : V;
  max_length : Z;                       (* -1: unset *)
  max_new_tokens : Z;                   (* -1: unset *)
  add_special_tokens : option bool      (* None: the constructor default *)
}.
Arguments mkRequest {V}.
Arguments req_type {V}.
Arguments prompt {V}.
Arguments max_length {V}.
Arguments max_new_tokens {V}.
Arguments add_special_tokens {V}.

(** The values a caller may hand to [generate]. *)
Inductive pyval : Type :=
  | PNone
  | PBool (b : bool)
  | PInt (z : Z)
  | PStr (s : string)
  | PList (l : list pyval)
  | PDict (d : list (pyval * pyval))
  | PRequest (r : RequestOf pyval).

Definition Request := RequestOf pyval.

Record GenerationResult := mkResult { output_text : string }.

(** A [LoraLinearConfig] object: its identity ([id(lora_config)]) and its
    attributes.  The class defines neither [__eq__] nor [__hash__]: as a
    dictionary key an object is told from another by its identity, whatever
    the attributes are. *)
Record LoraLinearConfig := mkLora {
  lora_object : Z;
  peft_model_id : option string;
  trainable : bool;
  init_lora_weights : bool;
  rank : Z;
  target_modules : list string;
  lora_alpha : string;                  (* floats, by their [repr] *)
  lora_dropout : string
}.

Record PeftConfig := mkPeftConfig {
  peft_type : string;
  has_base_model_key : bool;            (* the key is in [to_dict()] *)
  base_model_name_or_path : option string;
  pc_r : Z;
  pc_target_modules : list string;
  pc_lora_alpha : string;
  pc_lora_dropout : string;
  pc_init_lora_weights : bool
}.

Definition PEFTModelID := Z.

Record peft_entry := mkPeftEntry {
  entry_peft_config : PeftConfig;
  entry_peft_type : string;
  ff_peft_model_id : PEFTModelID
}.

Record Tokenizer := mkTokenizer {
  chat_template : option string;
  apply_chat_template : pyval -> string
      (* with [tokenize=False, add_generation_prompt=True] *)
}.

(** A repository on the HuggingFace hub. *)
Record repo := Repo {
  repo_sha : string;
  repo_files : list (string * string)
}.

Record world := World {
  w_root : node;
  w_cwd : path;
  w_home : string;
  w_now : pyfloat;
  w_hub : gmap string repo;
  w_pretrained : gmap string hf_model;       (* [AutoModelForCausalLM.from_pretrained] *)
  w_tokenizers : gmap string Tokenizer;      (* [AutoTokenizer.from_pretrained] *)
  w_peft_configs : gmap string PeftConfig    (* [PeftConfig.from_pretrained] *)
}.

Definition io := prog world.

Module Os.

Definition slash : ascii := PyStr.chr 47.

Fixpoint endswith_slash (s : string) : bool :=
  match s with
  | EmptyString => false
  | String c EmptyString => Ascii.eqb c slash
  | String _ r => endswith_slash r
  end.

Definition startswith_slash (s : string) : bool :=
  match s with
  | String c _ => Ascii.eqb c slash
  | EmptyString => false
  end.

(** [os.path.join(a, b)] *)
Definition join2 (a b : string) : string :=
  if startswith_slash b then b
  else if String.eqb a "" || endswith_slash a then a +:+ b
  else a +:+ String slash b.

(** [os.path.join(a, *ps)] *)
Definition join (a : string) (ps : list string) : string := fold_left join2 ps a.

(** [os.path.expanduser]; the [~user] form is left alone. *)
Definition expanduser (w : world) (p : string) : string :=
  match p with
  | String c r =>
      if Ascii.eqb c (PyStr.chr 126) && (String.eqb r "" || startswith_slash r)
      then w_home w +:+ r else p
  | EmptyString => p
  end.

(** The components of a path string between slashes. *)
Fixpoint split_slash (cur : string) (s : string) : list string :=
  match s with
  | EmptyString => [cur]
  | String c r =>
      if Ascii.eqb c slash then cur :: split_slash "" r
      else split_slash (cur +:+ String c EmptyString) r
  end.

(** Empty and [.] components are dropped, [..] goes one level up. *)
Definition walk (acc : path) (c : string) : path :=
  if String.eqb c "" || String.eqb c "." then acc
  else if String.eqb c ".." then removelast acc
  else acc ++ [c].

(** The absolute component list a path string denotes. *)
Definition resolve (w : world) (p : string) : path :=
  fold_left walk (split_slash "" p) (if startswith_slash p then [] else w_cwd w).

Fixpoint assoc (name : string) (es : list (string * node)) : option node :=
  match es with
  | [] => None
  | (k, n) :: r => if String.eqb k name then Some n else assoc name r
  end.

(** Replace the entry in place, or add it behind the others. *)
Fixpoint set_entry (name : string) (n : node) (es : list (string * node))
  : list (string * node) :=
  match es with
  | [] => [(name, n)]
  | (k, m) :: r =>
      if String.eqb k name then (k, n) :: r else (k, m) :: set_entry name n r
  end.

Fixpoint del_entry (name : string) (es : list (string * node))
  : list (string * node) :=
  match es with
  | [] => []
  | (k, m) :: r =>
      if String.eqb k name then del_entry name r else (k, m) :: del_entry name r
  end.

Fixpoint lookup (p : path) (n : node) : option node :=
  match p with
  | [] => Some n
  | c :: p' =>
      match n with
      | Dir es _ =>
          match assoc c es with
          | Some sub => lookup p' sub
          | None => None
          end
      | File _ _ => None
      end
  end.

(** Change the entry [q] names inside its parent directory; [f] sees the
    node now there and gives the one to store, or none to unlink it. *)
Fixpoint update (now : pyfloat) (seen q : path)
    (f : option node -> outcome (option node)) (n : node) : outcome node :=
  match q with
  | [] => Raises (IsADirectoryError seen)
  | c :: q' =>
      match n with
      | File _ _ => Raises (NotADirectoryError seen)
      | Dir es mt =>
          match q' with
          | [] =>
              match f (assoc c es) with
              | Raises e => Raises e
              | Returns (Some n') => Returns (Dir (set_entry c n' es) now)
              | Returns None => Returns (Dir (del_entry c es) now)
              end
          | _ :: _ =>
              match assoc c es with
              | None => Raises (FileNotFoundError (seen ++ [c]))
              | Some sub =>
                  match update now (seen ++ [c]) q' f sub with
                  | Raises e => Raises e
                  | Returns sub' => Returns (Dir (set_entry c sub' es) mt)
                  end
              end
          end
      end
  end.

(** [os.makedirs(q, exist_ok=True)] below the node [n]. *)
Fixpoint makedirs_in (now : pyfloat) (seen q : path) (n : node) : outcome node :=
  match n with
  | File _ _ =>
      match q with
      | [] => Raises (FileExistsError seen)
      | _ :: _ => Raises (NotADirectoryError seen)
      end
  | Dir es mt =>
      match q with
      | [] => Returns n
      | c :: q' =>
          match assoc c es with
          | Some sub =>
              match makedirs_in now (seen ++ [c]) q' sub with
              | Raises e => Raises e
              | Returns sub' => Returns (Dir (set_entry c sub' es) mt)
              end
          | None =>
              match makedirs_in now (seen ++ [c]) q' (Dir [] now) with
              | Raises e => Raises e
              | Returns sub' => Returns (Dir (set_entry c sub' es) now)
              end
          end
      end
  end.

Definition with_root (r : node) (w : world) : world :=
  World r (w_cwd w) (w_home w) (w_now w) (w_hub w) (w_pretrained w)
        (w_tokenizers w) (w_peft_configs w).

Definition set_root (r : node) : io unit :=
  fun w => (Returns tt, with_root r w).

Definition update_root (f : world -> node -> outcome node) : io unit :=
  fun w => match f w (w_root w) with
           | Returns r => set_root r w
           | Raises e => (Raises e, w)
           end.

(** [os.path.exists(p)].  The empty path, which Python reports as missing,
    is read here as the current directory; [LLM] is not given an empty model
    name in what follows. *)
Definition exists_ (p : string) : io bool :=
  fun w => (Returns (bool_decide (is_Some (lookup (resolve w p) (w_root w)))), w).

(** [os.path.isdir(p)] *)
Definition isdir (p : string) : io bool :=
  fun w => (Returns match lookup (resolve w p) (w_root w) with
                    | Some (Dir _ _) => true
                    | _ => false
                    end, w).

(** [os.listdir(p)] *)
Definition listdir (p : string) : io (list string) :=
  fun w => match lookup (resolve w p) (w_root w) with
           | Some (Dir es _) => (Returns (map fst es), w)
           | Some (File _ _) => (Raises (NotADirectoryError (resolve w p)), w)
           | None => (Raises (FileNotFoundError (resolve w p)), w)
           end.

(** [os.path.getmtime(p)] *)
Definition getmtime (p : string) : io pyfloat :=
  fun w => match lookup (resolve w p) (w_root w) with
           | Some n => (Returns (node_mtime n), w)
           | None => (Raises (FileNotFoundError (resolve w p)), w)
           end.

(** [open(p).read()] *)
Definition read_file (p : string) : io string :=
  fun w => match lookup (resolve w p) (w_root w) with
           | Some (File c _) => (Returns c, w)
           | Some (Dir _ _) => (Raises (IsADirectoryError (resolve w p)), w)
           | None => (Raises (FileNotFoundError (resolve w p)), w)
           end.

(** [open(p, "w+")] followed by [write(content)], and [ndarray.tofile(p)]. *)
Definition write_file (p content : string) : io unit :=
  update_root (fun w =>
    update (w_now w) [] (resolve w p)
      (fun o => match o with
                | Some (Dir _ _) => Raises (IsADirectoryError (resolve w p))
                | _ => Returns (Some (File content (w_now w)))
                end)).

(** [shutil.rmtree(p)] *)
Definition rmtree (p : string) : io unit :=
  update_root (fun w =>
    update (w_now w) [] (resolve w p)
      (fun o => match o with
                | Some (Dir _ _) => Returns None
                | Some (File _ _) => Raises (NotADirectoryError (resolve w p))
                | None => Raises (FileNotFoundError (resolve w p))
                end)).

(** [os.makedirs(p, exist_ok=True)] *)
Definition makedirs (p : string) : io unit :=
  update_root (fun w => makedirs_in (w_now w) [] (resolve w p)).

(** [shutil.copy(src, dst)] with [dst] a file path. *)
Definition copy (src dst : string) : io unit :=
  let* c := read_file src in
  write_file dst c.

End Os.

(** ** The hub and the model loaders *)

Module Hub.

(** [HfApi().model_info(repo_id).sha] *)
Definition model_info_sha (repo_id : string) : io string :=
  fun w => match w_hub w !! repo_id with
           | Some r => (Returns (repo_sha r), w)
           | None => (Raises (RepositoryNotFoundError repo_id), w)
           end.

Definition allowed (patterns : list string) (f : string * string) : bool :=
  existsb (String.eqb (fst f)) patterns.

(** [snapshot_download(repo_id, allow_patterns)]: the allowed files of the
    repository are stored in a snapshot folder, whose path is returned. *)
Definition snapshot_download (repo_id : string) (allow_patterns : list string)
  : io string :=
  let* w := get in
  match w_hub w !! repo_id with
  | None => raise (RepositoryNotFoundError repo_id)
  | Some r =>
      let folder :=
        Os.join (Os.expanduser w "~/.cache/huggingface/hub") [repo_id; repo_sha r] in
      Os.makedirs folder ;;
      for_each (fun f => Os.write_file (Os.join folder [fst f]) (snd f))
               (filter (fun f => allowed allow_patterns f = true) (repo_files r)) ;;
      ret folder
  end.

(** [AutoModelForCausalLM.from_pretrained(model_name, ...)] *)
Definition from_pretrained (model_name : string) : io hf_model :=
  fun w => match w_pretrained w !! model_name with
           | Some m => (Returns m, w)
           | None => (Raises (LoadError model_name), w)
           end.

End Hub.

(** ** [serve.py]: the LLM object *)

Inductive CachedResourceType := TOKENIZER | WEIGHTS.

Inductive DataType := DT_HALF | DT_FLOAT.

(** What [serve.py] uses of a model class of [flexflow.serve.models]. *)
Record ModelClass := mkModelClass {
  convert_hf_weight_name : string -> string;
  convert_hf_model : hf_model -> string -> io unit
}.

(** The engine side of a compiled model ([self.model.ffmodel]). *)
Record FFModel := mkFFModel {
  ff_generate : list pyval -> outcome (list GenerationResult);
  ff_register_peft_adapter : LoraLinearConfig -> PEFTModelID
}.

Record LLM := mkLLM {
  model_name : string;
  data_type : DataType;
  cache_path : string;
  refresh_cache : bool;
  output_file : string;
  model_class : ModelClass;
  pefts : list (Z * peft_entry);         (* keyed by the configuration object *)
  tokenizer : option Tokenizer;
  max_seq_length : option Z;            (* set by [compile] *)
  model : option FFModel                (* set by [compile] *)
}.

(** [LLM.__init__], for a configuration already resolved to its
    [_name_or_path] and model class. *)
Definition LLM_init (name_or_path : string) (dt : DataType) (cache : string)
    (refresh : bool) (out : string) (mc : ModelClass) : LLM :=
  mkLLM name_or_path dt
        (if (0 <? Z.of_nat (String.length cache)) then cache else "~/.cache/flexflow")
        refresh out mc [] None None None.

(** [str(l)] of a list whose elements have the given [repr]s. *)
Definition str_of_reprs (reprs : list string) : string :=
  "[" +:+ PyStr.join ", " reprs +:+ "]".

Section Cache.

Variable self : LLM.

(** [self.model_name], where a parameter is called [model_name] too. *)
Let self_model_name : string := model_name self.

(** [LLM.__get_revision_hashes], first block: the revision the marker
    file of the cached object holds. *)
Definition read_ff_revision (folder : string) : io (option string) :=
  let ff_revision_filepath := Os.join folder ["rev_sha.txt"] in
  let* marked := Os.exists_ ff_revision_filepath in
  if marked : bool
  then let* text := Os.read_file ff_revision_filepath in
       ret (Some (PyStr.join_split text))
  else ret None.

(** [LLM.__get_revision_hashes], second block: the latest revision of the
    source.  The local branch reads the parameter, the remote branch
    [self.model_name]. *)
Definition compute_latest_revision (model_name : string) : io string :=
  let* is_path := Os.exists_ model_name in
  let* is_dir := Os.isdir model_name in
  if is_path && is_dir
  then
    (* Local model *)
    let* files := Os.listdir model_name in
    let* mtimes := map_m (fun f => Os.getmtime (Os.join model_name [f])) files in
    let state := map PyStr.repr files ++ map float_repr mtimes in
    ret (MD5.hexdigest (PyStr.encode_utf8 (str_of_reprs state)))
  else
    (* Remote HuggingFace model *)
    Hub.model_info_sha self_model_name.

(** [LLM.__get_revision_hashes] *)
Definition get_revision_hashes (model_name folder : string)
  : io (option string * string) :=
  let* ff_revision := read_ff_revision folder in
  let* latest_revision := compute_latest_revision model_name in
  ret (ff_revision, latest_revision).

(** [LLM.__get_resource_path] *)
Definition get_resource_path (model_name : string) (resource_type : CachedResourceType)
  : io string :=
  let* w := get in
  match resource_type with
  | WEIGHTS =>
      ret (Os.join (Os.expanduser w self.(cache_path))
             [ "weights"; PyStr.lower model_name;
               match self.(data_type) with
               | DT_FLOAT => "full-precision"
               | DT_HALF => "half-precision"
               end ])
  | TOKENIZER =>
      ret (Os.join (Os.expanduser w self.(cache_path))
             [ "tokenizers"; PyStr.lower model_name ])
  end.

(** [LLM.__need_cache_refresh] *)
Definition need_cache_refresh (model_name : string) (resource_type : CachedResourceType)
  : io bool :=
  let* resource_path := get_resource_path model_name resource_type in
  let* hashes := get_revision_hashes self_model_name resource_path in
  let '(ff_revision, latest_revision) := hashes in
  let* present := Os.exists_ resource_path in
  if self.(refresh_cache) || negb present
     || negb (bool_decide (ff_revision = Some latest_revision))
  then
    let* present := Os.exists_ resource_path in
    (if present : bool then Os.rmtree resource_path else ret tt) ;;
    Os.makedirs resource_path ;;
    let ff_revision_file := Os.join resource_path ["rev_sha.txt"] in
    Os.write_file ff_revision_file latest_revision ;;
    ret true
  else ret false.

(** [download_and_convert_llm_weights], local to
    [LLM.download_hf_weights_if_needed] *)
Definition download_and_convert_llm_weights (model_name : string) : io unit :=
  let* hf_model := Hub.from_pretrained model_name in
  let* weights_path := get_resource_path model_name WEIGHTS in
  self.(model_class).(convert_hf_model) hf_model weights_path.

(** [LLM.download_hf_weights_if_needed] *)
Definition download_hf_weights_if_needed : io unit :=
  let* need_refresh := need_cache_refresh self_model_name WEIGHTS in
  if need_refresh : bool
  then download_and_convert_llm_weights self_model_name
  else ret tt.

(** [LLM.download_peft_adapter_if_needed]; its local function
    [download_and_convert_peft_model] is a parameter. *)
Definition download_peft_adapter_if_needed
    (download_and_convert_peft_model : string -> io unit)
    (hf_peft_model_id : string) : io unit :=
  let* need_refresh := need_cache_refresh hf_peft_model_id WEIGHTS in
  if need_refresh : bool
  then download_and_convert_peft_model hf_peft_model_id
  else ret tt.

Definition target_tokenizer_files : list string :=
  [ "tokenizer.json"; "tokenizer_config.json"; "special_tokens_map.json";
    "vocab.json"; "merges.txt" ].

(** [LLM.download_hf_tokenizer_if_needed] *)
Definition download_hf_tokenizer_if_needed : io unit :=
  let* need_refresh := need_cache_refresh self_model_name TOKENIZER in
  if need_refresh : bool
  then
    let* is_path := Os.exists_ self_model_name in
    let* hf_tokenizer_path :=
      (if is_path : bool then ret self_model_name
       else Hub.snapshot_download self_model_name target_tokenizer_files) in
    let* tokenizer_path := get_resource_path self_model_name TOKENIZER in
    for_each
      (fun file =>
         let src_path := Os.join hf_tokenizer_path [file] in
         let dst_path := Os.join tokenizer_path [file] in
         let* there := Os.exists_ src_path in
         if there : bool then Os.copy src_path dst_path else ret tt)
      target_tokenizer_files
  else ret tt.

End Cache.

(** ** [falcon.py]: the Falcon weight converter *)

Module Torch.

Definition sum_sizes (sizes : list Z) : Z := fold_right Z.add 0 sizes.

Fixpoint chunks (t : tensor) (sizes : list Z) : list tensor :=
  match sizes with
  | [] => []
  | n :: r => firstn (Z.to_nat n) t :: chunks (skipn (Z.to_nat n) t) r
  end.

(** [torch.split(t, sizes, 0)] with a list of sizes: they must be
    non-negative and sum to the size of axis 0. *)
Definition split (t : tensor) (sizes : list Z) : outcome (list tensor) :=
  if forallb (Z.leb 0) sizes && (sum_sizes sizes =? Z.of_nat (length t))
  then Returns (chunks t sizes)
  else Raises (TorchSplitError sizes (Z.of_nat (length t))).

(** [torch.cat(ts, 0)] *)
Definition cat (ts : list tensor) : tensor := concat ts.

(** The bytes [t.detach().cpu().numpy().tofile(...)] writes. *)
Definition to_bytes (t : tensor) : string :=
  fold_right String.append EmptyString (concat t).

Definition tofile (t : tensor) (p : string) : io unit :=
  Os.write_file p (to_bytes t).

End Torch.

(** [a // b] *)
Definition floordiv (a b : Z) : outcome Z :=
  if b =? 0 then Raises ZeroDivisionError else Returns (a / b).

(** [a % b] *)
Definition pymod (a b : Z) : outcome Z :=
  if b =? 0 then Raises ZeroDivisionError else Returns (a mod b).

Module FlexFlowFalcon.

(** [FlexFlowFalcon.convert_hf_weight_name] *)
Definition convert_hf_weight_name (name : string) : string :=
  PyStr.replace "self_attention.dense" "self_attention.o_proj"
    (PyStr.replace "transformer." ""
       (PyStr.replace "transformer.h." "layers." name)).

Definition n_head (cfg : hf_config) : Z :=
  match cfg_n_head cfg with
  | Some n => n
  | None => cfg_num_attention_heads cfg
  end.

(** The sizes handed to [torch.split] for a fused projection. *)
Definition qkv_sizes (cfg : hf_config) : outcome (list Z) :=
  match floordiv (cfg_hidden_size cfg) (n_head cfg) with
  | Raises e => Raises e
  | Returns kv => Returns [cfg_hidden_size cfg; kv; kv]
  end.

(** [q, k, v = torch.split(params, [hidden_size, hidden_size // n_head,
    hidden_size // n_head], 0)] *)
Definition split_qkv (cfg : hf_config) (params : tensor)
  : outcome (tensor * tensor * tensor) :=
  match qkv_sizes cfg with
  | Raises e => Raises e
  | Returns sizes =>
      match Torch.split params sizes with
      | Raises e => Raises e
      | Returns [q; k; v] => Returns (q, k, v)
      | Returns _ => Raises UnpackError
      end
  end.

Definition qkv : string := "self_attention.query_key_value".

(** The files one named parameter is written to, in the order written:
    the body of the loop of [convert_hf_model] up to the writes. *)
Definition converted (cfg : hf_config) (np : string * tensor)
  : outcome (list (string * tensor)) :=
  let name := convert_hf_weight_name (fst np) in
  let params := snd np in
  if PyStr.contains qkv name then
    let name_q := PyStr.replace qkv "self_attention.q_proj" name in
    let name_k := PyStr.replace qkv "self_attention.k_proj" name in
    let name_v := PyStr.replace qkv "self_attention.v_proj" name in
    match split_qkv cfg params with
    | Raises e => Raises e
    | Returns (q, k, v) => Returns [(name_q, q); (name_k, k); (name_v, v)]
    end
  else Returns [(name, params)].

(** [FlexFlowFalcon.convert_hf_model] *)
Definition convert_hf_model (model : hf_model) (dst_folder : string) : io unit :=
  Os.makedirs dst_folder ;;
  for_each
    (fun np =>
       let* files := lift (converted (hf_cfg model) np) in
       for_each (fun f => Torch.tofile (snd f) (Os.join dst_folder [fst f])) files)
    (named_parameters model) ;;
  (* LM head weight *)
  Torch.tofile (lm_head_weight model) (Os.join dst_folder ["lm_head.weight"]).

Definition model_class : ModelClass :=
  mkModelClass convert_hf_weight_name convert_hf_model.

(** What [FlexFlowFalcon.__init__] raises before it builds the model: its
    two [ValueError]s, or what a check itself raised. *)
Inductive init_error :=
  | HiddenSizeNotDivisible (hidden_size n_head : Z)
  | HeadsBelowParallelism (n_head tensor_parallelism_degree : Z)
  | InitRaised (e : exn).

(** The sanity checks of [FlexFlowFalcon.__init__]; [FalconConfig] takes the
    head count from the configuration as [convert_hf_model] does. *)
Definition sanity_checks (cfg : hf_config) (tensor_parallelism_degree : Z)
  : init_error + unit :=
  match pymod (cfg_hidden_size cfg) (n_head cfg) with
  | Raises e => inl (InitRaised e)
  | Returns r =>
      if negb (r =? 0)
      then inl (HiddenSizeNotDivisible (cfg_hidden_size cfg) (n_head cfg))
      else if n_head cfg <? tensor_parallelism_degree
      then inl (HeadsBelowParallelism (n_head cfg) tensor_parallelism_degree)
      else
        match pymod (n_head cfg) tensor_parallelism_degree with
        | Raises e => inl (InitRaised e)
        | Returns r' =>
            if negb (r' =? 0)
            then inl (HeadsBelowParallelism (n_head cfg) tensor_parallelism_degree)
            else inr tt
        end
  end.

End FlexFlowFalcon.

(** ** [serve.py]: adapters and generation *)

Inductive warning :=
  | BothBoundsSet (max_new_tokens max_length : Z).
      (* Both `max_new_tokens` and `max_length` seem to have been set.
         `max_new_tokens` will take precedence. *)

(** Calls into the engine, in the order made. *)
Inductive event :=
  | EvFFCompile (cfg : LoraLinearConfig)        (* [lora_config.ff_compile()] *)
  | EvRegisterPeft (cfg : LoraLinearConfig)     (* [ffmodel.register_peft_adapter] *)
  | EvGenerate (requests : list pyval).         (* [ffmodel.generate] *)

Record session := mkSession {
  s_self : LLM;
  s_world : world;
  s_events : list event;
  s_warnings : list warning
}.

Definition set_pefts (d : list (Z * peft_entry)) (l : LLM) : LLM :=
  mkLLM (model_name l) (data_type l) (cache_path l) (refresh_cache l) (output_file l)
        (model_class l) d (tokenizer l) (max_seq_length l) (model l).

Definition set_tokenizer (t : Tokenizer) (l : LLM) : LLM :=
  mkLLM (model_name l) (data_type l) (cache_path l) (refresh_cache l) (output_file l)
        (model_class l) (pefts l) (Some t) (max_seq_length l) (model l).

Definition modify_self (f : LLM -> LLM) : prog session unit :=
  fun s => (Returns tt, mkSession (f (s_self s)) (s_world s) (s_events s) (s_warnings s)).

Definition log (e : event) : prog session unit :=
  fun s => (Returns tt,
            mkSession (s_self s) (s_world s) (s_events s ++ [e]) (s_warnings s)).

Definition set_warnings (ws : list warning) : prog session unit :=
  fun s => (Returns tt, mkSession (s_self s) (s_world s) (s_events s) ws).

(** [self.model.ffmodel], an attribute only [compile] sets. *)
Definition self_ffmodel : prog session FFModel :=
  fun s => match model (s_self s) with
           | Some m => (Returns m, s)
           | None => (Raises (AttributeError "model"), s)
           end.

(** [d[k] = v] on a dictionary kept in insertion order. *)
Fixpoint dict_set {K V} `{EqDecision K} (k : K) (v : V) (d : list (K * V))
  : list (K * V) :=
  match d with
  | [] => [(k, v)]
  | (k', v') :: r =>
      if decide (k' = k) then (k', v) :: r else (k', v') :: dict_set k v r
  end.

Fixpoint dict_get {K V} `{EqDecision K} (k : K) (d : list (K * V)) : option V :=
  match d with
  | [] => None
  | (k', v') :: r => if decide (k' = k) then Some v' else dict_get k r
  end.

(** [PeftConfig.from_pretrained(peft_model_id)] *)
Definition peft_config_from_pretrained (peft_model_id : string)
  : prog session PeftConfig :=
  fun s => match w_peft_configs (s_world s) !! peft_model_id with
           | Some c => (Returns c, s)
           | None => (Raises (LoadError peft_model_id), s)
           end.

(** [LLM.register_peft_adapter] *)
Definition register_peft_adapter (lora_config : option LoraLinearConfig)
  : prog session unit :=
  match lora_config with
  | None => raise LoraConfigNone
  | Some lora_config =>
      if Nat.eqb (String.length (default "" (peft_model_id lora_config))) 0
      then raise EmptyPeftModelId
      else
        let* s := get in
        let* peft_config :=
          (if negb (trainable lora_config) || negb (init_lora_weights lora_config)
           then peft_config_from_pretrained (default "" (peft_model_id lora_config))
           else ret (mkPeftConfig "LORA" true (Some (model_name (s_self s)))
                       (rank lora_config) (target_modules lora_config)
                       (lora_alpha lora_config) (lora_dropout lora_config)
                       (init_lora_weights lora_config))) in
        if negb (String.eqb (peft_type peft_config) "LORA")
        then raise (PeftTypeNotSupported (peft_type peft_config))
        else if negb (has_base_model_key peft_config)
        then raise (NoAssociatedBaseModel (default "" (peft_model_id lora_config)))
        else if negb (bool_decide (base_model_name_or_path peft_config
                                   = Some (model_name (s_self s))))
        then raise (BaseModelMismatch (base_model_name_or_path peft_config)
                                      (model_name (s_self s)))
        else
          log (EvFFCompile lora_config) ;;
          let* ffmodel := self_ffmodel in
          log (EvRegisterPeft lora_config) ;;
          let entry := mkPeftEntry peft_config (peft_type peft_config)
                         (ff_register_peft_adapter ffmodel lora_config) in
          modify_self (fun l => set_pefts (dict_set (lora_object lora_config) entry
                                             (pefts l)) l)
  end.


(** The body of the loop of [_generate] runs on the request object it
    mutates and the warnings emitted so far. *)
Definition body := prog (Request * list warning).

Definition the_req : body Request := fun s => (Returns (fst s), s).

Definition set_max_length (n : Z) : body unit :=
  fun s => (Returns tt,
            (mkRequest (req_type (fst s)) (prompt (fst s)) n
                       (max_new_tokens (fst s)) (add_special_tokens (fst s)),
             snd s)).

(** [warnings.warn(...)].
    Modelled from the spec: the [warnings] module is, like [os], not imported
    by name in [serve.py]; both are taken to come with
    [from flexflow.core import *], a module that is not part of the sources
    at hand.  The spec has the warning surfaced and not fatal. *)
Definition warn (w : warning) : body unit :=
  fun s => (Returns tt, (fst s, snd s ++ [w])).

(** [self.max_seq_length], an attribute only [compile] sets. *)
Definition self_max_seq_length {S} (msl : option Z) : prog S Z :=
  match msl with
  | Some n => ret n
  | None => raise (AttributeError "max_seq_length")
  end.

(** The [if] / [elif] on the two bounds of an inference request. *)
Definition resolve_bounds (msl : option Z) : body unit :=
  let* req := the_req in
  if (max_length req =? -1) && (max_new_tokens req =? -1) then
    let* m := self_max_seq_length msl in
    set_max_length (m - 1)
  else if negb (max_length req =? -1) && negb (max_new_tokens req =? -1) then
    warn (BothBoundsSet (max_new_tokens req) (max_length req)) ;;
    set_max_length (-1)
  else ret tt.

(** The bound check that follows it. *)
Definition check_bounds (msl : option Z) : body unit :=
  let* req := the_req in
  let* m := self_max_seq_length msl in
  if (max_length req >=? m) || (max_new_tokens req >=? m)
  then raise (BoundsExceeded (max_length req) (max_new_tokens req) m)
  else ret tt.

(** One iteration of the loop of [_generate]. *)
Definition resolve_request (msl : option Z) : body unit :=
  let* req := the_req in
  match req_type req with
  | REQ_INFERENCE =>
      (* check max_length and max_new_tokens parameters *)
      resolve_bounds msl ;;
      check_bounds msl
  | REQ_FINETUNING =>
      if negb (max_new_tokens req =? -1)
      then raise (NewTokensInFinetuning (max_new_tokens req))
      else
        (if max_length req =? -1
         then let* m := self_max_seq_length msl in set_max_length (m - 1)
         else ret tt) ;;
        let* req := the_req in
        let* m := self_max_seq_length msl in
        if max_length req >=? m
        then raise (FinetuneBoundsExceeded (max_length req) m)
        else ret tt
  end.

(** The loop of [_generate]: the request objects as the loop leaves them
    (they are mutated in place), the warnings, and whether it raised. *)
Fixpoint resolve_requests (msl : option Z) (requests : list pyval) (ws : list warning)
  : list pyval * list warning * outcome unit :=
  match requests with
  | [] => ([], ws, Returns tt)
  | PRequest r :: rest =>
      match resolve_request msl (r, ws) with
      | (Returns _, (r', ws')) =>
          let '(rest', ws'', o) := resolve_requests msl rest ws' in
          (PRequest r' :: rest', ws'', o)
      | (Raises e, (r', ws')) => (PRequest r' :: rest, ws', Raises e)
      end
  | v :: rest => (v :: rest, ws, Raises (AttributeError "req_type"))
  end.

(** [LLM._generate] *)
Definition _generate (requests : list pyval) : prog session (list GenerationResult) :=
  if Nat.eqb (length requests) 0 then ret []
  else
    let* s := get in
    let '(requests', ws, o) :=
      resolve_requests (max_seq_length (s_self s)) requests (s_warnings s) in
    set_warnings ws ;;
    lift o ;;
    let* ffmodel := self_ffmodel in
    log (EvGenerate requests') ;;
    lift (ff_generate ffmodel requests').

(** [key in d] *)
Definition dict_has (key : string) (d : list (pyval * pyval)) : bool :=
  existsb (fun kv => match fst kv with
                     | PStr k => String.eqb k key
                     | _ => false
                     end) d.

(** The elements [for message in messages] visits. *)
Definition py_iter (v : pyval) : outcome (list pyval) :=
  match v with
  | PList l => Returns l
  | PDict d => Returns (map fst d)
  | PStr s => Returns (map (fun c => PStr (String c EmptyString)) (PyStr.list_of_str s))
  | _ => Raises TypeError
  end.

Definition valid_message (message : pyval) : bool :=
  match message with
  | PDict d => dict_has "role" d && dict_has "content" d
  | _ => false
  end.

(** [AutoTokenizer.from_pretrained(self.model_name)] *)
Definition tokenizer_from_pretrained (model_name : string) : prog session Tokenizer :=
  fun s => match w_tokenizers (s_world s) !! model_name with
           | Some t => (Returns t, s)
           | None => (Raises (LoadError model_name), s)
           end.

(** [LLM.__chat2prompt] *)
Definition chat2prompt (messages : pyval) : prog session string :=
  (* ensure that each element is a dictionary, containing the "role" and
     "content" keys *)
  let* elements := lift (py_iter messages) in
  for_each (fun message =>
              if valid_message message then ret tt else raise InvalidChatMessage)
           elements ;;
  let* s := get in
  let* tok :=
    (match tokenizer (s_self s) with
     | Some t => ret t
     | None =>
         let* t := tokenizer_from_pretrained (model_name (s_self s)) in
         modify_self (set_tokenizer t) ;;
         ret t
     end) in
  match chat_template tok with
  | None => raise (NoChatTemplate (model_name (s_self s)))
  | Some _ => ret (apply_chat_template tok messages)
  end.

(** [len(v)] *)
Definition py_len (v : pyval) : outcome nat :=
  match v with
  | PStr s => Returns (PyStr.len s)
  | PList l => Returns (length l)
  | PDict d => Returns (length d)
  | _ => Raises TypeError
  end.

(** The loop of [__output2chat_response]; the two lists have equal lengths. *)
Fixpoint strip_prompts (requests : list Request) (outputs : list GenerationResult)
  : outcome (list GenerationResult) :=
  match requests, outputs with
  | r :: rs, o :: os =>
      match py_len (prompt r) with
      | Raises e => Raises e
      | Returns n =>
          match strip_prompts rs os with
          | Raises e => Raises e
          | Returns os' => Returns (mkResult (PyStr.slice_from n (output_text o)) :: os')
          end
      end
  | _, _ => Returns []
  end.

(** [LLM.__output2chat_response] *)
Definition output2chat_response (requests : list Request)
    (outputs : list GenerationResult) : outcome (list GenerationResult) :=
  if Nat.eqb (length requests) (length outputs)
  then strip_prompts requests outputs
  else Raises AssertionError.

(** [LLM.generate]; [None] is Python's [None]. *)
Definition generate (requests_or_prompts : pyval) (max_length max_new_tokens : Z)
  : prog session (option (list GenerationResult)) :=
  match requests_or_prompts with
  | PStr text =>
      if Nat.eqb (String.length text) 0 then ret (Some [])
      else
        let request :=
          mkRequest REQ_INFERENCE (PStr text) max_length max_new_tokens None in
        let* out := _generate [PRequest request] in
        ret (Some out)
  | PRequest r =>
      let* out := _generate [PRequest r] in
      ret (Some out)
  | PList l =>
      match l with
      | [] => ret (Some [])
      | PStr _ :: _ =>
          let requests :=
            map (fun req => PRequest (mkRequest REQ_INFERENCE req
                                        max_length max_new_tokens None)) l in
          let* out := _generate requests in
          ret (Some out)
      | PDict _ :: _ =>
          let* prompt := chat2prompt (PList l) in
          let request :=
            mkRequest REQ_INFERENCE (PStr prompt) max_length max_new_tokens
                      (Some false) in
          let* outputs := _generate [PRequest request] in
          let* out := lift (output2chat_response [request] outputs) in
          ret (Some out)
      | PList _ :: _ =>
          let* prompts := map_m chat2prompt l in
          let requests :=
            map (fun prompt => mkRequest REQ_INFERENCE (PStr prompt)
                                 max_length max_new_tokens (Some false)) prompts in
          let* outputs := _generate (map PRequest requests) in
          let* out := lift (output2chat_response requests outputs) in
          ret (Some out)
      | PRequest _ :: _ =>
          let* out := _generate l in
          ret (Some out)
      | _ => ret None
      end
  | _ => raise AssertionError
  end.

(** ** [serve.py]: the supported architectures *)

Inductive ModelType := LLAMA | OPT | FALCON | STARCODER | MPT.

(** The [architectures] attribute of a HuggingFace configuration: missing,
    [None], or a list whose elements are names or [None]. *)
Inductive architectures_attr :=
  | ArchMissing
  | ArchNone
  | ArchList (l : list (option string)).

(** A value of [supported_models]: the model type, and the model class and
    the configuration class by their names. *)
Definition supported_model := (ModelType * string * string)%type.

Inductive get_ff_model_type_error :=
  | NotIterable                                       (* [iter(None)] *)
  | NotYetSupported (architectures : list (option string)).

Module SupportedModels.

Definition supported_models : list (string * supported_model) :=
  [ ("LlamaForCausalLM", (LLAMA, "FlexFlowLLAMA", "LLAMAConfig"));
    ("LLaMAForCausalLM", (LLAMA, "FlexFlowLLAMA", "LLAMAConfig"));
    ("OPTForCausalLM", (OPT, "FlexFlowOPT", "OPTConfig"));
    ("RWForCausalLM", (FALCON, "FlexFlowFalcon", "FalconConfig"));
    ("FalconForCausalLM", (FALCON, "FlexFlowFalcon", "FalconConfig"));
    ("GPTBigCodeForCausalLM", (STARCODER, "FlexFlowSTARCODER", "STARCODERConfig"));
    ("MPTForCausalLM", (MPT, "FlexFlowMPT", "MPTConfig")) ].

(** [_SupportedModels.get_ff_model_type]; [getattr] gives the empty list
    for a missing attribute. *)
Definition get_ff_model_type (architectures : architectures_attr)
  : get_ff_model_type_error + supported_model :=
  match architectures with
  | ArchNone => inl NotIterable
  | ArchMissing => inl (NotYetSupported [])
  | ArchList l =>
      let ff_arch :=
        match l with
        | Some first :: _ => dict_get first supported_models
        | _ => None
        end in
      match ff_arch with
      | None => inl (NotYetSupported l)
      | Some a => inr a
      end
  end.

End SupportedModels.

(** ** Concrete objects for the examples *)

Module Demo.

Definition t0 : pyfloat := PyFloat "1700000000.0".

(** An engine that echoes each prompt and continues it. *)
Definition echo (v : pyval) : GenerationResult :=
  match v with
  | PRequest r =>
      match prompt r with
      | PStr p => mkResult (p +:+ "Hello!")
      | _ => mkResult ""
      end
  | _ => mkResult ""
  end.

Definition ffmodel : FFModel :=
  mkFFModel (fun requests => Returns (map echo requests)) (fun _ => 7).

(** Renders each message as [<role>content] and opens the answer. *)
Definition render_message (m : pyval) : string :=
  match m with
  | PDict [(PStr _, PStr role); (PStr _, PStr content)] =>
      "<" +:+ role +:+ ">" +:+ content
  | _ => ""
  end.

Definition render (messages : pyval) : string :=
  match messages with
  | PList l => fold_right (fun m acc => render_message m +:+ acc) "<assistant>" l
  | _ => "<assistant>"
  end.

Definition chat_tokenizer : Tokenizer := mkTokenizer (Some "chatml") render.

Definition falcon_repo : repo :=
  Repo "c47b371b31a68349c233104050ac76680b8485db"
       [("config.json", "{}"); ("tokenizer.json", "{}")].

Definition adapter_repo : repo :=
  Repo "5d2a2bd1a4e0b6ab0a0a3a3cf1d0e7d7a86a1b7f"
       [("adapter_config.json", "{}")].

Definition lora_peft_config : PeftConfig :=
  mkPeftConfig "LORA" true (Some "huggyllama/llama-7b") 16 ["q_proj"; "v_proj"]
               "16" "0.0" true.

Definition ia3_peft_config : PeftConfig :=
  mkPeftConfig "IA3" true (Some "huggyllama/llama-7b") 0 [] "0" "0.0" true.

Definition world0 : world :=
  World (Dir [] t0) [] "/home/user" t0
        (<["tiiuae/falcon-7b" := falcon_repo]>
           (<["goliaro/falcon-lora" := adapter_repo]> ∅))
        ∅
        (<["tiiuae/falcon-7b" := chat_tokenizer]> ∅)
        (<["goliaro/llama-lora" := lora_peft_config]>
           (<["goliaro/llama-ia3" := ia3_peft_config]> ∅)).

(** A compiled LLM with the default [max_seq_length]. *)
Definition llm : LLM :=
  mkLLM "tiiuae/falcon-7b" DT_HALF "~/.cache/flexflow" false ""
        FlexFlowFalcon.model_class [] None (Some 256) (Some ffmodel).

Definition session0 : session := mkSession llm world0 [] [].

(** A configuration object for an adapter that exists on the hub. *)
Definition lora (id : string) : LoraLinearConfig :=
  mkLora 1 (Some id) false false 16 ["q_proj"; "v_proj"] "16" "0.0".

Definition message (role content : string) : pyval :=
  PDict [(PStr "role", PStr role); (PStr "content", PStr content)].

(** A small Falcon checkpoint in the multi-query layout. *)
Definition letters (n : nat) : tensor :=
  map (fun i => [String (PyStr.chr (97 + Z.of_nat i)) EmptyString]) (seq 0 n).

Definition tiny_falcon : hf_model :=
  HfModel (HfConfig None 4 8)
    [ ("transformer.word_embeddings.weight", letters 2);
      ("transformer.h.0.self_attention.query_key_value.weight", letters 12);
      ("transformer.h.0.self_attention.dense.weight", letters 3) ]
    (letters 2).

(** The world once [from_pretrained] can load the model. *)
Definition with_pretrained (name : string) (m : hf_model) (w : world) : world :=
  World (w_root w) (w_cwd w) (w_home w) (w_now w) (w_hub w)
        (<[name := m]> (w_pretrained w)) (w_tokenizers w) (w_peft_configs w).

(** A model kept in a local directory, in two listing orders. *)
Definition config_json : string * node :=
  ("config.json", File "{}" (PyFloat "1700000000.0")).

Definition safetensors (content : string) : string * node :=
  ("model.safetensors", File content (PyFloat "1700000100.5")).

Definition local_world (es : list (string * node)) : world :=
  World (Dir [("models", Dir [("tiny", Dir es t0)] t0)] t0)
        [] "/home/user" t0 ∅ ∅ ∅ ∅.

Definition local_llm : LLM :=
  mkLLM "models/tiny" DT_HALF "~/.cache/flexflow" false ""
        FlexFlowFalcon.model_class [] None None None.

(** The same model, named by its absolute path. *)
Definition absolute_llm : LLM :=
  mkLLM "/models/tiny" DT_HALF "~/.cache/flexflow" false ""
        FlexFlowFalcon.model_class [] None None None.

End Demo.

(** ** Vocabulary of the properties *)

Definition with_max_length (n : Z) (r : Request) : Request :=
  mkRequest (req_type r) (prompt r) n (max_new_tokens r) (add_special_tokens r).

Definition dispatched (s : session) (requests : list pyval) (ws : list warning)
  : session :=
  mkSession (s_self s) (s_world s) (s_events s ++ [EvGenerate requests]) ws.

Definition hello_world_requests : list pyval :=
  [ PRequest (mkRequest REQ_INFERENCE (PStr "hello") 255 (-1) None);
    PRequest (mkRequest REQ_INFERENCE (PStr "world") 255 (-1) None) ].

Definition accepted_element (v : pyval) : bool :=
  match v with
  | PStr _ | PDict _ | PList _ | PRequest _ => true
  | _ => false
  end.

(** The claim of C8 in the spec's words: a declared base model other than
    the session's always gives the base-model-mismatch error. *)
Definition mismatch_always_reported (s : session) (cfg : LoraLinearConfig)
    (pc : PeftConfig) : Prop :=
  base_model_name_or_path pc <> Some (model_name (s_self s)) ->
  fst (register_peft_adapter (Some cfg) s)
  = Raises (BaseModelMismatch (base_model_name_or_path pc) (model_name (s_self s))).

(** The claim of C9 in the spec's words: a fused projection of width [3H]
    is split in three parts of width [H] that concatenate to it again. *)
Definition splits_in_thirds (cfg : hf_config) (params : tensor) : Prop :=
  Z.of_nat (length params) = 3 * cfg_hidden_size cfg ->
  exists q k v,
    FlexFlowFalcon.split_qkv cfg params = Returns (q, k, v) /\
    Z.of_nat (length q) = cfg_hidden_size cfg /\
    Z.of_nat (length k) = cfg_hidden_size cfg /\
    Z.of_nat (length v) = cfg_hidden_size cfg /\
    Torch.cat [q; k; v] = params.

Definition rows : nat -> tensor := Demo.letters.

Definition falcon_7b_like : hf_config := HfConfig None 4 8.

(** The conversations a chat-shaped list stands for: the list itself when it
    starts with a message, its elements when it starts with a list. *)
Definition conversations (l : list pyval) : option (list pyval) :=
  match l with
  | PDict _ :: _ => Some [PList l]
  | PList _ :: _ => Some l
  | _ => None
  end.

Definition valid_conversation (v : pyval) : bool :=
  match v with
  | PList messages => forallb valid_message messages
  | _ => false
  end.

(** The tokenizer a session renders with: the one it holds, or the one
    loaded on first use. *)
Definition session_tokenizer (s : session) : option Tokenizer :=
  match tokenizer (s_self s) with
  | Some t => Some t
  | None => w_tokenizers (s_world s) !! model_name (s_self s)
  end.

(** The session once that tokenizer is stored in it. *)
Definition loaded (s : session) : session :=
  match tokenizer (s_self s), session_tokenizer s with
  | None, Some t =>
      mkSession (set_tokenizer t (s_self s)) (s_world s) (s_events s) (s_warnings s)
  | _, _ => s
  end.

Definition strip (p : string) (o : GenerationResult) : GenerationResult :=
  mkResult (PyStr.slice_from (PyStr.len p) (output_text o)).

Definition chat_request (max_length max_new_tokens : Z) (p : string) : Request :=
  mkRequest REQ_INFERENCE (PStr p) max_length max_new_tokens (Some false).

Definition prompt_of (v : pyval) : pyval :=
  match v with
  | PRequest r => prompt r
  | _ => PNone
  end.

Definition hi_prompt : string := "<user>hi<assistant>".

(** A name as [os.listdir] gives them: not empty, no slash, not a dot
    entry. *)
Definition plain_name (f : string) : Prop :=
  f <> "" /\ f <> "." /\ f <> ".." /\ PyStr.has_char Os.slash f = false.

(** A procedure that only reads the world. *)
Definition pure_read {A} (m : io A) : Prop := forall w, snd (m w) = w.

(** The path [__get_resource_path] returns. *)
Definition resource_path (self : LLM) (name : string) (kind : CachedResourceType)
    (w : world) : string :=
  match fst (get_resource_path self name kind w) with
  | Returns p => p
  | Raises _ => ""
  end.

(** The stored and the latest revision as [__need_cache_refresh] sees them. *)
Definition stored_revision (rp : string) (w : world) : outcome (option string) :=
  fst (read_ff_revision rp w).

Definition latest_revision (self : LLM) (w : world) : outcome string :=
  fst (compute_latest_revision self (model_name self) w).

(** Two paths neither of which lies inside the other. *)
Definition unrelated (p q : path) : Prop :=
  ~ p `prefix_of` q /\ ~ q `prefix_of` p.

(** Revisions on the hub are commit hashes: they hold no white space. *)
Definition hub_hashes_plain (w : world) : Prop :=
  map_Forall (fun _ r => PyStr.no_space (repo_sha r)) (w_hub w).

Definition cached (rp : string) (w : world) : bool :=
  bool_decide (is_Some (Os.lookup (Os.resolve w rp) (w_root w))).

(** The steps of a refresh: the [then] branch of [__need_cache_refresh]. *)
Definition refresh_steps (rp latest : string) : io bool :=
  let* present := Os.exists_ rp in
  (if present : bool then Os.rmtree rp else ret tt) ;;
  Os.makedirs rp ;;
  Os.write_file (Os.join rp ["rev_sha.txt"]) latest ;;
  ret true.

Definition falcon_weights_checked : world :=
  snd (need_cache_refresh Demo.llm "tiiuae/falcon-7b" WEIGHTS Demo.world0).

(** A directory as [os.listdir] and [os.path.getmtime] show it: the names in
    listing order, each with its modification time. *)
Definition listing (es : list (string * node)) : list (string * pyfloat) :=
  map (fun e => (fst e, node_mtime (snd e))) es.

(** [hashlib.md5(str(files + mtimes).encode("utf-8")).hexdigest()] *)
Definition revision_of_listing (l : list (string * pyfloat)) : string :=
  MD5.hexdigest
    (PyStr.encode_utf8
       (str_of_reprs (map (fun e => PyStr.repr (fst e)) l
                      ++ map (fun e => float_repr (snd e)) l))).

Definition wf_entries (es : list (string * node)) : Prop :=
  Forall (fun e => plain_name (fst e)) es /\ NoDup (map fst es).

(** The claim of C4 in the spec's words: the revision is a function of the
    directory contents, the names being sorted first, so that the order in
    which the directory lists them does not matter. *)
Definition revision_by_contents (self : LLM) (name : string) (w w' : world) : Prop :=
  forall es es' mt mt',
    Os.lookup (Os.resolve w name) (w_root w) = Some (Dir es mt) ->
    Os.lookup (Os.resolve w' name) (w_root w') = Some (Dir es' mt') ->
    Permutation es es' ->
    fst (compute_latest_revision self name w) = fst (compute_latest_revision self name w').

Definition falcon_weights_path : string :=
  resource_path Demo.llm "tiiuae/falcon-7b" WEIGHTS Demo.world0.

(** The weights cannot be loaded: the conversion never starts. *)
Definition failed_download : outcome unit * world :=
  download_hf_weights_if_needed Demo.llm Demo.world0.

(** Later the model can be loaded. *)
Definition second_attempt : world :=
  Demo.with_pretrained "tiiuae/falcon-7b" Demo.tiny_falcon (snd failed_download).

Definition adapter_weights_path : string :=
  resource_path Demo.llm "goliaro/falcon-lora" WEIGHTS Demo.world0.

(** The check of [download_peft_adapter_if_needed] for the adapter. *)
Definition adapter_checked : outcome bool * world :=
  need_cache_refresh Demo.llm "goliaro/falcon-lora" WEIGHTS Demo.world0.

(** What one pass of the loop of [_generate] lets through, on the request
    as the caller built it. *)
Definition accepts (m : Z) (r : Request) : Prop :=
  match req_type r with
  | REQ_INFERENCE =>
      -1 < m /\ max_new_tokens r < m /\ (max_new_tokens r = -1 -> max_length r < m)
  | REQ_FINETUNING =>
      max_new_tokens r = -1 /\ (max_length r = -1 \/ max_length r < m)
  end.

(** An element of a batch that the loop lets through. *)
Definition admissible (m : Z) (v : pyval) : Prop :=
  match v with
  | PRequest r => accepts m r
  | _ => False
  end.


(** Two values that differ at most by the [max_length] of a request. *)
Definition same_but_max_length (v v' : pyval) : Prop :=
  match v, v' with
  | PRequest r, PRequest r' => r' = with_max_length (max_length r') r
  | _, _ => v' = v
  end.

(** A conversation [__chat2prompt] turns down: a list holding a message
    that is not a dictionary with the keys "role" and "content". *)
Definition rejected_conversation (v : pyval) : bool :=
  match v with
  | PList messages => negb (forallb valid_message messages)
  | _ => false
  end.

(** The PEFT configuration a registration works with: fetched for an
    adapter that exists already, built from the LoRA configuration for one
    that is to be trained from fresh weights. *)
Definition adapter_peft_config (s : session) (cfg : LoraLinearConfig)
  : outcome PeftConfig :=
  if negb (trainable cfg) || negb (init_lora_weights cfg)
  then fst (peft_config_from_pretrained (default "" (peft_model_id cfg)) s)
  else Returns (mkPeftConfig "LORA" true (Some (model_name (s_self s)))
                  (rank cfg) (target_modules cfg) (lora_alpha cfg)
                  (lora_dropout cfg) (init_lora_weights cfg)).

(** The session a registration that went through leaves. *)
Definition registered (s : session) (cfg : LoraLinearConfig) (pc : PeftConfig)
    (ff : FFModel) : session :=
  mkSession
    (set_pefts
       (dict_set (lora_object cfg)
          (mkPeftEntry pc (peft_type pc) (ff_register_peft_adapter ff cfg))
          (pefts (s_self s)))
       (s_self s))
    (s_world s)
    (s_events s ++ [EvFFCompile cfg; EvRegisterPeft cfg])
    (s_warnings s).

(** A string of white space only. *)
Definition all_space (s : string) : Prop :=
  Forall (fun c => PyStr.isspace c = true) (PyStr.list_of_str s).

(** Further concrete objects. *)
Module Sample.

(** A model object as [LLM.__init__] leaves it: not compiled. *)
Definition fresh_llm : LLM :=
  LLM_init "tiiuae/falcon-7b" DT_HALF "" false "" FlexFlowFalcon.model_class.

Definition fresh_session : session := mkSession fresh_llm Demo.world0 [] [].

(** The same model with [refresh_cache] set. *)
Definition forcing_llm : LLM :=
  LLM_init "tiiuae/falcon-7b" DT_HALF "" true "" FlexFlowFalcon.model_class.

(** A LoRA adapter of the Falcon model on the hub. *)
Definition falcon_peft_config : PeftConfig :=
  mkPeftConfig "LORA" true (Some "tiiuae/falcon-7b") 16 ["dense_h_to_4h"]
               "16" "0.0" true.

Definition adapter_world : world :=
  World (w_root Demo.world0) (w_cwd Demo.world0) (w_home Demo.world0)
        (w_now Demo.world0) (w_hub Demo.world0) (w_pretrained Demo.world0)
        (w_tokenizers Demo.world0)
        (<["goliaro/falcon-lora" := falcon_peft_config]> (w_peft_configs Demo.world0)).

Definition adapter_session : session := mkSession Demo.llm adapter_world [] [].

(** Another object with the attributes of [Demo.lora "goliaro/falcon-lora"]. *)
Definition lora_copy : LoraLinearConfig :=
  mkLora 2 (Some "goliaro/falcon-lora") false false 16 ["q_proj"; "v_proj"] "16" "0.0".

(** An adapter to be trained from fresh weights. *)
Definition new_lora : LoraLinearConfig :=
  mkLora 3 (Some "me/new-adapter") true true 8 ["dense_h_to_4h"] "8" "0.0".

(** A tokenizer without a chat template. *)
Definition base_tokenizer : Tokenizer := mkTokenizer None Demo.render.

Definition base_session : session :=
  mkSession (set_tokenizer base_tokenizer Demo.llm) Demo.world0 [] [].

(** A checkpoint whose fused projection has 5 rows where 12 are due. *)
Definition broken_falcon : hf_model :=
  HfModel (HfConfig None 4 8)
    [ ("transformer.word_embeddings.weight", Demo.letters 2);
      ("transformer.h.0.self_attention.query_key_value.weight", Demo.letters 5) ]
    (Demo.letters 2).

Definition within (ml mnt : Z) : pyval :=
  PRequest (mkRequest REQ_INFERENCE (PStr "Once upon a time") ml mnt None).

Definition loading_world : world :=
  Demo.with_pretrained "tiiuae/falcon-7b" Demo.tiny_falcon Demo.world0.

End Sample.

(** * Properties *)

Example md5_empty : MD5.hexdigest [] = "d41d8cd98f00b204e9800998ecf8427e".
Proof. vm_compute. reflexivity. Qed.

Example md5_abc :
  MD5.hexdigest (PyStr.encode_utf8 "abc") = "900150983cd24fb0d6963f7d28e17f72".
Proof. vm_compute. reflexivity. Qed.

(** ** Request normalisation *)

Ltac run :=
  cbv [bind ret raise get put lift the_req set_max_length warn self_max_seq_length
       set_warnings log self_ffmodel modify_self fst snd].

(** What [_generate] does once the loop over the requests went through. *)
Lemma generate_dispatches (s : session) (m : FFModel) (requests requests' : list pyval)
    (ws : list warning) :
  requests <> [] ->
  model (s_self s) = Some m ->
  resolve_requests (max_seq_length (s_self s)) requests (s_warnings s)
    = (requests', ws, Returns tt) ->
  _generate requests s = (ff_generate m requests', dispatched s requests' ws).
Proof.
  intros Hne Hm Hloop. unfold _generate.
  destruct requests as [|r rest]; [congruence|].
  cbn [length Nat.eqb]. run. rewrite Hloop. cbn. rewrite Hm. reflexivity.
Qed.

(** C5: an inference request with both bounds set keeps [max_new_tokens],
    has [max_length] reset to -1 and a warning emitted; the branch itself
    raises nothing, whether or not the model is compiled, and the iteration
    then only fails by the bound check on [max_new_tokens]. *)
Theorem both_bounds_set_new_tokens_win (msl : option Z) (req : Request)
    (ws : list warning) :
  req_type req = REQ_INFERENCE ->
  max_length req <> -1 ->
  max_new_tokens req <> -1 ->
  let req' := with_max_length (-1) req in
  let ws' := ws ++ [BothBoundsSet (max_new_tokens req) (max_length req)] in
  max_new_tokens req' = max_new_tokens req /\
  max_length req' = -1 /\
  resolve_bounds msl (req, ws) = (Returns tt, (req', ws')) /\
  (forall m, msl = Some m ->
     resolve_request msl (req, ws)
     = (if (-1 >=? m) || (max_new_tokens req >=? m)
        then Raises (BoundsExceeded (-1) (max_new_tokens req) m)
        else Returns tt,
        (req', ws'))) /\
  (forall s m ff, msl = Some m -> -1 < m -> max_new_tokens req < m ->
     max_seq_length (s_self s) = msl -> s_warnings s = ws ->
     model (s_self s) = Some ff ->
     _generate [PRequest req] s
     = (ff_generate ff [PRequest req'], dispatched s [PRequest req'] ws')).
Proof.
  intros Hty Hl Hn req' ws'.
  apply Z.eqb_neq in Hl. apply Z.eqb_neq in Hn.
  assert (Hb : resolve_bounds msl (req, ws) = (Returns tt, (req', ws'))).
  { unfold resolve_bounds. run. rewrite Hl, Hn. reflexivity. }
  assert (Hr : forall m, msl = Some m ->
            resolve_request msl (req, ws)
            = (if (-1 >=? m) || (max_new_tokens req >=? m)
               then Raises (BoundsExceeded (-1) (max_new_tokens req) m)
               else Returns tt,
               (req', ws'))).
  { intros m ->. unfold resolve_request.
    unfold bind at 1. cbv [the_req fst]. rewrite Hty.
    unfold bind at 1. rewrite Hb.
    unfold check_bounds. run. cbn [max_length max_new_tokens req' with_max_length].
    destruct ((-1 >=? m) || (max_new_tokens req >=? m)); reflexivity. }
  repeat split; try assumption.
  intros s m ff Hmsl Hm1 Hm2 Hs Hws Hff.
  apply generate_dispatches; [discriminate | assumption |].
  rewrite Hs, Hws. cbn [resolve_requests].
  unfold body, Request in *. rewrite (Hr m Hmsl).
  replace ((-1 >=? m) || (max_new_tokens req >=? m)) with false; [reflexivity|].
  symmetry. rewrite !Z.geb_leb. apply orb_false_iff. split; apply Z.leb_gt; lia.
Qed.

Lemma both_bounds_set_new_tokens_win_witness :
  let req := mkRequest REQ_INFERENCE (PStr "Tell me a story") 64 32 None in
  resolve_bounds (Some 256) (req, [])
  = (Returns tt, (with_max_length (-1) req, [BothBoundsSet 32 64])) /\
  _generate [PRequest req] Demo.session0
  = (Returns [mkResult "Tell me a storyHello!"],
     dispatched Demo.session0 [PRequest (with_max_length (-1) req)]
       [BothBoundsSet 32 64]).
Proof.
  intro req.
  pose proof (both_bounds_set_new_tokens_win (Some 256) req [] eq_refl
                ltac:(discriminate) ltac:(discriminate)) as (_ & _ & Hb & _ & Hg).
  split; [exact Hb|].
  exact (Hg Demo.session0 256 Demo.ffmodel eq_refl eq_refl eq_refl eq_refl eq_refl
           eq_refl).
Defined.

(** C6: ["hello", "world"] with [max_seq_length = 256] and both bounds left
    unset is dispatched as two inference requests, in input order, each with
    [max_length = 255]. *)
Theorem generate_hello_world (s : session) (m : FFModel) :
  max_seq_length (s_self s) = Some 256 ->
  model (s_self s) = Some m ->
  generate (PList [PStr "hello"; PStr "world"]) (-1) (-1) s
  = (match ff_generate m hello_world_requests with
     | Returns out => Returns (Some out)
     | Raises e => Raises e
     end,
     dispatched s hello_world_requests (s_warnings s)).
Proof.
  intros Hmsl Hm. cbn [generate map]. unfold bind at 1.
  rewrite (generate_dispatches s m _ hello_world_requests (s_warnings s));
    [ | discriminate | assumption | rewrite Hmsl; reflexivity ].
  destruct (ff_generate m hello_world_requests); reflexivity.
Qed.

Lemma generate_hello_world_witness :
  generate (PList [PStr "hello"; PStr "world"]) (-1) (-1) Demo.session0
  = (Returns (Some [mkResult "helloHello!"; mkResult "worldHello!"]),
     dispatched Demo.session0 hello_world_requests []).
Proof. exact (generate_hello_world Demo.session0 Demo.ffmodel eq_refl eq_refl). Defined.

(** C10: a non-empty list whose first element is neither a str, a dict, a
    list nor a Request makes [generate] return [None]: nothing is raised and
    nothing reaches the engine, whatever the other elements are. *)
Theorem generate_unrecognised_list_is_none (first : pyval) (rest : list pyval)
    (max_length max_new_tokens : Z) (s : session) :
  accepted_element first = false ->
  generate (PList (first :: rest)) max_length max_new_tokens s = (Returns None, s).
Proof. destruct first; cbn; intros H; (discriminate || reflexivity). Qed.

Lemma generate_unrecognised_list_is_none_witness :
  generate (PList [PInt 1; PInt 2; PStr "three"]) (-1) (-1) Demo.session0
  = (Returns None, Demo.session0).
Proof. apply generate_unrecognised_list_is_none. reflexivity. Defined.

(** ** Adapter registration *)

(** C8, counterexample: a fetched adapter of another type that also names
    another base model is turned down for its type, the type check coming
    first. *)
Lemma mismatch_reported_as_unsupported_type :
  w_peft_configs Demo.world0 !! "goliaro/llama-ia3" = Some Demo.ia3_peft_config /\
  register_peft_adapter (Some (Demo.lora "goliaro/llama-ia3")) Demo.session0
  = (Raises (PeftTypeNotSupported "IA3"), Demo.session0) /\
  ~ mismatch_always_reported Demo.session0 (Demo.lora "goliaro/llama-ia3")
      Demo.ia3_peft_config.
Proof.
  assert (H : register_peft_adapter (Some (Demo.lora "goliaro/llama-ia3")) Demo.session0
              = (Raises (PeftTypeNotSupported "IA3"), Demo.session0))
    by (vm_compute; reflexivity).
  split; [vm_compute; reflexivity|]. split; [exact H|].
  unfold mismatch_always_reported. rewrite H. cbn [fst].
  intros Hc. specialize (Hc ltac:(discriminate)). discriminate Hc.
Qed.

(** C8 (amended): an adapter whose fetched configuration names another base
    model is never registered, not even in part: the call raises and leaves
    the registry and the engine untouched.  The error is the base-model
    mismatch when the fetched configuration is of the LoRA type and carries
    a base-model key; the checks before it report their own errors. *)
Theorem register_mismatched_base_fails (s : session) (cfg : LoraLinearConfig)
    (id : string) (pc : PeftConfig) :
  peft_model_id cfg = Some id ->
  id <> "" ->
  trainable cfg = false \/ init_lora_weights cfg = false ->
  w_peft_configs (s_world s) !! id = Some pc ->
  base_model_name_or_path pc <> Some (model_name (s_self s)) ->
  exists e,
    register_peft_adapter (Some cfg) s = (Raises e, s) /\
    (peft_type pc = "LORA" -> has_base_model_key pc = true ->
     e = BaseModelMismatch (base_model_name_or_path pc) (model_name (s_self s))).
Proof.
  intros Hid Hne Hfetch Hpc Hbase. unfold register_peft_adapter.
  rewrite Hid. change (default "" (Some id)) with id.
  destruct id as [|c id]; [congruence|]. cbn [String.length Nat.eqb].
  unfold bind at 1. cbv [get].
  replace (negb (trainable cfg) || negb (init_lora_weights cfg)) with true
    by (destruct Hfetch as [-> | ->]; destruct (trainable cfg); reflexivity).
  unfold bind at 1. unfold peft_config_from_pretrained. rewrite Hpc.
  destruct (String.eqb (peft_type pc) "LORA") eqn:Hty; cbn [negb].
  - destruct (has_base_model_key pc) eqn:Hkey; cbn [negb].
    + rewrite bool_decide_eq_false_2 by assumption. cbn [negb].
      eexists. split; [reflexivity|]. reflexivity.
    + eexists. split; [reflexivity|]. discriminate.
  - eexists. split; [reflexivity|].
    intros Hl. apply String.eqb_neq in Hty. contradiction.
Qed.

Lemma register_mismatched_base_fails_witness :
  exists e,
    register_peft_adapter (Some (Demo.lora "goliaro/llama-lora")) Demo.session0
    = (Raises e, Demo.session0) /\
    (peft_type Demo.lora_peft_config = "LORA" ->
     has_base_model_key Demo.lora_peft_config = true ->
     e = BaseModelMismatch (Some "huggyllama/llama-7b") "tiiuae/falcon-7b").
Proof.
  apply (register_mismatched_base_fails Demo.session0
           (Demo.lora "goliaro/llama-lora") "goliaro/llama-lora" Demo.lora_peft_config).
  - reflexivity.
  - discriminate.
  - left. reflexivity.
  - vm_compute. reflexivity.
  - discriminate.
Defined.

(** A configuration synthesised for a fresh trainable adapter is bound to
    the session's own model, so the mismatch cannot arise there. *)
Lemma synthesised_config_never_mismatches (s : session) (cfg : LoraLinearConfig)
    (base : option string) (name : string) :
  trainable cfg = true ->
  init_lora_weights cfg = true ->
  fst (register_peft_adapter (Some cfg) s) <> Raises (BaseModelMismatch base name).
Proof.
  intros Ht Hi. unfold register_peft_adapter.
  destruct (Nat.eqb _ 0); [cbn; congruence|].
  unfold bind at 1. cbv [get]. rewrite Ht, Hi. cbn [negb orb].
  unfold bind at 1. cbv [ret]. cbn [peft_type has_base_model_key String.eqb Ascii.eqb
    Bool.eqb negb base_model_name_or_path].
  rewrite bool_decide_eq_true_2 by reflexivity. cbn [negb].
  run. cbn [s_self]. destruct (model (s_self s)); cbn; congruence.
Qed.

(** ** Falcon weight conversion *)

(** C9, counterexample: with hidden size 4 and 2 heads the sizes asked for
    are 4, 2 and 2, and a fused tensor of 12 rows is turned down by
    [torch.split]. *)
Lemma fused_3h_is_not_split_in_thirds :
  FlexFlowFalcon.split_qkv (HfConfig (Some 2) 2 4) (rows 12)
  = Raises (TorchSplitError [4; 2; 2] 12) /\
  ~ splits_in_thirds (HfConfig (Some 2) 2 4) (rows 12).
Proof.
  assert (H : FlexFlowFalcon.split_qkv (HfConfig (Some 2) 2 4) (rows 12)
              = Raises (TorchSplitError [4; 2; 2] 12)) by reflexivity.
  split; [exact H|].
  intros Hc. destruct (Hc eq_refl) as (q & k & v & Hs & _).
  rewrite H in Hs. discriminate Hs.
Qed.

Lemma chunks3 (t : tensor) (a b c : nat) :
  length t = (a + b + c)%nat ->
  exists q k v,
    Torch.chunks t [Z.of_nat a; Z.of_nat b; Z.of_nat c] = [q; k; v] /\
    length q = a /\ length k = b /\ length v = c /\ q ++ k ++ v = t.
Proof.
  intros Hlen. cbn [Torch.chunks]. rewrite !Nat2Z.id.
  exists (firstn a t), (firstn b (skipn a t)), (firstn c (skipn b (skipn a t))).
  split; [reflexivity|].
  assert (Hc : firstn c (skipn b (skipn a t)) = skipn b (skipn a t)).
  { apply firstn_all2. rewrite !length_skipn. lia. }
  repeat split.
  - rewrite length_firstn. lia.
  - rewrite length_firstn, length_skipn. lia.
  - rewrite length_firstn, !length_skipn. lia.
  - rewrite Hc, !firstn_skipn. reflexivity.
Qed.

Lemma append_assoc' (a b c : string) : (a +:+ b) +:+ c = a +:+ (b +:+ c).
Proof.
  induction a as [|x a IH]; [reflexivity|].
  change (String x ((a +:+ b) +:+ c) = String x (a +:+ (b +:+ c))).
  rewrite IH. reflexivity.
Qed.

Lemma to_bytes_app (a b : tensor) :
  Torch.to_bytes (a ++ b) = Torch.to_bytes a +:+ Torch.to_bytes b.
Proof.
  unfold Torch.to_bytes. rewrite concat_app.
  induction (concat a) as [|x l IH]; cbn; [reflexivity|].
  rewrite IH. symmetry. apply append_assoc'.
Qed.

(** C9 (amended): the fused projection is split along axis 0 in parts of
    widths [H], [H // n_head] and [H // n_head].  Whenever the split goes
    through the parts have these widths and concatenate, in Q, K, V order,
    to the fused tensor, as tensors and as written bytes; it goes through for
    every tensor of width [H + 2 * (H // n_head)], and the three parts are
    written under the [q_proj], [k_proj] and [v_proj] names. *)
Theorem split_qkv_round_trip (cfg : hf_config) (params : tensor) :
  let H := cfg_hidden_size cfg in
  let kv := H / FlexFlowFalcon.n_head cfg in
  (forall q k v,
     FlexFlowFalcon.split_qkv cfg params = Returns (q, k, v) ->
     Z.of_nat (length q) = H /\ Z.of_nat (length k) = kv /\
     Z.of_nat (length v) = kv /\
     Torch.cat [q; k; v] = params /\
     Torch.to_bytes q +:+ Torch.to_bytes k +:+ Torch.to_bytes v
     = Torch.to_bytes params) /\
  (FlexFlowFalcon.n_head cfg <> 0 -> 0 <= H -> 0 <= kv ->
   Z.of_nat (length params) = H + 2 * kv ->
   exists q k v,
     FlexFlowFalcon.split_qkv cfg params = Returns (q, k, v) /\
     forall name,
       PyStr.contains FlexFlowFalcon.qkv (FlexFlowFalcon.convert_hf_weight_name name)
       = true ->
       FlexFlowFalcon.converted cfg (name, params)
       = Returns
           [ (PyStr.replace FlexFlowFalcon.qkv "self_attention.q_proj"
                (FlexFlowFalcon.convert_hf_weight_name name), q);
             (PyStr.replace FlexFlowFalcon.qkv "self_attention.k_proj"
                (FlexFlowFalcon.convert_hf_weight_name name), k);
             (PyStr.replace FlexFlowFalcon.qkv "self_attention.v_proj"
                (FlexFlowFalcon.convert_hf_weight_name name), v) ]).
Proof.
  intros H kv.
  assert (Hsplit : forall q k v,
            FlexFlowFalcon.n_head cfg <> 0 -> 0 <= H -> 0 <= kv ->
            Z.of_nat (length params) = H + 2 * kv ->
            Torch.chunks params [H; kv; kv] = [q; k; v] ->
            Z.of_nat (length q) = H /\ Z.of_nat (length k) = kv /\
            Z.of_nat (length v) = kv /\ q ++ k ++ v = params).
  { intros q k v Hn HH Hkv Hlen Hch.
    destruct (chunks3 params (Z.to_nat H) (Z.to_nat kv) (Z.to_nat kv)) as
      (q' & k' & v' & Hch' & Hq & Hk & Hv & Hcat); [lia|].
    rewrite !Z2Nat.id in Hch' by assumption. rewrite Hch in Hch'.
    injection Hch' as -> -> ->. repeat split; try lia. exact Hcat. }
  split.
  - intros q k v. unfold FlexFlowFalcon.split_qkv, FlexFlowFalcon.qkv_sizes, floordiv.
    destruct (FlexFlowFalcon.n_head cfg =? 0) eqn:Hn; [discriminate|].
    apply Z.eqb_neq in Hn. fold H. fold kv. unfold Torch.split.
    destruct (forallb (Z.leb 0) [H; kv; kv] && _) eqn:Hok; [|discriminate].
    apply andb_prop in Hok as [Hpos Hsum].
    cbn [forallb] in Hpos. apply andb_prop in Hpos as [HH Hpos].
    apply andb_prop in Hpos as [Hkv _].
    apply Z.leb_le in HH, Hkv. apply Z.eqb_eq in Hsum.
    cbn [Torch.sum_sizes fold_right] in Hsum.
    destruct (Torch.chunks params [H; kv; kv]) as [|q' [|k' [|v' [|]]]] eqn:Hch;
      try discriminate.
    intros [= -> -> ->].
    destruct (Hsplit q k v Hn HH Hkv ltac:(lia) eq_refl) as (Hq & Hk & Hv & Hcat).
    repeat split; try assumption.
    + unfold Torch.cat. cbn [concat]. rewrite app_nil_r. exact Hcat.
    + rewrite <- Hcat, !to_bytes_app. reflexivity.
  - intros Hn HH Hkv Hlen.
    destruct (chunks3 params (Z.to_nat H) (Z.to_nat kv) (Z.to_nat kv)) as
      (q & k & v & Hch & _); [lia|].
    rewrite !Z2Nat.id in Hch by assumption.
    assert (Hs : FlexFlowFalcon.split_qkv cfg params = Returns (q, k, v)).
    { unfold FlexFlowFalcon.split_qkv, FlexFlowFalcon.qkv_sizes, floordiv.
      apply Z.eqb_neq in Hn. rewrite Hn. fold H. fold kv. unfold Torch.split.
      replace (forallb (Z.leb 0) [H; kv; kv] && _) with true; [rewrite Hch; reflexivity|].
      symmetry. apply andb_true_intro. split.
      - cbn [forallb]. rewrite !(proj2 (Z.leb_le _ _)) by assumption. reflexivity.
      - apply Z.eqb_eq. cbn [Torch.sum_sizes fold_right]. lia. }
    exists q, k, v. split; [exact Hs|].
    intros name Hname. unfold FlexFlowFalcon.converted. cbn [fst snd].
    rewrite Hname, Hs. reflexivity.
Qed.

Lemma split_qkv_round_trip_witness :
  exists q k v,
    FlexFlowFalcon.split_qkv falcon_7b_like (rows 12) = Returns (q, k, v) /\
    forall name,
      PyStr.contains FlexFlowFalcon.qkv (FlexFlowFalcon.convert_hf_weight_name name)
      = true ->
      FlexFlowFalcon.converted falcon_7b_like (name, rows 12)
      = Returns
          [ (PyStr.replace FlexFlowFalcon.qkv "self_attention.q_proj"
               (FlexFlowFalcon.convert_hf_weight_name name), q);
            (PyStr.replace FlexFlowFalcon.qkv "self_attention.k_proj"
               (FlexFlowFalcon.convert_hf_weight_name name), k);
            (PyStr.replace FlexFlowFalcon.qkv "self_attention.v_proj"
               (FlexFlowFalcon.convert_hf_weight_name name), v) ].
Proof.
  apply (proj2 (split_qkv_round_trip falcon_7b_like (rows 12))).
  - discriminate.
  - vm_compute. discriminate.
  - vm_compute. discriminate.
  - reflexivity.
Defined.

(** ** Chat-shaped calls *)

Lemma validation_passes (messages : list pyval) (s : session) :
  forallb valid_message messages = true ->
  for_each (fun message =>
              if valid_message message then ret tt else raise InvalidChatMessage)
           messages s
  = (Returns tt, s).
Proof.
  induction messages as [|m ms IH]; cbn [forallb for_each]; [reflexivity|].
  intros [Hm Hms]%andb_prop. unfold bind. rewrite Hm. cbv [ret]. exact (IH Hms).
Qed.

Lemma loaded_fields (s : session) :
  s_world (loaded s) = s_world s /\ s_events (loaded s) = s_events s /\
  s_warnings (loaded s) = s_warnings s /\
  max_seq_length (s_self (loaded s)) = max_seq_length (s_self s) /\
  model (s_self (loaded s)) = model (s_self s) /\
  model_name (s_self (loaded s)) = model_name (s_self s).
Proof.
  unfold loaded. destruct (tokenizer (s_self s)), (session_tokenizer s);
    repeat split; reflexivity.
Qed.

Lemma loaded_tokenizer (s : session) (tok : Tokenizer) :
  session_tokenizer s = Some tok -> tokenizer (s_self (loaded s)) = Some tok.
Proof.
  unfold loaded. intros H. rewrite H. unfold session_tokenizer in H.
  destruct (tokenizer (s_self s)) eqn:E; [rewrite E; exact H | reflexivity].
Qed.

Lemma loaded_idem (s : session) (tok : Tokenizer) :
  session_tokenizer s = Some tok ->
  session_tokenizer (loaded s) = Some tok /\ loaded (loaded s) = loaded s.
Proof.
  intros H. pose proof (loaded_tokenizer s tok H) as Ht.
  split.
  - unfold session_tokenizer. rewrite Ht. reflexivity.
  - unfold loaded at 1. rewrite Ht. reflexivity.
Qed.

(** [__chat2prompt] on a well-formed conversation renders it with the
    session's tokenizer, which it stores on first use. *)
Lemma chat2prompt_renders (s : session) (tok : Tokenizer) (tpl : string)
    (messages : list pyval) :
  session_tokenizer s = Some tok ->
  chat_template tok = Some tpl ->
  forallb valid_message messages = true ->
  chat2prompt (PList messages) s
  = (Returns (apply_chat_template tok (PList messages)), loaded s).
Proof.
  intros Htok Htpl Hvalid. unfold chat2prompt.
  unfold bind at 1. cbv [lift py_iter].
  unfold bind at 1. rewrite (validation_passes _ _ Hvalid).
  unfold bind at 1. cbv [get].
  unfold loaded. rewrite Htok. unfold session_tokenizer in Htok.
  destruct (tokenizer (s_self s)) as [t|] eqn:Et.
  - injection Htok as ->. unfold bind, ret. rewrite Htpl. reflexivity.
  - unfold bind, tokenizer_from_pretrained. rewrite Htok.
    cbv [modify_self ret]. rewrite Htpl. reflexivity.
Qed.

Lemma chat2prompt_all (tok : Tokenizer) (tpl : string) (convs : list pyval) :
  chat_template tok = Some tpl ->
  forallb valid_conversation convs = true ->
  forall s, session_tokenizer s = Some tok ->
  map_m chat2prompt convs s
  = (Returns (map (apply_chat_template tok) convs),
     match convs with [] => s | _ :: _ => loaded s end).
Proof.
  intros Htpl. induction convs as [|c cs IH]; intros Hvalid s Htok; [reflexivity|].
  cbn [forallb] in Hvalid. apply andb_prop in Hvalid as [Hc Hcs].
  destruct c; try discriminate Hc. cbn [valid_conversation] in Hc.
  cbn [map_m map]. unfold bind at 1.
  rewrite (chat2prompt_renders s tok tpl l Htok Htpl Hc).
  destruct (loaded_idem s tok Htok) as [Htok' Hfix].
  unfold bind at 1. rewrite (IH Hcs (loaded s) Htok'). cbv [ret].
  destruct cs; [reflexivity | rewrite Hfix; reflexivity].
Qed.

Lemma strip_prompts_zip (ml mnt : Z) (prompts : list string)
    (outputs : list GenerationResult) :
  length outputs = length prompts ->
  output2chat_response (map (chat_request ml mnt) prompts) outputs
  = Returns (zip_with strip prompts outputs).
Proof.
  intros Hlen. unfold output2chat_response.
  rewrite length_map, Hlen, Nat.eqb_refl. clear Hlen.
  revert outputs. induction prompts as [|p ps IH]; intros [|o os]; try reflexivity.
  cbn [map strip_prompts chat_request prompt py_len zip_with].
  rewrite IH. reflexivity.
Qed.

(** The loop of [_generate] leaves the prompts alone. *)
Lemma resolve_request_prompt (msl : option Z) (r r' : Request) (ws ws' : list warning)
    (o : outcome unit) :
  resolve_request msl (r, ws) = (o, (r', ws')) -> prompt r' = prompt r.
Proof.
  unfold resolve_request, resolve_bounds, check_bounds. run.
  destruct (req_type r), msl as [m|];
    repeat (match goal with
            | |- context [if ?b then _ else _] => destruct b
            end; cbn [fst snd negb andb orb max_length max_new_tokens prompt]);
    intros [= <- <- <-]; reflexivity.
Qed.

Lemma resolve_requests_prompts (msl : option Z) (requests requests' : list pyval)
    (ws ws' : list warning) (o : outcome unit) :
  resolve_requests msl requests ws = (requests', ws', o) ->
  map prompt_of requests' = map prompt_of requests.
Proof.
  revert requests' ws ws' o.
  induction requests as [|v rest IH]; intros requests' ws ws' o;
    cbn [resolve_requests]; [intros [= <- _ _]; reflexivity|].
  destruct v; try (intros [= <- _ _]; reflexivity).
  destruct (resolve_request msl (r, ws)) as [o1 [r1 ws1]] eqn:E.
  apply resolve_request_prompt in E.
  destruct o1.
  - destruct (resolve_requests msl rest ws1) as [[rest' ws2] o2] eqn:E2.
    intros [= <- _ _]. cbn [map prompt_of]. rewrite E, (IH _ _ _ _ E2). reflexivity.
  - intros [= <- _ _]. cbn [map prompt_of]. rewrite E. reflexivity.
Qed.

(** C7: on a chat-shaped call every returned text is the engine's output
    without its first [len(p)] characters, [p] being the prompt the chat
    template rendered for that request; the requests sent to the engine are
    one per conversation and carry the rendered prompts. *)
Theorem chat_outputs_strip_rendered_prompts (s : session) (tok : Tokenizer)
    (tpl : string) (m : FFModel) (l convs : list pyval) (ml mnt : Z)
    (requests' : list pyval) (ws : list warning) (outputs : list GenerationResult) :
  conversations l = Some convs ->
  forallb valid_conversation convs = true ->
  session_tokenizer s = Some tok ->
  chat_template tok = Some tpl ->
  model (s_self s) = Some m ->
  let prompts := map (apply_chat_template tok) convs in
  resolve_requests (max_seq_length (s_self s))
    (map (fun p => PRequest (chat_request ml mnt p)) prompts) (s_warnings s)
  = (requests', ws, Returns tt) ->
  ff_generate m requests' = Returns outputs ->
  length outputs = length convs ->
  generate (PList l) ml mnt s
  = (Returns (Some (zip_with strip prompts outputs)),
     dispatched (loaded s) requests' ws) /\
  map prompt_of requests' = map PStr prompts.
Proof.
  intros Hconv Hvalid Htok Htpl Hm prompts Hloop Hout Hlen.
  destruct (loaded_fields s) as (Hw & He & Hws & Hmsl & Hmod & _).
  assert (Hdisp : convs <> [] ->
            _generate (map (fun p => PRequest (chat_request ml mnt p)) prompts) (loaded s)
            = (Returns outputs, dispatched (loaded s) requests' ws)).
  { intros Hne. rewrite <- Hout. apply generate_dispatches.
    - subst prompts. destruct convs; [congruence | discriminate].
    - rewrite Hmod. exact Hm.
    - rewrite Hmsl, Hws. exact Hloop. }
  assert (Hstrip : output2chat_response (map (chat_request ml mnt) prompts) outputs
                   = Returns (zip_with strip prompts outputs)).
  { apply strip_prompts_zip. subst prompts. rewrite length_map. exact Hlen. }
  split.
  - destruct l as [|first rest]; [discriminate Hconv|].
    destruct first as [| | | |inner|d|]; try discriminate Hconv; injection Hconv as <-.
    + (* a list of conversations *)
      cbn [generate]. unfold bind at 1.
      rewrite (chat2prompt_all tok tpl _ Htpl Hvalid s Htok).
      unfold bind at 1. rewrite map_map.
      change (map (fun x => PRequest (mkRequest REQ_INFERENCE (PStr x) ml mnt (Some false)))
                (map (apply_chat_template tok) (PList inner :: rest)))
        with (map (fun p => PRequest (chat_request ml mnt p)) prompts).
      rewrite (Hdisp ltac:(discriminate)).
      unfold bind at 1. cbv [lift].
      change (map (fun prompt => mkRequest REQ_INFERENCE (PStr prompt) ml mnt (Some false))
                (map (apply_chat_template tok) (PList inner :: rest)))
        with (map (chat_request ml mnt) prompts).
      rewrite Hstrip. reflexivity.
    + (* a list of messages *)
      change (forallb valid_message (PDict d :: rest) && true = true) in Hvalid.
      rewrite andb_true_r in Hvalid.
      pose proof (Hdisp ltac:(discriminate)) as Hd.
      subst prompts. cbn [map] in Hd, Hstrip. unfold chat_request in Hd, Hstrip.
      cbn [generate]. unfold bind at 1.
      rewrite (chat2prompt_renders s tok tpl _ Htok Htpl Hvalid).
      unfold bind at 1. rewrite Hd.
      unfold bind at 1. cbv [lift]. unfold Request in *. rewrite Hstrip. reflexivity.
  - rewrite (resolve_requests_prompts _ _ _ _ _ _ Hloop), map_map. reflexivity.
Qed.

Lemma chat_outputs_strip_rendered_prompts_witness :
  generate (PList [Demo.message "user" "hi"]) (-1) (-1) Demo.session0
  = (Returns (Some [mkResult "Hello!"]),
     dispatched (loaded Demo.session0)
       [PRequest (mkRequest REQ_INFERENCE (PStr hi_prompt) 255 (-1) (Some false))] []) /\
  map prompt_of
    [PRequest (mkRequest REQ_INFERENCE (PStr hi_prompt) 255 (-1) (Some false))]
  = [PStr hi_prompt].
Proof.
  apply (chat_outputs_strip_rendered_prompts Demo.session0 Demo.chat_tokenizer
           "chatml" Demo.ffmodel [Demo.message "user" "hi"]
           [PList [Demo.message "user" "hi"]] (-1) (-1)
           [PRequest (mkRequest REQ_INFERENCE (PStr hi_prompt) 255 (-1) (Some false))]
           [] [mkResult (hi_prompt +:+ "Hello!")]).
  - reflexivity.
  - reflexivity.
  - vm_compute. reflexivity.
  - reflexivity.
  - reflexivity.
  - reflexivity.
  - reflexivity.
  - reflexivity.
Defined.

(** ** The file system *)

Module OsFacts.
Import Os.

Lemma assoc_set_entry (c : string) (x : node) (es : list (string * node)) :
  assoc c (set_entry c x es) = Some x.
Proof.
  induction es as [|[k m] r IH]; cbn [set_entry assoc].
  - rewrite String.eqb_refl. reflexivity.
  - destruct (String.eqb k c) eqn:E; cbn [assoc]; rewrite E; [reflexivity | exact IH].
Qed.

Lemma assoc_del_entry (c : string) (es : list (string * node)) :
  assoc c (del_entry c es) = None.
Proof.
  induction es as [|[k m] r IH]; cbn [del_entry assoc]; [reflexivity|].
  destruct (String.eqb k c) eqn:E; [exact IH|]. cbn [assoc]. rewrite E. exact IH.
Qed.

Lemma update_cons now seen c q f n :
  update now seen (c :: q) f n
  = match n with
    | File _ _ => Raises (NotADirectoryError seen)
    | Dir es mt =>
        match q with
        | [] =>
            match f (assoc c es) with
            | Raises e => Raises e
            | Returns (Some n') => Returns (Dir (set_entry c n' es) now)
            | Returns None => Returns (Dir (del_entry c es) now)
            end
        | _ :: _ =>
            match assoc c es with
            | None => Raises (FileNotFoundError (seen ++ [c]))
            | Some sub =>
                match update now (seen ++ [c]) q f sub with
                | Raises e => Raises e
                | Returns sub' => Returns (Dir (set_entry c sub' es) mt)
                end
            end
        end
    end.
Proof. reflexivity. Qed.

Lemma lookup_cons c q n :
  lookup (c :: q) n
  = match n with
    | Dir es _ => match assoc c es with
                  | Some sub => lookup q sub
                  | None => None
                  end
    | File _ _ => None
    end.
Proof. reflexivity. Qed.

(** Unlinking: what [rmtree] removed is gone. *)
Lemma update_unlinks now f :
  (forall o r, f o = Returns r -> r = None) ->
  forall q seen n n',
    update now seen q f n = Returns n' -> lookup q n' = None.
Proof.
  intros Hf. induction q as [|c q IH]; intros seen n n' H; [discriminate H|].
  rewrite update_cons in H. destruct n as [|es mt]; [discriminate H|].
  destruct q as [|c' q'].
  - destruct (f (assoc c es)) as [[x|]|e] eqn:Ef; try discriminate H.
    + apply Hf in Ef. discriminate Ef.
    + injection H as <-. rewrite lookup_cons, assoc_del_entry. reflexivity.
  - destruct (assoc c es) as [sub|]; [|discriminate H].
    destruct (update now (seen ++ [c]) (c' :: q') f sub) as [sub'|e] eqn:Eu;
      [|discriminate H].
    injection H as <-. rewrite lookup_cons, assoc_set_entry. exact (IH _ _ _ Eu).
Qed.

Lemma makedirs_in_cons now seen c q n :
  makedirs_in now seen (c :: q) n
  = match n with
    | File _ _ => Raises (NotADirectoryError seen)
    | Dir es mt =>
        match assoc c es with
        | Some sub =>
            match makedirs_in now (seen ++ [c]) q sub with
            | Raises e => Raises e
            | Returns sub' => Returns (Dir (set_entry c sub' es) mt)
            end
        | None =>
            match makedirs_in now (seen ++ [c]) q (Dir [] now) with
            | Raises e => Raises e
            | Returns sub' => Returns (Dir (set_entry c sub' es) now)
            end
        end
    end.
Proof. destruct n; reflexivity. Qed.

(** After [makedirs] the path names what it named before, or else a new
    empty directory. *)
Lemma makedirs_in_lookup now :
  forall q seen n n',
    makedirs_in now seen q n = Returns n' ->
    lookup q n' = Some (default (Dir [] now) (lookup q n)).
Proof.
  induction q as [|c q IH]; intros seen n n' H.
  - destruct n; [discriminate H|]. injection H as <-. reflexivity.
  - rewrite makedirs_in_cons in H. destruct n as [|es mt]; [discriminate H|].
    rewrite !lookup_cons.
    destruct (assoc c es) as [sub|] eqn:Ea.
    + destruct (makedirs_in now (seen ++ [c]) q sub) as [sub'|e] eqn:Em;
        [|discriminate H].
      injection H as <-. rewrite assoc_set_entry. exact (IH _ _ _ Em).
    + destruct (makedirs_in now (seen ++ [c]) q (Dir [] now)) as [sub'|e] eqn:Em;
        [|discriminate H].
      injection H as <-. rewrite assoc_set_entry, (IH _ _ _ Em).
      destruct q; reflexivity.
  Qed.

(** Writing an entry into an existing directory goes through and is read
    back; the directory holds the entry. *)
Lemma update_links now f c x :
  forall q seen n es mt,
    lookup q n = Some (Dir es mt) ->
    f (assoc c es) = Returns (Some x) ->
    exists n' mt',
      update now seen (q ++ [c]) f n = Returns n' /\
      lookup (q ++ [c]) n' = Some x /\
      lookup q n' = Some (Dir (set_entry c x es) mt').
Proof.
  induction q as [|c0 q IH]; intros seen n es mt Hq Hf.
  - injection Hq as ->. cbn [app]. rewrite update_cons, Hf.
    eexists _, _. split; [reflexivity|]. split; [|reflexivity].
    rewrite lookup_cons, assoc_set_entry. reflexivity.
  - rewrite lookup_cons in Hq. destruct n as [|es0 mt0]; [discriminate Hq|].
    destruct (assoc c0 es0) as [sub|] eqn:Ea; [|discriminate Hq].
    destruct (IH (seen ++ [c0]) sub es mt Hq Hf) as (sub' & mt' & Hu & Hl1 & Hl2).
    cbn [app]. rewrite update_cons, Ea.
    destruct (q ++ [c]) eqn:Eq; [destruct q; discriminate Eq|]. rewrite Hu.
    eexists _, _. split; [reflexivity|].
    rewrite !lookup_cons, assoc_set_entry. split; eassumption.
Qed.

Lemma assoc_set_entry_ne (c c' : string) (x : node) (es : list (string * node)) :
  c <> c' -> assoc c' (set_entry c x es) = assoc c' es.
Proof.
  intros Hne. induction es as [|[k m] r IH]; cbn [set_entry assoc].
  - apply String.eqb_neq in Hne. rewrite Hne. reflexivity.
  - destruct (String.eqb k c) eqn:E; cbn [assoc]; [|rewrite IH; reflexivity].
    apply String.eqb_eq in E. subst k.
    apply String.eqb_neq in Hne. rewrite Hne. reflexivity.
Qed.

Lemma assoc_del_entry_ne (c c' : string) (es : list (string * node)) :
  c <> c' -> assoc c' (del_entry c es) = assoc c' es.
Proof.
  intros Hne. induction es as [|[k m] r IH]; cbn [del_entry assoc]; [reflexivity|].
  destruct (String.eqb k c) eqn:E; cbn [assoc]; [|rewrite IH; reflexivity].
  apply String.eqb_eq in E. subst k.
  apply String.eqb_neq in Hne. rewrite Hne. exact IH.
Qed.

Lemma unrelated_cons_inv (c : string) (p q : path) :
  unrelated (c :: p) (c :: q) -> unrelated p q.
Proof. intros [H1 H2]. split; intros H; [apply H1 | apply H2]; apply prefix_cons, H. Qed.

Lemma unrelated_not_nil_l (p q : path) : unrelated p q -> p <> [].
Proof. intros [H _] ->. apply H, prefix_nil. Qed.

Lemma unrelated_head (c c0 : string) (p : path) :
  unrelated (c0 :: p) [c] -> c <> c0.
Proof.
  intros [_ H] ->. apply H. exists p. reflexivity.
Qed.

Lemma unrelated_snoc (c : string) (p q : path) :
  unrelated p q -> unrelated p (q ++ [c]).
Proof.
  intros [H1 H2]. split.
  - intros [k Hk]. destruct (decide (k = [])) as [-> | Hne].
    + rewrite app_nil_r in Hk. apply H2. exists [c]. symmetry. exact Hk.
    + destruct (exists_last Hne) as (k' & x & ->).
      rewrite app_assoc in Hk. apply app_inj_tail in Hk as [-> _].
      apply H1. exists k'. reflexivity.
  - intros H. apply H2. exact (prefix_app_l _ _ _ H).
Qed.

(** What lies beside the entry changed stays as it is. *)
Lemma update_frame now f :
  forall q seen n n',
    update now seen q f n = Returns n' ->
    forall p, unrelated p q -> lookup p n' = lookup p n.
Proof.
  induction q as [|c q IH]; intros seen n n' H p Hp; [discriminate H|].
  rewrite update_cons in H. destruct n as [|es mt]; [discriminate H|].
  destruct p as [|c0 p]; [destruct (unrelated_not_nil_l _ _ Hp eq_refl)|].
  rewrite !lookup_cons.
  destruct q as [|c' q'].
  - pose proof (unrelated_head _ _ _ Hp) as Hne.
    destruct (f (assoc c es)) as [[x|]|e]; try discriminate H; injection H as <-.
    + rewrite (assoc_set_entry_ne _ _ _ _ Hne). reflexivity.
    + rewrite (assoc_del_entry_ne _ _ _ Hne). reflexivity.
  - destruct (assoc c es) as [sub|] eqn:Ea; [|discriminate H].
    destruct (update now (seen ++ [c]) (c' :: q') f sub) as [sub'|e] eqn:Eu;
      [|discriminate H].
    injection H as <-.
    destruct (decide (c = c0)) as [<- | Hne].
    + rewrite assoc_set_entry, Ea. apply (IH _ _ _ Eu), (unrelated_cons_inv c), Hp.
    + rewrite (assoc_set_entry_ne _ _ _ _ Hne). reflexivity.
Qed.

Lemma makedirs_in_frame now :
  forall q seen n n',
    makedirs_in now seen q n = Returns n' ->
    forall p, unrelated p q -> lookup p n' = lookup p n.
Proof.
  induction q as [|c q IH]; intros seen n n' H p Hp.
  - destruct n; [discriminate H|]. injection H as <-. reflexivity.
  - rewrite makedirs_in_cons in H. destruct n as [|es mt]; [discriminate H|].
    destruct p as [|c0 p]; [destruct (unrelated_not_nil_l _ _ Hp eq_refl)|].
    rewrite !lookup_cons.
    destruct (assoc c es) as [sub|] eqn:Ea.
    + destruct (makedirs_in now (seen ++ [c]) q sub) as [sub'|e] eqn:Em;
        [|discriminate H].
      injection H as <-.
      destruct (decide (c = c0)) as [<- | Hne].
      * rewrite assoc_set_entry, Ea. apply (IH _ _ _ Em), (unrelated_cons_inv c), Hp.
      * rewrite (assoc_set_entry_ne _ _ _ _ Hne). reflexivity.
    + destruct (makedirs_in now (seen ++ [c]) q (Dir [] now)) as [sub'|e] eqn:Em;
        [|discriminate H].
      injection H as <-.
      destruct (decide (c = c0)) as [<- | Hne].
      * rewrite assoc_set_entry, Ea.
        pose proof (unrelated_cons_inv c _ _ Hp) as Hp'.
        rewrite (IH _ _ _ Em p Hp').
        destruct p as [|c1 p]; [destruct (unrelated_not_nil_l _ _ Hp' eq_refl)|].
        reflexivity.
      * rewrite (assoc_set_entry_ne _ _ _ _ Hne). reflexivity.
Qed.

End OsFacts.

(** ** Path strings *)

Module PathFacts.
Import Os.

Lemma append_nil_r (a : string) : a +:+ "" = a.
Proof.
  induction a as [|c a IH]; [reflexivity|].
  change (String c (a +:+ "") = String c a). rewrite IH. reflexivity.
Qed.

Lemma append_cons (c : ascii) (a b : string) :
  String c a +:+ b = String c (a +:+ b).
Proof. reflexivity. Qed.

Lemma append_snoc (a : string) (c : ascii) (b : string) :
  (a +:+ String c "") +:+ b = a +:+ String c b.
Proof.
  induction a as [|x a IH]; [reflexivity|].
  rewrite !append_cons, IH. reflexivity.
Qed.

Lemma split_slash_not_nil cur s : split_slash cur s <> [].
Proof.
  revert cur. induction s as [|c r IH]; intros cur; cbn [split_slash]; [discriminate|].
  destruct (Ascii.eqb c slash); [discriminate | apply IH].
Qed.

Lemma split_slash_plain f cur :
  PyStr.has_char slash f = false -> split_slash cur f = [cur +:+ f].
Proof.
  revert cur. induction f as [|c r IH]; intros cur H; cbn [split_slash].
  - rewrite append_nil_r. reflexivity.
  - unfold PyStr.has_char in H. cbn [PyStr.list_of_str existsb] in H.
    apply orb_false_iff in H as [Hc Hr]. rewrite Ascii.eqb_sym, Hc.
    rewrite (IH _ Hr), append_snoc. reflexivity.
Qed.

Lemma split_slash_app a b cur :
  split_slash cur (a +:+ String slash b) = split_slash cur a ++ split_slash "" b.
Proof.
  revert cur. induction a as [|c r IH]; intros cur.
  - change ("" +:+ String slash b) with (String slash b).
    cbn [split_slash]. rewrite Ascii.eqb_refl. reflexivity.
  - rewrite append_cons. cbn [split_slash].
    destruct (Ascii.eqb c slash); rewrite IH; reflexivity.
Qed.

Lemma last_cons_not_nil {A} (x : A) (l : list A) (d : A) :
  l <> [] -> List.last (x :: l) d = List.last l d.
Proof. destruct l; [congruence | reflexivity]. Qed.

Lemma removelast_cons_not_nil {A} (x : A) (l : list A) :
  l <> [] -> removelast (x :: l) = x :: removelast l.
Proof. destruct l; [congruence | reflexivity]. Qed.

Lemma split_slash_app_plain a f cur :
  PyStr.has_char slash f = false ->
  split_slash cur (a +:+ f)
  = removelast (split_slash cur a) ++ [List.last (split_slash cur a) "" +:+ f].
Proof.
  intros Hf. revert cur. induction a as [|c r IH]; intros cur.
  - change ("" +:+ f) with f. rewrite (split_slash_plain f cur Hf). reflexivity.
  - rewrite append_cons. cbn [split_slash].
    destruct (Ascii.eqb c slash); [|apply IH].
    rewrite IH, removelast_cons_not_nil, last_cons_not_nil
      by apply split_slash_not_nil.
    reflexivity.
Qed.

Lemma last_split_endswith p cur :
  endswith_slash p = true -> List.last (split_slash cur p) "" = "".
Proof.
  revert cur. induction p as [|c r IH]; intros cur H; [discriminate H|].
  cbn [split_slash]. destruct r as [|c' r'].
  - cbn [endswith_slash] in H. rewrite H. reflexivity.
  - assert (Hr : endswith_slash (String c' r') = true) by exact H.
    destruct (Ascii.eqb c slash); [|apply IH; exact Hr].
    rewrite last_cons_not_nil by apply split_slash_not_nil. apply IH. exact Hr.
Qed.

Lemma walk_plain acc f : plain_name f -> walk acc f = acc ++ [f].
Proof.
  intros (H0 & H1 & H2 & _). unfold walk.
  apply String.eqb_neq in H0, H1, H2. rewrite H0, H1, H2. reflexivity.
Qed.

Lemma fold_walk_last (X : list string) init :
  X <> [] ->
  fold_left walk X init = walk (fold_left walk (removelast X) init) (List.last X "").
Proof.
  intros HX. rewrite (app_removelast_last "" HX) at 1.
  rewrite fold_left_app. reflexivity.
Qed.

(** Joining a plain name to a path string appends one component. *)
Lemma resolve_join w p f :
  plain_name f -> resolve w (join p [f]) = resolve w p ++ [f].
Proof.
  intros Hf. pose proof Hf as (H0 & _ & _ & Hs).
  assert (Hstart : startswith_slash f = false).
  { destruct f as [|c r]; [reflexivity|].
    unfold PyStr.has_char in Hs. cbn [PyStr.list_of_str existsb] in Hs.
    apply orb_false_iff in Hs as [Hc _]. cbn [startswith_slash].
    rewrite Ascii.eqb_sym. exact Hc. }
  unfold join. cbn [fold_left]. unfold join2. rewrite Hstart.
  destruct (String.eqb p "" || endswith_slash p) eqn:Hp.
  - (* the name is appended as it is *)
    unfold resolve.
    assert (Hinit : startswith_slash (p +:+ f) = startswith_slash p).
    { destruct p; [exact Hstart | reflexivity]. }
    rewrite Hinit, (split_slash_app_plain p f "" Hs), fold_left_app.
    cbn [fold_left].
    rewrite (fold_walk_last (split_slash "" p)) by apply split_slash_not_nil.
    assert (Hlast : List.last (split_slash "" p) "" = "").
    { apply orb_prop in Hp as [Hp | Hp].
      - apply String.eqb_eq in Hp. subst p. reflexivity.
      - apply last_split_endswith. exact Hp. }
    rewrite Hlast. change ("" +:+ f) with f. rewrite (walk_plain _ f Hf).
    reflexivity.
  - (* a slash goes in between *)
    unfold resolve.
    assert (Hinit : startswith_slash (p +:+ String slash f) = startswith_slash p).
    { destruct p; [discriminate Hp | reflexivity]. }
    rewrite Hinit, split_slash_app, (split_slash_plain f "" Hs), fold_left_app.
    cbn [fold_left]. change ("" +:+ f) with f. apply walk_plain. exact Hf.
Qed.

Lemma marker_is_plain : plain_name "rev_sha.txt".
Proof. repeat split; (discriminate || reflexivity). Qed.

End PathFacts.

(** ** The resource cache *)

Lemma pure_read_eq {A} (m : io A) (w : world) :
  pure_read m -> m w = (fst (m w), w).
Proof. intros H. rewrite <- (H w) at 3. apply surjective_pairing. Qed.

Lemma pure_ret {A} (a : A) : pure_read (ret a).
Proof. intros w. reflexivity. Qed.

Lemma pure_raise {A} (e : exn) : pure_read (@raise world A e).
Proof. intros w. reflexivity. Qed.

Lemma pure_bind {A B} (m : io A) (k : A -> io B) :
  pure_read m -> (forall a, pure_read (k a)) -> pure_read (bind m k).
Proof.
  intros Hm Hk w. unfold bind. rewrite (pure_read_eq m w Hm).
  destruct (fst (m w)); [apply Hk | reflexivity].
Qed.

Lemma pure_map_m {A B} (f : A -> io B) (l : list A) :
  (forall a, pure_read (f a)) -> pure_read (map_m f l).
Proof.
  intros Hf. induction l as [|x r IH]; cbn [map_m]; [apply pure_ret|].
  apply pure_bind; [apply Hf|]. intros y.
  apply pure_bind; [exact IH|]. intros ys. apply pure_ret.
Qed.

Lemma pure_exists p : pure_read (Os.exists_ p).
Proof. intros w. reflexivity. Qed.

Lemma pure_isdir p : pure_read (Os.isdir p).
Proof. intros w. reflexivity. Qed.

Lemma pure_listdir p : pure_read (Os.listdir p).
Proof. intros w. unfold Os.listdir. destruct (Os.lookup _ _) as [[]|]; reflexivity. Qed.

Lemma pure_getmtime p : pure_read (Os.getmtime p).
Proof. intros w. unfold Os.getmtime. destruct (Os.lookup _ _); reflexivity. Qed.

Lemma pure_read_file p : pure_read (Os.read_file p).
Proof. intros w. unfold Os.read_file. destruct (Os.lookup _ _) as [[]|]; reflexivity. Qed.

Lemma pure_model_info_sha r : pure_read (Hub.model_info_sha r).
Proof. intros w. unfold Hub.model_info_sha. destruct (_ !! _); reflexivity. Qed.

Lemma pure_read_ff_revision folder : pure_read (read_ff_revision folder).
Proof.
  unfold read_ff_revision. apply pure_bind; [apply pure_exists|].
  intros [|]; [|apply pure_ret].
  apply pure_bind; [apply pure_read_file|]. intros t. apply pure_ret.
Qed.

Lemma pure_compute_latest_revision self name :
  pure_read (compute_latest_revision self name).
Proof.
  unfold compute_latest_revision. apply pure_bind; [apply pure_exists|]. intros e.
  apply pure_bind; [apply pure_isdir|]. intros d.
  destruct (e && d); [|apply pure_model_info_sha].
  apply pure_bind; [apply pure_listdir|]. intros files.
  apply pure_bind; [|intros; apply pure_ret].
  apply pure_map_m. intros f. apply pure_getmtime.
Qed.

Lemma get_resource_path_eq self name kind w :
  get_resource_path self name kind w = (Returns (resource_path self name kind w), w).
Proof. unfold resource_path. destruct kind; reflexivity. Qed.

Lemma resource_path_with_root self name kind n w :
  resource_path self name kind (Os.with_root n w) = resource_path self name kind w.
Proof. destruct kind; reflexivity. Qed.

Lemma need_cache_refresh_eq self name kind w :
  need_cache_refresh self name kind w
  = let rp := resource_path self name kind w in
    match stored_revision rp w with
    | Raises e => (Raises e, w)
    | Returns stored =>
        match latest_revision self w with
        | Raises e => (Raises e, w)
        | Returns latest =>
            if refresh_cache self || negb (cached rp w)
               || negb (bool_decide (stored = Some latest))
            then refresh_steps rp latest w
            else (Returns false, w)
        end
    end.
Proof.
  unfold need_cache_refresh, stored_revision, latest_revision.
  unfold bind at 1. rewrite get_resource_path_eq. cbv zeta.
  set (rp := resource_path self name kind w).
  unfold bind at 1. unfold get_revision_hashes. unfold bind at 1.
  rewrite (pure_read_eq _ w (pure_read_ff_revision rp)).
  destruct (fst (read_ff_revision rp w)) as [stored|e]; [|reflexivity].
  unfold bind at 1.
  rewrite (pure_read_eq _ w (pure_compute_latest_revision self (model_name self))).
  destruct (fst (compute_latest_revision self (model_name self) w)) as [latest|e];
    [|reflexivity].
  cbn [fst]. cbv [ret]. cbv beta iota. unfold bind at 1. cbv [Os.exists_].
  cbv beta iota. fold (cached rp w).
  destruct (refresh_cache self || negb (cached rp w)
            || negb (bool_decide (stored = Some latest))); reflexivity.
Qed.

Lemma resolve_with_root n w p : Os.resolve (Os.with_root n w) p = Os.resolve w p.
Proof. reflexivity. Qed.

(** A refresh that goes through leaves the resource directory with the
    marker as its only entry, holding the latest revision; what lies beside
    the resource directory stays as it is. *)
Lemma refresh_steps_spec rp latest w r w1 :
  refresh_steps rp latest w = (Returns r, w1) ->
  r = true /\
  exists n mt,
    w1 = Os.with_root n w /\
    Os.lookup (Os.resolve w rp) n
    = Some (Dir [("rev_sha.txt", File latest (w_now w))] mt) /\
    Os.lookup (Os.resolve w rp ++ ["rev_sha.txt"]) n = Some (File latest (w_now w)) /\
    forall p, unrelated p (Os.resolve w rp) -> Os.lookup p n = Os.lookup p (w_root w).
Proof.
  unfold refresh_steps. unfold bind at 1. cbv [Os.exists_]. cbv beta iota.
  set (q := Os.resolve w rp).
  (* the directory is gone, if it was there *)
  assert (Hgone : forall o w',
            (if bool_decide (is_Some (Os.lookup q (w_root w)))
             then Os.rmtree rp else ret tt) w = (Returns o, w') ->
            exists n1, w' = Os.with_root n1 w /\ Os.lookup q n1 = None /\
              forall p, unrelated p q -> Os.lookup p n1 = Os.lookup p (w_root w)).
  { intros o w'. case_bool_decide as Hex.
    - unfold Os.rmtree, Os.update_root. fold q.
      destruct (Os.update _ _ _ _ _) as [n1|e] eqn:Eu; [|discriminate].
      intros [= _ <-]. exists n1. split; [reflexivity|]. split.
      + eapply OsFacts.update_unlinks; [|exact Eu].
        intros [[]|] r0; intros [= <-] || discriminate; reflexivity.
      + exact (OsFacts.update_frame _ _ _ _ _ _ Eu).
    - intros [= _ <-]. exists (w_root w). split; [destruct w; reflexivity|].
      split; [|reflexivity].
      destruct (Os.lookup q (w_root w)); [exfalso; apply Hex; eauto | reflexivity]. }
  unfold bind at 1. cbv beta iota.
  match goal with
  | |- (let (_, _) := ?m in _) = _ -> _ => destruct m as [[o|e] w'] eqn:E1
  end; cbv beta iota; [|discriminate].
  destruct (Hgone o w' E1) as (n1 & -> & Hn1 & Hf1).
  (* it is made anew, empty *)
  unfold bind at 1. unfold Os.makedirs, Os.update_root.
  rewrite resolve_with_root. fold q. cbn [w_root w_now Os.with_root].
  destruct (Os.makedirs_in (w_now w) [] q n1) as [n2|e] eqn:E2;
    cbv beta iota; [|discriminate].
  pose proof (OsFacts.makedirs_in_lookup _ _ _ _ _ E2) as Hn2.
  pose proof (OsFacts.makedirs_in_frame _ _ _ _ _ E2) as Hf2.
  rewrite Hn1 in Hn2. cbn [default] in Hn2.
  cbv [Os.set_root]. cbn [Os.with_root w_cwd w_home w_now w_hub w_pretrained
                          w_tokenizers w_peft_configs].
  (* the marker is written into it *)
  unfold bind at 1. unfold Os.write_file, Os.update_root.
  cbn [w_root w_now].
  change (Os.resolve _ (Os.join rp ["rev_sha.txt"]))
    with (Os.resolve w (Os.join rp ["rev_sha.txt"])).
  rewrite (PathFacts.resolve_join w rp _ PathFacts.marker_is_plain). fold q.
  cbn [w_root w_now Os.with_root].
  destruct (OsFacts.update_links (w_now w)
              (fun o => match o with
                        | Some (Dir _ _) =>
                            Raises (IsADirectoryError (q ++ ["rev_sha.txt"]))
                        | _ => Returns (Some (File latest (w_now w)))
                        end)
              "rev_sha.txt" (File latest (w_now w)) q [] n2 [] (w_now w) Hn2 eq_refl)
    as (n3 & mt3 & Hu & Hl1 & Hl2).
  pose proof (OsFacts.update_frame _ _ _ _ _ _ Hu) as Hf3.
  rewrite Hu. cbv [Os.set_root ret].
  intros [= <- <-]. split; [reflexivity|].
  exists n3, mt3. split; [reflexivity|]. split; [assumption|]. split; [assumption|].
  intros p Hp.
  rewrite (Hf3 p (OsFacts.unrelated_snoc _ _ _ Hp)), (Hf2 p Hp), (Hf1 p Hp).
  reflexivity.
Qed.

(** *** A revision has no white space *)

Lemma list_of_str_app (a b : string) :
  PyStr.list_of_str (a +:+ b) = PyStr.list_of_str a ++ PyStr.list_of_str b.
Proof.
  induction a as [|c a IH]; [reflexivity|].
  change (c :: PyStr.list_of_str (a +:+ b) = c :: (PyStr.list_of_str a ++ PyStr.list_of_str b)).
  rewrite IH. reflexivity.
Qed.

Lemma no_space_app (a b : string) :
  PyStr.no_space a -> PyStr.no_space b -> PyStr.no_space (a +:+ b).
Proof.
  unfold PyStr.no_space. rewrite list_of_str_app. intros Ha Hb.
  apply Forall_app. split; assumption.
Qed.

Lemma hexdigit_no_space (n : Z) :
  0 <= n < 16 -> PyStr.isspace (PyStr.hexdigit n) = false.
Proof.
  intros H. replace n with (Z.of_nat (Z.to_nat n)) by lia.
  assert (Hk : (Z.to_nat n < 16)%nat) by lia.
  generalize dependent (Z.to_nat n). clear. intros k Hk.
  do 16 (destruct k as [|k]; [reflexivity|]). lia.
Qed.

Lemma hex2_no_space (b : Z) : 0 <= b < 256 -> PyStr.no_space (PyStr.hex2 b).
Proof.
  intros H. unfold PyStr.hex2, PyStr.no_space. cbn [PyStr.list_of_str].
  repeat constructor; apply hexdigit_no_space.
  - rewrite Z.shiftr_div_pow2 by lia. change (2 ^ 4) with 16.
    split; [apply Z.div_pos; lia | apply Z.div_lt_upper_bound; lia].
  - change 15 with (Z.ones 4). rewrite Z.land_ones by lia.
    apply Z.mod_pos_bound. reflexivity.
Qed.

Lemma le_bytes_range (n : nat) (x : Z) :
  Forall (fun b => 0 <= b < 256) (MD5.le_bytes n x).
Proof.
  unfold MD5.le_bytes. apply Forall_map, Forall_forall. intros i _. cbn beta.
  change 255 with (Z.ones 8). rewrite Z.land_ones by lia.
  apply Z.mod_pos_bound. reflexivity.
Qed.

Lemma hexdigest_no_space (bs : list Z) : PyStr.no_space (MD5.hexdigest bs).
Proof.
  unfold MD5.hexdigest.
  assert (H : Forall (fun b => 0 <= b < 256) (MD5.digest bs)).
  { unfold MD5.digest. cbv zeta. cbn [flat_map]. rewrite app_nil_r.
    repeat (apply Forall_app; split); apply le_bytes_range. }
  induction H as [|b l Hb _ IH]; cbn [fold_right]; [constructor|].
  apply no_space_app; [apply hex2_no_space; exact Hb | exact IH].
Qed.

(** The latest revision is an MD5 digest or a commit hash of the hub. *)
Lemma latest_revision_no_space (self : LLM) (name : string) (w : world)
    (latest : string) :
  hub_hashes_plain w ->
  fst (compute_latest_revision self name w) = Returns latest ->
  PyStr.no_space latest.
Proof.
  intros Hhub. unfold compute_latest_revision.
  unfold bind at 1. cbv [Os.exists_]. cbv beta iota.
  unfold bind at 1. cbv [Os.isdir]. cbv beta iota.
  destruct (_ && _).
  - unfold bind at 1. destruct (Os.listdir name w) as [[files|e] w']; [|discriminate].
    unfold bind at 1. destruct (map_m _ files w') as [[mtimes|e] w'']; [|discriminate].
    cbv [ret fst]. intros [= <-]. apply hexdigest_no_space.
  - unfold Hub.model_info_sha. destruct (w_hub w !! model_name self) as [r|] eqn:E;
      [|discriminate].
    cbv [fst]. intros [= <-]. exact (Hhub _ _ E).
Qed.

Lemma join_split_no_space (t : string) : PyStr.no_space t -> PyStr.join_split t = t.
Proof.
  unfold PyStr.no_space. induction t as [|c r IH]; intros H; [reflexivity|].
  cbn [PyStr.list_of_str] in H. inversion H as [|? ? Hc Hr]; subst.
  cbn [PyStr.join_split]. rewrite Hc, (IH Hr). reflexivity.
Qed.

(** Once the marker is in place it is read back as written. *)
Lemma stored_revision_of_marker rp t mt w n :
  Os.lookup (Os.resolve w rp ++ ["rev_sha.txt"]) n = Some (File t mt) ->
  stored_revision rp (Os.with_root n w) = Returns (Some (PyStr.join_split t)).
Proof.
  intros H. unfold stored_revision, read_ff_revision.
  unfold bind at 1. cbv [Os.exists_]. cbn [w_root Os.with_root].
  change (Os.resolve _ (Os.join rp ["rev_sha.txt"]))
    with (Os.resolve w (Os.join rp ["rev_sha.txt"])).
  rewrite (PathFacts.resolve_join w rp _ PathFacts.marker_is_plain), H.
  rewrite bool_decide_eq_true_2 by eauto.
  unfold bind at 1. unfold Os.read_file. cbn [w_root Os.with_root].
  change (Os.resolve _ (Os.join rp ["rev_sha.txt"]))
    with (Os.resolve w (Os.join rp ["rev_sha.txt"])).
  rewrite (PathFacts.resolve_join w rp _ PathFacts.marker_is_plain), H.
  reflexivity.
Qed.

(** X17: the marker is in place, alone, as soon as the check has returned
    true: whatever the resource directory held is gone, and the population
    of the directory only starts after that. *)
Lemma marker_precedes_population self name kind w w1 :
  need_cache_refresh self name kind w = (Returns true, w1) ->
  exists latest mt,
    latest_revision self w = Returns latest /\
    Os.lookup (Os.resolve w1 (resource_path self name kind w1)) (w_root w1)
    = Some (Dir [("rev_sha.txt", File latest (w_now w))] mt) /\
    stored_revision (resource_path self name kind w1) w1
    = Returns (Some (PyStr.join_split latest)).
Proof.
  rewrite need_cache_refresh_eq. cbv zeta.
  destruct (stored_revision _ w) as [stored|e]; [|discriminate].
  destruct (latest_revision self w) as [latest|e]; [|discriminate].
  destruct (_ || _ || _); [|discriminate].
  intros (_ & n & mt & -> & Hdir & Hmark & _)%refresh_steps_spec.
  exists latest, mt. rewrite resource_path_with_root. split; [reflexivity|].
  split; [exact Hdir|]. eapply stored_revision_of_marker. exact Hmark.
Qed.

(** *** A source beside the cache is left alone *)

Lemma unrelated_sym (p q : path) : unrelated p q -> unrelated q p.
Proof. intros [H1 H2]. split; assumption. Qed.

Lemma compute_latest_revision_eq (self : LLM) (name : string) (w : world) :
  fst (compute_latest_revision self name w)
  = match Os.lookup (Os.resolve w name) (w_root w) with
    | Some (Dir es _) =>
        match fst (map_m (fun f => Os.getmtime (Os.join name [f])) (map fst es) w) with
        | Returns mtimes =>
            Returns (MD5.hexdigest
                       (PyStr.encode_utf8
                          (str_of_reprs (map PyStr.repr (map fst es)
                                         ++ map float_repr mtimes))))
        | Raises e => Raises e
        end
    | _ => fst (Hub.model_info_sha (model_name self) w)
    end.
Proof.
  unfold compute_latest_revision.
  unfold bind at 1. cbv [Os.exists_]. cbv beta iota.
  unfold bind at 1. cbv [Os.isdir]. cbv beta iota.
  destruct (Os.lookup (Os.resolve w name) (w_root w)) as [[c t|es t]|] eqn:E.
  - rewrite bool_decide_eq_true_2 by eauto. reflexivity.
  - rewrite bool_decide_eq_true_2 by eauto. cbn [andb].
    unfold bind at 1. unfold Os.listdir. rewrite E.
    unfold bind at 1.
    rewrite (pure_read_eq _ w (pure_map_m _ _ (fun f => pure_getmtime _))).
    destruct (fst (map_m _ (map fst es) w)); reflexivity.
  - rewrite bool_decide_eq_false_2 by (intros [? ?]; discriminate). reflexivity.
Qed.

Lemma map_m_getmtime_ext (name : string) (l : list string) (w w' : world) :
  (forall f, In f l ->
     Os.lookup (Os.resolve w' (Os.join name [f])) (w_root w')
     = Os.lookup (Os.resolve w (Os.join name [f])) (w_root w)) ->
  Os.resolve w' = Os.resolve w ->
  fst (map_m (fun f => Os.getmtime (Os.join name [f])) l w')
  = fst (map_m (fun f => Os.getmtime (Os.join name [f])) l w).
Proof.
  intros H Hres. induction l as [|f r IH]; [reflexivity|].
  cbn [map_m]. unfold bind at 1 3.
  rewrite (pure_read_eq _ w (pure_getmtime _)), (pure_read_eq _ w' (pure_getmtime _)).
  assert (Hf : fst (Os.getmtime (Os.join name [f]) w')
               = fst (Os.getmtime (Os.join name [f]) w)).
  { unfold Os.getmtime. rewrite (H f (or_introl eq_refl)), Hres.
    destruct (Os.lookup _ _); reflexivity. }
  rewrite Hf. destruct (fst (Os.getmtime (Os.join name [f]) w)); [|reflexivity].
  unfold bind.
  rewrite (pure_read_eq _ w (pure_map_m _ _ (fun f => pure_getmtime _))).
  rewrite (pure_read_eq _ w' (pure_map_m _ _ (fun f => pure_getmtime _))).
  rewrite IH by (intros g Hg; apply H; right; exact Hg).
  destruct (fst (map_m _ r w)); reflexivity.
Qed.

(** What is written beside the model directory leaves the latest revision
    as it is: the listing and the modification times are the same, and so
    is the hub. *)
Lemma latest_revision_frame (self : LLM) (q : path) (n : node) (w : world) :
  (forall p, unrelated p q -> Os.lookup p n = Os.lookup p (w_root w)) ->
  unrelated (Os.resolve w (model_name self)) q ->
  (forall es mt,
     Os.lookup (Os.resolve w (model_name self)) (w_root w) = Some (Dir es mt) ->
     Forall (fun e => plain_name (fst e)) es) ->
  latest_revision self (Os.with_root n w) = latest_revision self w.
Proof.
  intros Hframe Hbeside Hplain.
  unfold latest_revision. rewrite !compute_latest_revision_eq.
  change (Os.resolve (Os.with_root n w) (model_name self))
    with (Os.resolve w (model_name self)).
  cbn [w_root Os.with_root]. rewrite (Hframe _ Hbeside).
  destruct (Os.lookup (Os.resolve w (model_name self)) (w_root w))
    as [[c t|es t]|] eqn:E;
    try (unfold Hub.model_info_sha; cbn [w_hub Os.with_root];
         destruct (w_hub w !! model_name self); reflexivity).
  rewrite (map_m_getmtime_ext (model_name self) (map fst es) w (Os.with_root n w));
    [reflexivity | | reflexivity].
  intros f Hf. apply in_map_iff in Hf as (e & <- & He).
  change (Os.resolve (Os.with_root n w)) with (Os.resolve w).
  cbn [w_root Os.with_root].
  specialize (Hplain es t eq_refl). rewrite Forall_forall in Hplain.
  rewrite (PathFacts.resolve_join w _ _ (Hplain e (proj2 (list_elem_of_In _ _) He))).
  apply Hframe, unrelated_sym, OsFacts.unrelated_snoc, unrelated_sym, Hbeside.
Qed.

(** X18: when the model directory does not lie inside the cached resource's
    directory, nor the other way round, a check leaves the latest revision
    as it is.  An absolute local model path fails this: [os.path.join] then
    drops the cache folder and the resource path falls inside the model
    directory. *)
Lemma source_beside_cache_unchanged (self : LLM) (name : string)
    (kind : CachedResourceType) (w w1 : world) (r1 : bool) :
  need_cache_refresh self name kind w = (Returns r1, w1) ->
  unrelated (Os.resolve w (model_name self))
            (Os.resolve w (resource_path self name kind w)) ->
  (forall es mt,
     Os.lookup (Os.resolve w (model_name self)) (w_root w) = Some (Dir es mt) ->
     Forall (fun e => plain_name (fst e)) es) ->
  latest_revision self w1 = latest_revision self w.
Proof.
  intros Hfirst Hbeside Hplain.
  rewrite need_cache_refresh_eq in Hfirst. cbv zeta in Hfirst.
  destruct (stored_revision _ w) as [stored|e]; [|discriminate].
  destruct (latest_revision self w) as [latest|e] eqn:El; [|discriminate].
  destruct (_ || _ || _).
  - apply refresh_steps_spec in Hfirst as (_ & n & mt & -> & _ & _ & Hframe).
    rewrite <- El. exact (latest_revision_frame self _ n w Hframe Hbeside Hplain).
  - injection Hfirst as _ <-. exact El.
Qed.

(** Two checks in a row.  Without a forced refresh, and with a model
    directory that neither holds the cached resource's directory nor lies
    inside it, a second check right after a first one that returned does not
    refresh and leaves the cache as it is; the first one refreshed exactly
    when the cache was absent or its marker differed from the latest
    revision.  The marker is read back without white space, of which a
    commit hash of the hub has none, no more than an MD5 digest. *)
Lemma need_cache_refresh_twice (self : LLM) (name : string)
    (kind : CachedResourceType) (w w1 : world) (r1 : bool) :
  refresh_cache self = false ->
  need_cache_refresh self name kind w = (Returns r1, w1) ->
  unrelated (Os.resolve w (model_name self))
            (Os.resolve w (resource_path self name kind w)) ->
  (forall es mt,
     Os.lookup (Os.resolve w (model_name self)) (w_root w) = Some (Dir es mt) ->
     Forall (fun e => plain_name (fst e)) es) ->
  hub_hashes_plain w ->
  need_cache_refresh self name kind w1 = (Returns false, w1) /\
  (forall stored latest,
     stored_revision (resource_path self name kind w) w = Returns stored ->
     latest_revision self w = Returns latest ->
     (r1 = true <->
      cached (resource_path self name kind w) w = false \/ stored <> Some latest)).
Proof.
  intros Hforce Hfirst Hbeside Hplain Hhub.
  assert (Hhex : forall latest,
            latest_revision self w = Returns latest -> PyStr.no_space latest)
    by (intros latest; apply latest_revision_no_space; exact Hhub).
  pose proof Hfirst as Hfirst'.
  rewrite need_cache_refresh_eq in Hfirst. cbv zeta in Hfirst.
  set (rp := resource_path self name kind w) in *.
  destruct (stored_revision rp w) as [stored|e] eqn:Es; [|discriminate].
  destruct (latest_revision self w) as [latest|e] eqn:El; [|discriminate].
  rewrite Hforce in Hfirst. cbn [orb] in Hfirst.
  destruct (negb (cached rp w) || negb (bool_decide (stored = Some latest))) eqn:Ec.
  - (* the first check refreshed *)
    apply refresh_steps_spec in Hfirst as (-> & n & mt & -> & Hdir & Hmark & Hframe).
    pose proof (latest_revision_frame self _ n w Hframe Hbeside Hplain) as Hsame.
    rewrite El in Hsame.
    split.
    + rewrite need_cache_refresh_eq. cbv zeta.
      rewrite resource_path_with_root. fold rp.
      rewrite (stored_revision_of_marker rp _ _ w n Hmark), Hsame.
      rewrite (join_split_no_space latest (Hhex latest eq_refl)).
      rewrite Hforce. unfold cached. cbn [w_root Os.with_root].
      change (Os.resolve (Os.with_root n w) rp) with (Os.resolve w rp).
      rewrite Hdir, bool_decide_eq_true_2 by eauto.
      rewrite bool_decide_eq_true_2 by reflexivity. reflexivity.
    + intros stored' latest' [= <-] [= <-]. split; [|reflexivity].
      intros _. apply orb_prop in Ec as [Hc | Hc]; apply negb_true_iff in Hc.
      * left. exact Hc.
      * right. apply bool_decide_eq_false_1 in Hc. exact Hc.
  - (* the cache was fresh *)
    injection Hfirst as <- <-. split; [exact Hfirst'|].
    intros stored' latest' [= <-] [= <-].
    apply orb_false_iff in Ec as [Hc Hs]. apply negb_false_iff in Hc, Hs.
    apply bool_decide_eq_true_1 in Hs.
    split; [discriminate|]. intros [H | H]; [congruence | contradiction].
Qed.

Lemma falcon_sha_no_space : PyStr.no_space (repo_sha Demo.falcon_repo).
Proof. repeat constructor. Qed.

Lemma adapter_sha_no_space : PyStr.no_space (repo_sha Demo.adapter_repo).
Proof. repeat constructor. Qed.

Lemma need_cache_refresh_twice_witness :
  need_cache_refresh Demo.llm "tiiuae/falcon-7b" WEIGHTS falcon_weights_checked
  = (Returns false, falcon_weights_checked) /\
  (forall stored latest,
     stored_revision (resource_path Demo.llm "tiiuae/falcon-7b" WEIGHTS Demo.world0)
       Demo.world0 = Returns stored ->
     latest_revision Demo.llm Demo.world0 = Returns latest ->
     (true = true <->
      cached (resource_path Demo.llm "tiiuae/falcon-7b" WEIGHTS Demo.world0)
        Demo.world0 = false \/ stored <> Some latest)).
Proof.
  apply (need_cache_refresh_twice Demo.llm "tiiuae/falcon-7b" WEIGHTS Demo.world0
           falcon_weights_checked true).
  - reflexivity.
  - vm_compute. reflexivity.
  - split; intros [k Hk]; vm_compute in Hk; discriminate Hk.
  - intros es mt H. vm_compute in H. discriminate H.
  - apply map_Forall_insert_2; [exact falcon_sha_no_space|].
    apply map_Forall_insert_2; [exact adapter_sha_no_space|].
    apply map_Forall_empty.
Defined.

(** The same on a model kept in a local directory: the first check
    refreshes the tokenizer cache, the second one does not. *)
Example local_model_checked_twice :
  let w := Demo.local_world [Demo.config_json; Demo.safetensors "weights"] in
  let first := need_cache_refresh Demo.local_llm "models/tiny" TOKENIZER w in
  fst first = Returns true /\
  stored_revision "/home/user/.cache/flexflow/tokenizers/models/tiny" (snd first)
  = Returns (Some "e3aa22888c8585c055eea88bb9f447c2") /\
  need_cache_refresh Demo.local_llm "models/tiny" TOKENIZER (snd first)
  = (Returns false, snd first).
Proof. repeat split; vm_compute; reflexivity. Qed.

(** C3, on the code: for a model named by the absolute path of its local
    directory, two checks in a row, without a forced refresh and with
    nothing else touching the files, refresh twice.  [os.path.join] drops
    the cache folder before the absolute name, so that the weights are
    cached inside the model directory, not in the folder [cache_path]
    names: the first refresh adds a directory to the listing the revision
    is taken from, the marker it has just written holds the revision of the
    listing before, and the second check finds it stale and refreshes
    again. *)
Theorem absolute_local_path_refreshes_again :
  let w := Demo.local_world [Demo.config_json; Demo.safetensors "weights"] in
  let first := need_cache_refresh Demo.absolute_llm "/models/tiny" WEIGHTS w in
  refresh_cache Demo.absolute_llm = false /\
  cache_path Demo.absolute_llm = "~/.cache/flexflow" /\
  resource_path Demo.absolute_llm "/models/tiny" WEIGHTS w = "/models/tiny/half-precision" /\
  fst first = Returns true /\
  fst (Os.listdir "/models/tiny" (snd first))
  = Returns ["config.json"; "model.safetensors"; "half-precision"] /\
  latest_revision Demo.absolute_llm w = Returns "e3aa22888c8585c055eea88bb9f447c2" /\
  stored_revision "/models/tiny/half-precision" (snd first)
  = Returns (Some "e3aa22888c8585c055eea88bb9f447c2") /\
  latest_revision Demo.absolute_llm (snd first)
  = Returns "66454271362e1d066d830240c4c37573" /\
  fst (need_cache_refresh Demo.absolute_llm "/models/tiny" WEIGHTS (snd first))
  = Returns true.
Proof. repeat split; vm_compute; reflexivity. Qed.

(** ** The revision of a local model *)

Lemma lookup_app (q p : path) (n : node) :
  Os.lookup (q ++ p) n
  = match Os.lookup q n with
    | Some m => Os.lookup p m
    | None => None
    end.
Proof.
  revert n. induction q as [|c q IH]; intros n; [reflexivity|].
  cbn [app]. rewrite !OsFacts.lookup_cons.
  destruct n as [|es mt]; [reflexivity|].
  destruct (Os.assoc c es); [apply IH | reflexivity].
Qed.

Lemma assoc_in (es : list (string * node)) (e : string * node) :
  NoDup (map fst es) -> In e es -> Os.assoc (fst e) es = Some (snd e).
Proof.
  induction es as [|[k m] r IH]; intros Hnd Hin; [contradiction|].
  cbn [map fst] in Hnd. apply NoDup_cons in Hnd as [Hk Hr].
  cbn [Os.assoc]. destruct Hin as [<- | Hin].
  - cbn [fst snd]. rewrite String.eqb_refl. reflexivity.
  - destruct (String.eqb k (fst e)) eqn:E; [|exact (IH Hr Hin)].
    apply String.eqb_eq in E. subst k. exfalso. apply Hk.
    apply list_elem_of_In. apply in_map. exact Hin.
Qed.

Lemma map_m_values {A B} (f : A -> io B) (g : A -> B) (l : list A) (w : world) :
  (forall x, In x l -> f x w = (Returns (g x), w)) ->
  map_m f l w = (Returns (map g l), w).
Proof.
  induction l as [|x r IH]; intros H; [reflexivity|].
  cbn [map_m map]. unfold bind at 1. rewrite (H x (or_introl eq_refl)).
  unfold bind at 1. rewrite IH by (intros y Hy; apply H; right; exact Hy).
  reflexivity.
Qed.

(** C4 (amended): for a model name that is a local directory the latest
    revision is the MD5 digest of [str(files + mtimes)], the names taken in
    the order in which the directory lists them (they are not sorted) and
    the modification times in that same order.  It depends on nothing else:
    two directory states with the same listing, in the same order, and the
    same modification times have the same revision, whatever the files
    hold. *)
Theorem local_revision_of_listing (self self' : LLM) (name name' : string)
    (w w' : world) (es es' : list (string * node)) (mt mt' : pyfloat) :
  Os.lookup (Os.resolve w name) (w_root w) = Some (Dir es mt) ->
  Os.lookup (Os.resolve w' name') (w_root w') = Some (Dir es' mt') ->
  wf_entries es -> wf_entries es' ->
  listing es = listing es' ->
  compute_latest_revision self name w = (Returns (revision_of_listing (listing es)), w) /\
  compute_latest_revision self' name' w' = (Returns (revision_of_listing (listing es)), w').
Proof.
  assert (Hone : forall self name w es mt,
            Os.lookup (Os.resolve w name) (w_root w) = Some (Dir es mt) ->
            wf_entries es ->
            compute_latest_revision self name w
            = (Returns (revision_of_listing (listing es)), w)).
  { clear. intros self name w es mt Hdir [Hplain Hnd].
    unfold compute_latest_revision.
    unfold bind at 1. cbv [Os.exists_]. rewrite Hdir.
    rewrite bool_decide_eq_true_2 by eauto.
    unfold bind at 1. cbv [Os.isdir]. rewrite Hdir. cbn [andb].
    unfold bind at 1. unfold Os.listdir. rewrite Hdir.
    unfold bind at 1.
    rewrite (map_m_values _ (fun f => node_mtime (default (Dir [] mt) (Os.assoc f es)))).
    - cbv [ret]. unfold revision_of_listing, listing. rewrite !map_map. cbn [fst snd].
      do 6 f_equal. apply map_ext_in. intros e He.
      rewrite (assoc_in es e Hnd He). reflexivity.
    - intros f Hf. apply in_map_iff in Hf as (e & <- & He).
      unfold Os.getmtime.
      rewrite (PathFacts.resolve_join w name (fst e)).
      + rewrite lookup_app, Hdir, OsFacts.lookup_cons, (assoc_in es e Hnd He).
        reflexivity.
      + rewrite Forall_forall in Hplain. apply Hplain, list_elem_of_In. exact He. }
  intros Hdir Hdir' Hwf Hwf' Hsame. split.
  - exact (Hone self name w es mt Hdir Hwf).
  - rewrite Hsame. exact (Hone self' name' w' es' mt' Hdir' Hwf').
Qed.

(** C4, counterexample: the same two files, listed in the two possible
    orders, give two revisions. *)
Lemma local_revision_depends_on_listing_order :
  let ab := [Demo.config_json; Demo.safetensors "weights"] in
  let ba := [Demo.safetensors "weights"; Demo.config_json] in
  fst (compute_latest_revision Demo.local_llm "/models/tiny" (Demo.local_world ab))
  = Returns "e3aa22888c8585c055eea88bb9f447c2" /\
  fst (compute_latest_revision Demo.local_llm "/models/tiny" (Demo.local_world ba))
  = Returns "dc95f306d0b7a8b410e4668305f6c7ca" /\
  ~ revision_by_contents Demo.local_llm "/models/tiny"
      (Demo.local_world ab) (Demo.local_world ba).
Proof.
  intros ab ba.
  assert (Hab : fst (compute_latest_revision Demo.local_llm "/models/tiny"
                       (Demo.local_world ab))
                = Returns "e3aa22888c8585c055eea88bb9f447c2")
    by (vm_compute; reflexivity).
  assert (Hba : fst (compute_latest_revision Demo.local_llm "/models/tiny"
                       (Demo.local_world ba))
                = Returns "dc95f306d0b7a8b410e4668305f6c7ca")
    by (vm_compute; reflexivity).
  split; [exact Hab|]. split; [exact Hba|].
  intros Hc.
  specialize (Hc ab ba Demo.t0 Demo.t0 eq_refl eq_refl (perm_swap _ _ _)).
  rewrite Hab, Hba in Hc. discriminate Hc.
Qed.

Lemma demo_entries_wf (content : string) :
  wf_entries [Demo.config_json; Demo.safetensors content].
Proof.
  split.
  - repeat constructor; cbn; (discriminate || reflexivity).
  - cbn [map fst Demo.config_json Demo.safetensors].
    apply NoDup_cons. split; [|apply NoDup_singleton].
    intros H%list_elem_of_singleton. discriminate H.
Defined.

Lemma local_revision_of_listing_witness :
  compute_latest_revision Demo.local_llm "/models/tiny"
    (Demo.local_world [Demo.config_json; Demo.safetensors "weights"])
  = (Returns (revision_of_listing
                [("config.json", PyFloat "1700000000.0");
                 ("model.safetensors", PyFloat "1700000100.5")]),
     Demo.local_world [Demo.config_json; Demo.safetensors "weights"]) /\
  compute_latest_revision Demo.llm "/models/tiny"
    (Demo.local_world [Demo.config_json; Demo.safetensors "other weights"])
  = (Returns (revision_of_listing
                [("config.json", PyFloat "1700000000.0");
                 ("model.safetensors", PyFloat "1700000100.5")]),
     Demo.local_world [Demo.config_json; Demo.safetensors "other weights"]).
Proof.
  apply (local_revision_of_listing Demo.local_llm Demo.llm "/models/tiny" "/models/tiny"
           (Demo.local_world [Demo.config_json; Demo.safetensors "weights"])
           (Demo.local_world [Demo.config_json; Demo.safetensors "other weights"])
           [Demo.config_json; Demo.safetensors "weights"]
           [Demo.config_json; Demo.safetensors "other weights"] Demo.t0 Demo.t0).
  - reflexivity.
  - reflexivity.
  - apply demo_entries_wf.
  - apply demo_entries_wf.
  - reflexivity.
Defined.

(** ** Where the code departs from its own description *)

(** C1, on the code: when loading the weights fails after the check decided
    to refresh, the weights directory is left with the revision marker as
    its only entry, and the next call, which could load them, finds the
    cache fresh and converts nothing. *)
Theorem marker_survives_failed_population :
  falcon_weights_path = "/home/user/.cache/flexflow/weights/tiiuae/falcon-7b/half-precision" /\
  fst failed_download = Raises (LoadError "tiiuae/falcon-7b") /\
  fst (Os.listdir falcon_weights_path (snd failed_download)) = Returns ["rev_sha.txt"] /\
  stored_revision falcon_weights_path (snd failed_download)
  = Returns (Some (repo_sha Demo.falcon_repo)) /\
  download_hf_weights_if_needed Demo.llm second_attempt = (Returns tt, second_attempt) /\
  fst (Os.listdir falcon_weights_path second_attempt) = Returns ["rev_sha.txt"].
Proof. repeat split; vm_compute; reflexivity. Qed.

(** With the weights at hand from the start the directory is populated. *)
Example population_when_loading_works :
  let w := Demo.with_pretrained "tiiuae/falcon-7b" Demo.tiny_falcon Demo.world0 in
  fst (Os.listdir falcon_weights_path (snd (download_hf_weights_if_needed Demo.llm w)))
  = Returns [ "rev_sha.txt"; "word_embeddings.weight";
              "layers.0.self_attention.q_proj.weight";
              "layers.0.self_attention.k_proj.weight";
              "layers.0.self_attention.v_proj.weight";
              "layers.0.self_attention.o_proj.weight"; "lm_head.weight" ] /\
  fst (Os.read_file (Os.join falcon_weights_path ["layers.0.self_attention.q_proj.weight"])
         (snd (download_hf_weights_if_needed Demo.llm w)))
  = Returns "abcdefgh" /\
  fst (Os.read_file (Os.join falcon_weights_path ["layers.0.self_attention.k_proj.weight"])
         (snd (download_hf_weights_if_needed Demo.llm w)))
  = Returns "ij" /\
  fst (Os.read_file (Os.join falcon_weights_path ["layers.0.self_attention.v_proj.weight"])
         (snd (download_hf_weights_if_needed Demo.llm w)))
  = Returns "kl".
Proof. repeat split; vm_compute; reflexivity. Qed.

(** C2, on the code: the check made for a PEFT adapter takes the latest
    revision of the session's base model.  The marker written into the
    adapter's directory is the base model's revision, and although it is
    not the adapter's latest revision the next check does not refresh. *)
Theorem adapter_check_uses_base_model_revision :
  adapter_weights_path
  = "/home/user/.cache/flexflow/weights/goliaro/falcon-lora/half-precision" /\
  fst adapter_checked = Returns true /\
  stored_revision adapter_weights_path (snd adapter_checked)
  = Returns (Some (repo_sha Demo.falcon_repo)) /\
  fst (Hub.model_info_sha "goliaro/falcon-lora" (snd adapter_checked))
  = Returns (repo_sha Demo.adapter_repo) /\
  repo_sha Demo.adapter_repo <> repo_sha Demo.falcon_repo /\
  need_cache_refresh Demo.llm "goliaro/falcon-lora" WEIGHTS (snd adapter_checked)
  = (Returns false, snd adapter_checked) /\
  (forall download_and_convert_peft_model,
     download_peft_adapter_if_needed Demo.llm download_and_convert_peft_model
       "goliaro/falcon-lora" (snd adapter_checked)
     = (Returns tt, snd adapter_checked)).
Proof.
  assert (H : need_cache_refresh Demo.llm "goliaro/falcon-lora" WEIGHTS
                (snd adapter_checked)
              = (Returns false, snd adapter_checked)) by (vm_compute; reflexivity).
  split; [vm_compute; reflexivity|]. split; [vm_compute; reflexivity|].
  split; [vm_compute; reflexivity|]. split; [vm_compute; reflexivity|].
  split; [discriminate|]. split; [exact H|].
  intros populate. unfold download_peft_adapter_if_needed, bind.
  rewrite H. reflexivity.
Qed.

(** On every input the decision is the one of the spec, but for the
    revision of [self.model_name], whatever identity the check is made for. *)
Lemma need_cache_refresh_decision (self : LLM) (name : string)
    (kind : CachedResourceType) (w w1 : world) (r : bool)
    (stored : option string) (latest : string) :
  need_cache_refresh self name kind w = (Returns r, w1) ->
  stored_revision (resource_path self name kind w) w = Returns stored ->
  fst (compute_latest_revision self (model_name self) w) = Returns latest ->
  (r = true <->
   refresh_cache self = true \/
   cached (resource_path self name kind w) w = false \/
   stored <> Some latest).
Proof.
  rewrite need_cache_refresh_eq. cbv zeta. unfold latest_revision.
  intros H Hs Hl. rewrite Hs, Hl in H.
  destruct (refresh_cache self || negb (cached _ w)
            || negb (bool_decide (stored = Some latest))) eqn:Ec.
  - apply refresh_steps_spec in H as [-> _]. split; [|reflexivity]. intros _.
    apply orb_prop in Ec as [Ec | Ec]; [apply orb_prop in Ec as [Ec | Ec]|].
    + left. exact Ec.
    + right. left. apply negb_true_iff. exact Ec.
    + right. right. apply negb_true_iff, bool_decide_eq_false_1 in Ec. exact Ec.
  - injection H as <- _. apply orb_false_iff in Ec as [Ec Hst].
    apply orb_false_iff in Ec as [Hf Hc].
    apply negb_false_iff in Hc, Hst. apply bool_decide_eq_true_1 in Hst.
    split; [discriminate|]. intros [H | [H | H]]; congruence.
Qed.

(** * Further properties of the code *)

(** ** The loop of [_generate] *)

Ltac bools :=
  repeat match goal with
         | H : (_ =? _) = true |- _ => apply Z.eqb_eq in H
         | H : (_ =? _) = false |- _ => apply Z.eqb_neq in H
         | H : (_ >=? _) = true |- _ => rewrite Z.geb_leb in H; apply Z.leb_le in H
         | H : (_ >=? _) = false |- _ => rewrite Z.geb_leb in H; apply Z.leb_gt in H
         end.

Ltac split_ifs :=
  cbn [fst snd negb andb orb max_length max_new_tokens prompt req_type
       add_special_tokens with_max_length];
  repeat (match goal with
          | |- context [?a =? ?b] => destruct (a =? b) eqn:?
          | |- context [?a >=? ?b] => destruct (a >=? b) eqn:?
          end;
          cbn [fst snd negb andb orb max_length max_new_tokens prompt req_type
               add_special_tokens with_max_length]).

Ltac loop_step msl r ws :=
  unfold body, Request in *;
  let o := fresh "o" in let r1 := fresh "r1" in let ws1 := fresh "ws1" in
  let E := fresh "E" in
  destruct (resolve_request msl (r, ws)) as [o [r1 ws1]] eqn:E.

Lemma resolve_request_accepts (m : Z) (r : Request) (ws : list warning) :
  fst (resolve_request (Some m) (r, ws)) = Returns tt <-> accepts m r.
Proof.
  unfold accepts, resolve_request, resolve_bounds, check_bounds. run.
  destruct r as [ty p ml mnt ast]. cbn [req_type max_length max_new_tokens].
  destruct ty; split_ifs; bools; split; try discriminate; try reflexivity;
    intros; try lia.
Qed.

Lemma resolve_request_shape (msl : option Z) (r r' : Request) (ws ws' : list warning)
    (o : outcome unit) :
  resolve_request msl (r, ws) = (o, (r', ws')) ->
  r' = with_max_length (max_length r') r /\ ws `prefix_of` ws'.
Proof.
  unfold resolve_request, resolve_bounds, check_bounds. run.
  destruct r as [ty p ml mnt ast]. cbn [req_type max_length max_new_tokens].
  destruct ty, msl as [m|]; split_ifs; intros [= <- <- <-];
    (split; [reflexivity | try reflexivity; apply prefix_app_r; reflexivity]).
Qed.


Lemma resolve_request_again (msl : option Z) (r r' : Request)
    (ws ws' ws2 : list warning) :
  resolve_request msl (r, ws) = (Returns tt, (r', ws')) ->
  resolve_request msl (r', ws2) = (Returns tt, (r', ws2)).
Proof.
  unfold resolve_request, resolve_bounds, check_bounds. run.
  destruct r as [ty p ml mnt ast]. cbn [req_type max_length max_new_tokens].
  destruct ty, msl as [m|]; split_ifs; intros [= <- <-]; try discriminate;
    cbn [req_type max_length max_new_tokens]; bools;
    split_ifs; bools; cbn [req_type max_length max_new_tokens] in *;
    try reflexivity; try (exfalso; lia); try (repeat f_equal; lia).
Qed.

Lemma resolve_request_uncompiled (r : Request) (ws : list warning) :
  exists e, fst (resolve_request None (r, ws)) = Raises e.
Proof.
  unfold resolve_request, resolve_bounds, check_bounds. run.
  destruct r as [ty p ml mnt ast]. cbn [req_type max_length max_new_tokens].
  destruct ty; split_ifs; eauto.
Qed.


Lemma resolve_requests_returns (m : Z) (requests : list pyval) (ws : list warning) :
  (resolve_requests (Some m) requests ws).2 = Returns tt <->
  Forall (admissible m) requests.
Proof.
  revert ws. induction requests as [|v rest IH]; intros ws; cbn [resolve_requests].
  - split; [constructor | reflexivity].
  - destruct v;
      try (cbn [snd]; split; [discriminate | intros H; inversion H; contradiction]).
    pose proof (resolve_request_accepts m r ws) as Hacc.
    loop_step (Some m) r ws. cbn [fst] in Hacc. destruct o as [[]|e].
    + specialize (IH ws1).
      destruct (resolve_requests (Some m) rest ws1) as [[rest' ws2] o2].
      cbn [snd] in *. rewrite IH. split.
      * intros H. constructor; [apply Hacc; reflexivity | exact H].
      * intros H. inversion H; assumption.
    + cbn [snd]. split; [discriminate|]. intros H. inversion H as [|? ? Ha _]; subst.
      apply Hacc in Ha. discriminate.
Qed.


Lemma resolve_requests_uncompiled (requests : list pyval) (ws : list warning) :
  requests <> [] ->
  exists e, (resolve_requests None requests ws).2 = Raises e.
Proof.
  destruct requests as [|v rest]; [congruence|]. intros _. cbn [resolve_requests].
  destruct v; try (cbn [snd]; eauto).
  destruct (resolve_request_uncompiled r ws) as [e He].
  loop_step (@None Z) r ws. cbn [fst] in He. subst o. cbn [snd]. eauto.
Qed.

(** [_generate] on a batch that is not empty, step by step. *)
Lemma generate_unfold (v : pyval) (rest : list pyval) (s : session) :
  _generate (v :: rest) s
  = let '(requests', ws, o) :=
      resolve_requests (max_seq_length (s_self s)) (v :: rest) (s_warnings s) in
    let s1 := mkSession (s_self s) (s_world s) (s_events s) ws in
    match o with
    | Raises e => (Raises e, s1)
    | Returns _ =>
        match model (s_self s) with
        | None => (Raises (AttributeError "model"), s1)
        | Some ffmodel => (ff_generate ffmodel requests', dispatched s requests' ws)
        end
    end.
Proof.
  unfold _generate. cbn [length Nat.eqb]. run.
  destruct (resolve_requests _ _ _) as [[requests' ws] o].
  cbn. destruct o; [|reflexivity]. cbn. destruct (model (s_self s)); reflexivity.
Qed.

(** X1: on a compiled model [_generate] sends a batch to the engine exactly
    when every element is a request the loop accepts: an inference request
    needs [max_seq_length] above -1, [max_new_tokens] below it and, when
    [max_new_tokens] is unset, [max_length] below it; a finetuning request
    needs [max_new_tokens] unset and [max_length] unset or below it.  One
    element that fails blocks the batch: the call raises and the engine is
    not called. *)
Theorem batch_is_dispatched_iff_all_accepted (s : session) (m : Z) (ff : FFModel)
    (requests : list pyval) :
  max_seq_length (s_self s) = Some m ->
  model (s_self s) = Some ff ->
  requests <> [] ->
  (Forall (admissible m) requests <->
   exists requests',
     s_events (snd (_generate requests s)) = s_events s ++ [EvGenerate requests']) /\
  (~ Forall (admissible m) requests ->
   (exists e, fst (_generate requests s) = Raises e) /\
   s_events (snd (_generate requests s)) = s_events s /\
   s_self (snd (_generate requests s)) = s_self s).
Proof.
  intros Hm Hff Hne. destruct requests as [|v rest]; [congruence|].
  rewrite generate_unfold, Hm, Hff.
  pose proof (resolve_requests_returns m (v :: rest) (s_warnings s)) as Hret.
  destruct (resolve_requests (Some m) (v :: rest) (s_warnings s)) as [[requests' ws] o].
  cbn [snd] in Hret. destruct o as [[]|e].
  - split.
    + split; [intros _; exists requests'; reflexivity | intros _; apply Hret; reflexivity].
    + intros Hbad. exfalso. apply Hbad, Hret. reflexivity.
  - assert (Hbad : ~ Forall (admissible m) (v :: rest))
      by (intros H; apply Hret in H; discriminate).
    split.
    + split; [intros H; contradiction|].
      intros [requests'' H]. cbn [snd s_events] in H.
      apply (f_equal (@length event)) in H. rewrite length_app in H.
      cbn [length] in H. lia.
    + intros _. cbn. eauto.
Qed.

Lemma batch_is_dispatched_iff_all_accepted_witness :
  (exists requests',
     s_events (snd (_generate [Sample.within 64 (-1); Sample.within (-1) 32]
                      Demo.session0))
     = [EvGenerate requests']) /\
  (exists e,
     fst (_generate [Sample.within 64 (-1); Sample.within (-1) 300] Demo.session0)
     = Raises e) /\
  s_events (snd (_generate [Sample.within 64 (-1); Sample.within (-1) 300]
                   Demo.session0)) = [].
Proof.
  split.
  - apply (batch_is_dispatched_iff_all_accepted Demo.session0 256 Demo.ffmodel
             [Sample.within 64 (-1); Sample.within (-1) 32] eq_refl eq_refl
             ltac:(discriminate)).
    repeat constructor; cbn; lia.
  - pose proof (batch_is_dispatched_iff_all_accepted Demo.session0 256 Demo.ffmodel
                  [Sample.within 64 (-1); Sample.within (-1) 300] eq_refl eq_refl
                  ltac:(discriminate)) as [_ Hbad].
    destruct Hbad as (He & Hev & _).
    + intros H. inversion H as [|? ? _ H']; subst.
      inversion H' as [|? ? Ha _]; subst. cbn in Ha. lia.
    + split; [exact He | exact Hev].
Defined.


(** X3: the loop of [_generate] changes nothing of a batch but the
    [max_length] of its requests, whether it goes through or raises, and
    only adds to the warnings: the kind, the prompt, [max_new_tokens] and
    [add_special_tokens] of every request, and every element that is not a
    request, are as the caller gave them. *)
Theorem resolve_requests_only_sets_max_length (msl : option Z)
    (requests : list pyval) (ws : list warning) :
  Forall2 same_but_max_length requests (resolve_requests msl requests ws).1.1 /\
  ws `prefix_of` (resolve_requests msl requests ws).1.2.
Proof.
  revert ws. induction requests as [|v rest IH]; intros ws; cbn [resolve_requests].
  - split; [constructor | reflexivity].
  - assert (Hrefl : forall l, Forall2 same_but_max_length l l).
    { induction l as [|x l IHl]; constructor; [|exact IHl].
      destruct x; try reflexivity. destruct r; reflexivity. }
    destruct v; try (split; [apply Hrefl | reflexivity]).
    loop_step msl r ws. apply resolve_request_shape in E as [Hr Hws].
    destruct o.
    + specialize (IH ws1).
      destruct (resolve_requests msl rest ws1) as [[rest' ws2] o2].
      cbn [fst snd] in *. destruct IH as [IH1 IH2]. split.
      * constructor; [exact Hr | exact IH1].
      * etrans; eassumption.
    + cbn [fst snd]. split; [|exact Hws].
      constructor; [exact Hr | apply Hrefl].
Qed.

(** X4: requests the loop of [_generate] has let through go through it
    again as they are and without a new warning: the request objects, which
    the loop changes in place, can be handed in a second time. *)
Theorem resolve_requests_again (msl : option Z) (requests requests' : list pyval)
    (ws ws' ws2 : list warning) :
  resolve_requests msl requests ws = (requests', ws', Returns tt) ->
  resolve_requests msl requests' ws2 = (requests', ws2, Returns tt).
Proof.
  revert requests' ws ws' ws2.
  induction requests as [|v rest IH]; intros requests' ws ws' ws2;
    cbn [resolve_requests].
  - intros [= <- _]. reflexivity.
  - destruct v; try discriminate.
    loop_step msl r ws. destruct o as [[]|e]; [|discriminate].
    destruct (resolve_requests msl rest ws1) as [[rest' ws3] o2] eqn:E2.
    intros [= <- <- ->]. cbn [resolve_requests].
    pose proof (resolve_request_again _ _ _ _ _ ws2 E) as E'.
    unfold body, Request in *. rewrite E', (IH _ _ _ ws2 E2). reflexivity.
Qed.

Lemma resolve_requests_again_witness :
  resolve_requests (Some 256)
    [Sample.within (-1) (-1); Sample.within (-1) 32; Sample.within 64 32] []
  = ([Sample.within 255 (-1); Sample.within (-1) 32; Sample.within (-1) 32],
     [BothBoundsSet 32 64], Returns tt) /\
  resolve_requests (Some 256)
    [Sample.within 255 (-1); Sample.within (-1) 32; Sample.within (-1) 32] []
  = ([Sample.within 255 (-1); Sample.within (-1) 32; Sample.within (-1) 32],
     [], Returns tt).
Proof.
  split; [reflexivity|].
  exact (resolve_requests_again (Some 256)
           [Sample.within (-1) (-1); Sample.within (-1) 32; Sample.within 64 32]
           _ [] _ [] eq_refl).
Defined.

(** X5: before [compile] has set [max_seq_length], [_generate] raises on
    every batch that is not empty, and the engine is not called. *)
Theorem generate_before_compile (requests : list pyval) (s : session) :
  max_seq_length (s_self s) = None ->
  requests <> [] ->
  (exists e, fst (_generate requests s) = Raises e) /\
  s_events (snd (_generate requests s)) = s_events s.
Proof.
  intros Hm Hne. destruct requests as [|v rest]; [congruence|].
  rewrite generate_unfold, Hm.
  destruct (resolve_requests_uncompiled (v :: rest) (s_warnings s)) as [e He];
    [discriminate|].
  destruct (resolve_requests None (v :: rest) (s_warnings s)) as [[requests' ws] o].
  cbn [snd] in He. subst o. cbn. eauto.
Qed.

Lemma generate_before_compile_witness :
  (exists e, fst (_generate [Sample.within 64 (-1)] Sample.fresh_session) = Raises e) /\
  s_events (snd (_generate [Sample.within 64 (-1)] Sample.fresh_session)) = [].
Proof.
  exact (generate_before_compile [Sample.within 64 (-1)] Sample.fresh_session
           eq_refl ltac:(discriminate)).
Defined.

(** X6: a single [Request] is handled as the batch of that one request, and
    for requests the bounds handed to [generate] itself are not used; a
    single prompt is handled as the batch of that one prompt unless it is
    empty, where [generate] returns the empty list at once. *)
Theorem single_inputs_are_batches_of_one (max_length max_new_tokens : Z)
    (s : session) :
  (forall r rest ml mnt,
     generate (PList (PRequest r :: rest)) max_length max_new_tokens s
     = generate (PList (PRequest r :: rest)) ml mnt s) /\
  (forall r ml mnt,
     generate (PRequest r) max_length max_new_tokens s
     = generate (PList [PRequest r]) ml mnt s) /\
  (forall text,
     text <> "" ->
     generate (PStr text) max_length max_new_tokens s
     = generate (PList [PStr text]) max_length max_new_tokens s) /\
  generate (PStr "") max_length max_new_tokens s = (Returns (Some []), s).
Proof.
  repeat split; try reflexivity.
  intros text Hne. destruct text; [congruence | reflexivity].
Qed.

(** ** Chat-shaped calls: what fails *)

Lemma validation_fails (messages : list pyval) (s : session) :
  forallb valid_message messages = false ->
  for_each (fun message =>
              if valid_message message then ret tt else raise InvalidChatMessage)
           messages s
  = (Raises InvalidChatMessage, s).
Proof.
  induction messages as [|m ms IH]; cbn [forallb for_each]; [discriminate|].
  unfold bind. destruct (valid_message m); cbn [andb]; [exact IH | reflexivity].
Qed.

Lemma chat2prompt_rejects (messages : list pyval) (s : session) :
  forallb valid_message messages = false ->
  chat2prompt (PList messages) s = (Raises InvalidChatMessage, s).
Proof.
  intros H. unfold chat2prompt. unfold bind at 1. cbv [lift py_iter].
  unfold bind at 1. rewrite (validation_fails _ _ H). reflexivity.
Qed.

(** [__chat2prompt] makes no call to the engine. *)
Lemma chat2prompt_events (messages : pyval) (s s' : session) (o : outcome string) :
  chat2prompt messages s = (o, s') ->
  s_events s' = s_events s /\ s_world s' = s_world s /\
  pefts (s_self s') = pefts (s_self s).
Proof.
  unfold chat2prompt. unfold bind at 1. cbv [lift].
  destruct (py_iter messages) as [elements|e];
    [|intros [= _ <-]; repeat split; reflexivity].
  unfold bind at 1.
  assert (Hv : forall l, exists o,
             for_each (fun message =>
               if valid_message message then ret tt
               else @raise session unit InvalidChatMessage) l s = (o, s)).
  { induction l as [|m ms [o1 IH]]; cbn [for_each]; [eexists; reflexivity|].
    unfold bind. destruct (valid_message m); cbv [ret raise]; eauto. }
  destruct (Hv elements) as [o1 ->].
  destruct o1 as [[]|e]; [|intros [= _ <-]; repeat split; reflexivity].
  unfold bind at 1. cbv [get].
  destruct (tokenizer (s_self s)) as [t|].
  - unfold bind, ret. destruct (chat_template t); intros [= _ <-];
      repeat split; reflexivity.
  - unfold bind, tokenizer_from_pretrained.
    destruct (w_tokenizers (s_world s) !! model_name (s_self s)) as [t|];
      [|intros [= _ <-]; repeat split; reflexivity].
    cbv [modify_self ret]. destruct (chat_template t); intros [= _ <-];
      repeat split; reflexivity.
Qed.

Lemma map_m_chat2prompt_rejects (convs : list pyval) :
  existsb rejected_conversation convs = true ->
  forall s o s', map_m chat2prompt convs s = (o, s') ->
                 (exists e, o = Raises e) /\ s_events s' = s_events s.
Proof.
  induction convs as [|c cs IH]; cbn [existsb]; [discriminate|].
  intros H s o s'. cbn [map_m]. unfold bind at 1.
  destruct (chat2prompt c s) as [[p|e] s1] eqn:E;
    pose proof (chat2prompt_events _ _ _ _ E) as (He & _ & _).
  - destruct (rejected_conversation c) eqn:Ec.
    + destruct c; try discriminate Ec. cbn [rejected_conversation] in Ec.
      apply negb_true_iff in Ec. rewrite (chat2prompt_rejects _ _ Ec) in E.
      discriminate.
    + cbn [orb] in H. unfold bind.
      destruct (map_m chat2prompt cs s1) as [[ps|e'] s2] eqn:E2;
        destruct (IH H _ _ _ E2) as [[e He1] He2]; [discriminate|].
      intros [= <- <-]. split; [eauto | rewrite He2; exact He].
  - intros [= <- <-]. split; [eauto | exact He].
Qed.

(** X7: a chat-shaped call with a malformed message (not a dictionary, or
    one without the key "role" or "content") fails before anything is sent
    to the engine.  For a single conversation the error is the one of the
    validation and the session is left as it was: no tokenizer is loaded.
    For a list of conversations the call raises, at the malformed
    conversation at the latest. *)
Theorem malformed_chat_never_reaches_engine (first : pyval) (rest : list pyval)
    (max_length max_new_tokens : Z) (s : session) :
  (forall d, first = PDict d ->
     forallb valid_message (first :: rest) = false ->
     generate (PList (first :: rest)) max_length max_new_tokens s
     = (Raises InvalidChatMessage, s)) /\
  (forall c, first = PList c ->
     existsb rejected_conversation (first :: rest) = true ->
     (exists e, fst (generate (PList (first :: rest)) max_length max_new_tokens s)
                = Raises e) /\
     s_events (snd (generate (PList (first :: rest)) max_length max_new_tokens s))
     = s_events s).
Proof.
  split.
  - intros d -> Hbad. cbn [generate]. unfold bind at 1.
    rewrite (chat2prompt_rejects _ _ Hbad). reflexivity.
  - intros c -> Hbad.
    destruct (map_m chat2prompt (PList c :: rest) s) as [o s1] eqn:E.
    destruct (map_m_chat2prompt_rejects _ Hbad _ _ _ E) as [[e ->] Hev].
    assert (Hg : generate (PList (PList c :: rest)) max_length max_new_tokens s
                 = (Raises e, s1)).
    { cbn [generate]. unfold bind at 1. rewrite E. reflexivity. }
    rewrite Hg. split; [eauto | exact Hev].
Qed.

Lemma malformed_chat_never_reaches_engine_witness :
  generate (PList [Demo.message "user" "hi"; PDict [(PStr "role", PStr "user")]])
    (-1) (-1) Demo.session0
  = (Raises InvalidChatMessage, Demo.session0) /\
  (exists e,
     fst (generate (PList [PList [Demo.message "user" "hi"]; PList [PStr "hi"]])
            (-1) (-1) Demo.session0) = Raises e) /\
  s_events (snd (generate (PList [PList [Demo.message "user" "hi"]; PList [PStr "hi"]])
                   (-1) (-1) Demo.session0)) = [].
Proof.
  split.
  - exact (proj1 (malformed_chat_never_reaches_engine
                    (Demo.message "user" "hi") [PDict [(PStr "role", PStr "user")]]
                    (-1) (-1) Demo.session0) _ eq_refl eq_refl).
  - exact (proj2 (malformed_chat_never_reaches_engine
                    (PList [Demo.message "user" "hi"]) [PList [PStr "hi"]]
                    (-1) (-1) Demo.session0) _ eq_refl eq_refl).
Defined.

(** X8: a chat-shaped call on a model whose tokenizer has no chat template
    raises the error of [__chat2prompt]; the tokenizer loaded for the call
    stays in the session, and nothing is sent to the engine. *)
Theorem chat_without_template_fails (s : session) (tok : Tokenizer)
    (d : list (pyval * pyval)) (rest : list pyval) (max_length max_new_tokens : Z) :
  session_tokenizer s = Some tok ->
  chat_template tok = None ->
  forallb valid_message (PDict d :: rest) = true ->
  generate (PList (PDict d :: rest)) max_length max_new_tokens s
  = (Raises (NoChatTemplate (model_name (s_self s))), loaded s).
Proof.
  intros Htok Htpl Hvalid. cbn [generate]. unfold bind at 1.
  unfold chat2prompt. unfold bind at 1. cbv [lift py_iter].
  unfold bind at 1. rewrite (validation_passes _ _ Hvalid).
  unfold bind at 1. cbv [get].
  unfold loaded. rewrite Htok. unfold session_tokenizer in Htok.
  destruct (tokenizer (s_self s)) as [t|] eqn:Et.
  - injection Htok as ->. unfold bind, ret. rewrite Htpl. reflexivity.
  - unfold bind, tokenizer_from_pretrained. rewrite Htok.
    cbv [modify_self ret]. rewrite Htpl. reflexivity.
Qed.

Lemma chat_without_template_fails_witness :
  generate (PList [Demo.message "user" "hi"]) (-1) (-1) Sample.base_session
  = (Raises (NoChatTemplate "tiiuae/falcon-7b"), Sample.base_session).
Proof.
  exact (chat_without_template_fails Sample.base_session Sample.base_tokenizer
           [(PStr "role", PStr "user"); (PStr "content", PStr "hi")] [] (-1) (-1)
           eq_refl eq_refl eq_refl).
Defined.

Lemma slice_from_len_app (p r : string) :
  PyStr.slice_from (PyStr.len p) (p +:+ r) = r.
Proof.
  induction p as [|c p IH]; [destruct r; reflexivity|]. exact IH.
Qed.

(** X9: [__output2chat_response] gives, for an engine that echoes each
    prompt before its continuation, exactly the continuations, in order; it
    fails its assertion when the engine returned another number of outputs
    than there were requests. *)
Theorem chat_response_is_the_continuation (max_length max_new_tokens : Z) :
  (forall turns : list (string * string),
     output2chat_response
       (map (fun t => chat_request max_length max_new_tokens (fst t)) turns)
       (map (fun t => mkResult (fst t +:+ snd t)) turns)
     = Returns (map (fun t => mkResult (snd t)) turns)) /\
  (forall requests outputs,
     length requests <> length outputs ->
     output2chat_response requests outputs = Raises AssertionError).
Proof.
  split.
  - intros turns. unfold output2chat_response.
    rewrite !length_map, Nat.eqb_refl.
    induction turns as [|[p r] turns IH]; [reflexivity|].
    cbn [map strip_prompts chat_request prompt py_len fst snd output_text].
    rewrite IH, slice_from_len_app. reflexivity.
  - intros requests outputs Hne. unfold output2chat_response.
    apply Nat.eqb_neq in Hne. rewrite Hne. reflexivity.
Qed.

(** ** The adapter registry *)


Lemma dict_get_set_ne {K V} `{EqDecision K} (k k0 : K) (v : V) (d : list (K * V)) :
  k0 <> k -> dict_get k0 (dict_set k v d) = dict_get k0 d.
Proof.
  intros Hne. induction d as [|[k' v'] d IH]; cbn [dict_set dict_get].
  - rewrite decide_False by congruence. reflexivity.
  - destruct (decide (k' = k)) as [Heq|Hne']; cbn [dict_get].
    + subst k'. rewrite !decide_False by congruence. reflexivity.
    + destruct (decide (k' = k0)); [reflexivity | exact IH].
Qed.

Lemma adapter_peft_config_ext (s s' : session) (cfg : LoraLinearConfig) :
  s_world s' = s_world s ->
  model_name (s_self s') = model_name (s_self s) ->
  adapter_peft_config s' cfg = adapter_peft_config s cfg.
Proof.
  intros Hw Hn. unfold adapter_peft_config, peft_config_from_pretrained.
  rewrite Hw, Hn. destruct (negb (trainable cfg) || negb (init_lora_weights cfg));
    [|reflexivity].
  destruct (w_peft_configs (s_world s) !! _); reflexivity.
Qed.

(** [register_peft_adapter], check by check. *)
Lemma register_peft_adapter_eq (s : session) (cfg : LoraLinearConfig) :
  register_peft_adapter (Some cfg) s
  = if Nat.eqb (String.length (default "" (peft_model_id cfg))) 0
    then (Raises EmptyPeftModelId, s)
    else
      match adapter_peft_config s cfg with
      | Raises e => (Raises e, s)
      | Returns pc =>
          if negb (String.eqb (peft_type pc) "LORA")
          then (Raises (PeftTypeNotSupported (peft_type pc)), s)
          else if negb (has_base_model_key pc)
          then (Raises (NoAssociatedBaseModel (default "" (peft_model_id cfg))), s)
          else if negb (bool_decide (base_model_name_or_path pc
                                     = Some (model_name (s_self s))))
          then (Raises (BaseModelMismatch (base_model_name_or_path pc)
                          (model_name (s_self s))), s)
          else
            match model (s_self s) with
            | None =>
                (Raises (AttributeError "model"),
                 mkSession (s_self s) (s_world s)
                   (s_events s ++ [EvFFCompile cfg]) (s_warnings s))
            | Some ff => (Returns tt, registered s cfg pc ff)
            end
      end.
Proof.
  unfold register_peft_adapter, adapter_peft_config, registered.
  destruct (Nat.eqb _ 0); [reflexivity|].
  unfold bind at 1. cbv [get]. unfold bind at 1.
  destruct (negb (trainable cfg) || negb (init_lora_weights cfg)).
  - unfold peft_config_from_pretrained.
    destruct (w_peft_configs (s_world s) !! _) as [pc|]; [|reflexivity].
    cbn [fst].
    destruct (negb (String.eqb (peft_type pc) "LORA")); [reflexivity|].
    destruct (negb (has_base_model_key pc)); [reflexivity|].
    destruct (negb (bool_decide _)); [reflexivity|].
    run. cbn [s_self s_world s_events s_warnings].
    destruct (model (s_self s)); cbn [s_self s_world s_events s_warnings];
      [|reflexivity].
    rewrite <- app_assoc. reflexivity.
  - cbv [ret]. cbv beta iota.
    destruct (negb (String.eqb _ "LORA")); [reflexivity|].
    destruct (negb (has_base_model_key _)); [reflexivity|].
    destruct (negb (bool_decide _)); [reflexivity|].
    run. cbn [s_self s_world s_events s_warnings].
    destruct (model (s_self s)); cbn [s_self s_world s_events s_warnings];
      [|reflexivity].
    rewrite <- app_assoc. reflexivity.
Qed.


Ltac register_cases H :=
  rewrite register_peft_adapter_eq in H;
  let Eid := fresh "Eid" in let Epc := fresh "Epc" in
  let Ety := fresh "Ety" in let Ekey := fresh "Ekey" in
  let Ebase := fresh "Ebase" in let Em := fresh "Em" in
  destruct (Nat.eqb (String.length (default "" (peft_model_id _))) 0) eqn:Eid;
  [|destruct (adapter_peft_config _ _) as [?pc|?e] eqn:Epc;
    [destruct (negb (String.eqb (peft_type _) "LORA")) eqn:Ety;
     [|destruct (negb (has_base_model_key _)) eqn:Ekey;
       [|destruct (negb (bool_decide _)) eqn:Ebase;
         [|destruct (model (s_self _)) as [?ff|] eqn:Em]]]|]].





Lemma dict_set_keys {K V} `{EqDecision K} (k : K) (v : V) (d : list (K * V)) :
  (k ∈ map fst d -> map fst (dict_set k v d) = map fst d) /\
  (k ∉ map fst d -> map fst (dict_set k v d) = map fst d ++ [k]).
Proof.
  induction d as [|[k' v'] d [IHin IHout]]; cbn [dict_set map fst app].
  - split; [intros H; apply elem_of_nil in H; contradiction | reflexivity].
  - destruct (decide (k' = k)) as [->|Hne]; cbn [map fst].
    + split; [reflexivity|]. intros H. exfalso. apply H, elem_of_cons. left. reflexivity.
    + split.
      * intros H. apply elem_of_cons in H as [H | H]; [congruence|].
        rewrite (IHin H). reflexivity.
      * intros H. apply not_elem_of_cons in H as [_ H].
        rewrite (IHout H). reflexivity.
Qed.

(** X12: a registration that returns leaves the registry with the same
    objects when the configuration object was in it already (its entry is
    replaced in place, not added a second time), and with that object added
    behind the others when it was not, a copy of a registered configuration
    being another object; the entries of the other objects are the ones
    they were. *)
Theorem registering_again_keeps_the_registry (s s' : session)
    (cfg : LoraLinearConfig) :
  register_peft_adapter (Some cfg) s = (Returns tt, s') ->
  (lora_object cfg ∈ map fst (pefts (s_self s)) ->
   map fst (pefts (s_self s')) = map fst (pefts (s_self s))) /\
  (lora_object cfg ∉ map fst (pefts (s_self s)) ->
   map fst (pefts (s_self s')) = map fst (pefts (s_self s)) ++ [lora_object cfg]) /\
  (forall other, other <> lora_object cfg ->
     dict_get other (pefts (s_self s')) = dict_get other (pefts (s_self s))).
Proof.
  intros H. register_cases H; try discriminate. injection H as <-.
  cbn [registered s_self set_pefts pefts].
  split; [apply dict_set_keys|]. split; [apply dict_set_keys|].
  intros other Hne. apply dict_get_set_ne. exact Hne.
Qed.

Lemma registering_again_keeps_the_registry_witness :
  let s1 := snd (register_peft_adapter (Some (Demo.lora "goliaro/falcon-lora"))
                   Sample.adapter_session) in
  let s2 := snd (register_peft_adapter (Some (Demo.lora "goliaro/falcon-lora")) s1) in
  let s3 := snd (register_peft_adapter (Some Sample.lora_copy) s2) in
  map fst (pefts (s_self s1)) = [1] /\
  map fst (pefts (s_self s2)) = [1] /\
  map fst (pefts (s_self s3)) = [1; 2].
Proof.
  intros s1 s2 s3. split; [reflexivity|]. split.
  - apply (registering_again_keeps_the_registry s1 s2 (Demo.lora "goliaro/falcon-lora")
             ltac:(vm_compute; reflexivity)).
    apply elem_of_cons. left. reflexivity.
  - change [1; 2] with (map fst (pefts (s_self s2)) ++ [lora_object Sample.lora_copy]).
    apply (registering_again_keeps_the_registry s2 s3 Sample.lora_copy
             ltac:(vm_compute; reflexivity)).
    intros Hin. apply list_elem_of_singleton in Hin. discriminate Hin.
Defined.

(** X13: an adapter to be trained from fresh weights ([trainable] and
    [init_lora_weights]) is registered on a compiled model without a fetch:
    whatever the hub holds for its identifier, the registration goes
    through, with a LoRA configuration bound to the session's own model. *)
Theorem fresh_adapter_registers_without_fetch (s : session) (cfg : LoraLinearConfig)
    (ff : FFModel) :
  trainable cfg = true ->
  init_lora_weights cfg = true ->
  String.length (default "" (peft_model_id cfg)) <> O ->
  model (s_self s) = Some ff ->
  exists pc,
    register_peft_adapter (Some cfg) s = (Returns tt, registered s cfg pc ff) /\
    peft_type pc = "LORA" /\
    base_model_name_or_path pc = Some (model_name (s_self s)) /\
    pc_r pc = rank cfg /\ pc_target_modules pc = target_modules cfg.
Proof.
  intros Ht Hi Hid Hm. apply Nat.eqb_neq in Hid.
  rewrite register_peft_adapter_eq, Hid. unfold adapter_peft_config.
  rewrite Ht, Hi. cbn [negb orb peft_type has_base_model_key String.eqb Ascii.eqb
                       Bool.eqb base_model_name_or_path].
  rewrite bool_decide_eq_true_2 by reflexivity. cbn [negb]. rewrite Hm.
  eexists. split; [reflexivity|]. repeat split.
Qed.

Lemma fresh_adapter_registers_without_fetch_witness :
  w_peft_configs Demo.world0 !! "me/new-adapter" = None /\
  exists pc,
    register_peft_adapter (Some Sample.new_lora) Demo.session0
    = (Returns tt, registered Demo.session0 Sample.new_lora pc Demo.ffmodel) /\
    base_model_name_or_path pc = Some "tiiuae/falcon-7b".
Proof.
  split; [vm_compute; reflexivity|].
  destruct (fresh_adapter_registers_without_fetch Demo.session0 Sample.new_lora
              Demo.ffmodel eq_refl eq_refl ltac:(discriminate) eq_refl)
    as (pc & Hreg & _ & Hbase & _).
  exists pc. split; [exact Hreg | exact Hbase].
Defined.

(** ** The cache check: what it touches *)

(** X14: a check that returns has touched nothing but the resource
    directory: every path that is neither inside it nor above it leads to
    what it led to before, and the working directory, the home directory,
    the clock, the hub and the loaders are as they were. *)
Theorem check_touches_only_the_resource_directory (self : LLM) (name : string)
    (kind : CachedResourceType) (w w1 : world) (r : bool) :
  need_cache_refresh self name kind w = (Returns r, w1) ->
  (forall p, unrelated p (Os.resolve w (resource_path self name kind w)) ->
             Os.lookup p (w_root w1) = Os.lookup p (w_root w)) /\
  w_cwd w1 = w_cwd w /\ w_home w1 = w_home w /\ w_now w1 = w_now w /\
  w_hub w1 = w_hub w /\ w_pretrained w1 = w_pretrained w /\
  w_tokenizers w1 = w_tokenizers w /\ w_peft_configs w1 = w_peft_configs w.
Proof.
  rewrite need_cache_refresh_eq. cbv zeta.
  destruct (stored_revision _ w) as [stored|e]; [|discriminate].
  destruct (latest_revision self w) as [latest|e]; [|discriminate].
  destruct (_ || _ || _).
  - intros (_ & n & mt & -> & _ & _ & Hframe)%refresh_steps_spec.
    split; [exact Hframe|]. repeat split.
  - intros [= _ <-]. repeat split.
Qed.

Lemma check_touches_only_the_resource_directory_witness :
  let w := Demo.local_world [Demo.config_json; Demo.safetensors "weights"] in
  let w1 := snd (need_cache_refresh Demo.local_llm "models/tiny" TOKENIZER w) in
  fst (need_cache_refresh Demo.local_llm "models/tiny" TOKENIZER w) = Returns true /\
  Os.lookup ["models"; "tiny"; "model.safetensors"] (w_root w1)
  = Some (File "weights" (PyFloat "1700000100.5")).
Proof.
  intros w w1. split; [vm_compute; reflexivity|].
  pose proof (check_touches_only_the_resource_directory Demo.local_llm "models/tiny"
                TOKENIZER w w1 true ltac:(vm_compute; reflexivity)) as [Hframe _].
  rewrite (Hframe ["models"; "tiny"; "model.safetensors"]); [reflexivity|].
  split; intros [k Hk]; vm_compute in Hk; discriminate Hk.
Defined.

(** X15: with [refresh_cache] set, a check that returns has refreshed,
    whatever the cache held: also when the directory was in place and its
    marker held the latest revision. *)
Theorem forced_refresh_always_refreshes (self : LLM) (name : string)
    (kind : CachedResourceType) (w w1 : world) (r : bool) :
  refresh_cache self = true ->
  need_cache_refresh self name kind w = (Returns r, w1) ->
  r = true.
Proof.
  intros Hforce. rewrite need_cache_refresh_eq. cbv zeta.
  destruct (stored_revision _ w) as [stored|e]; [|discriminate].
  destruct (latest_revision self w) as [latest|e]; [|discriminate].
  rewrite Hforce. cbn [orb].
  intros (-> & _)%refresh_steps_spec. reflexivity.
Qed.

Lemma forced_refresh_always_refreshes_witness :
  need_cache_refresh Demo.llm "tiiuae/falcon-7b" WEIGHTS falcon_weights_checked
  = (Returns false, falcon_weights_checked) /\
  fst (need_cache_refresh Sample.forcing_llm "tiiuae/falcon-7b" WEIGHTS
         falcon_weights_checked) = Returns true.
Proof.
  split; [vm_compute; reflexivity|].
  assert (Hr : exists r w1,
             need_cache_refresh Sample.forcing_llm "tiiuae/falcon-7b" WEIGHTS
               falcon_weights_checked = (Returns r, w1))
    by (eexists _, _; vm_compute; reflexivity).
  destruct Hr as (r & w1 & Hr). rewrite Hr. cbn [fst]. f_equal.
  exact (forced_refresh_always_refreshes Sample.forcing_llm "tiiuae/falcon-7b"
           WEIGHTS falcon_weights_checked w1 r eq_refl Hr).
Defined.

(** X16: a check that returns False has written nothing, and has found the
    resource directory in place with a marker that holds the latest
    revision; the download methods then return at once. *)
Theorem fresh_cache_is_left_alone (self : LLM) (name : string)
    (kind : CachedResourceType) (w w1 : world) :
  need_cache_refresh self name kind w = (Returns false, w1) ->
  w1 = w /\
  refresh_cache self = false /\
  cached (resource_path self name kind w) w = true /\
  (exists latest,
     latest_revision self w = Returns latest /\
     stored_revision (resource_path self name kind w) w = Returns (Some latest)) /\
  (name = model_name self -> kind = WEIGHTS ->
   download_hf_weights_if_needed self w = (Returns tt, w)) /\
  (name = model_name self -> kind = TOKENIZER ->
   download_hf_tokenizer_if_needed self w = (Returns tt, w)) /\
  (forall populate, kind = WEIGHTS ->
   download_peft_adapter_if_needed self populate name w = (Returns tt, w)).
Proof.
  intros H. pose proof H as H0. rewrite need_cache_refresh_eq in H. cbv zeta in H.
  destruct (stored_revision _ w) as [stored|e] eqn:Es; [|discriminate].
  destruct (latest_revision self w) as [latest|e] eqn:El; [|discriminate].
  destruct (_ || _ || _) eqn:Ec.
  - apply refresh_steps_spec in H as [? _]. discriminate.
  - injection H as <-.
    apply orb_false_iff in Ec as [Ec Hst]. apply orb_false_iff in Ec as [Hf Hc].
    apply negb_false_iff in Hc, Hst. apply bool_decide_eq_true_1 in Hst. subst stored.
    split; [reflexivity|]. split; [exact Hf|]. split; [exact Hc|].
    split; [eauto|].
    split; [|split].
    + intros -> ->. unfold download_hf_weights_if_needed, bind. rewrite H0.
      reflexivity.
    + intros -> ->. unfold download_hf_tokenizer_if_needed, bind. rewrite H0.
      reflexivity.
    + intros populate ->. unfold download_peft_adapter_if_needed, bind. rewrite H0.
      reflexivity.
Qed.

Lemma fresh_cache_is_left_alone_witness :
  download_hf_weights_if_needed Demo.llm falcon_weights_checked
  = (Returns tt, falcon_weights_checked).
Proof.
  destruct (fresh_cache_is_left_alone Demo.llm "tiiuae/falcon-7b" WEIGHTS
              falcon_weights_checked falcon_weights_checked
              ltac:(vm_compute; reflexivity))
    as (_ & _ & _ & _ & Hweights & _).
  exact (Hweights eq_refl eq_refl).
Defined.

(** The first check of the Falcon weights on an empty cache. *)
Lemma marker_precedes_population_witness :
  exists latest mt,
    latest_revision Demo.llm Demo.world0 = Returns latest /\
    Os.lookup (Os.resolve falcon_weights_checked falcon_weights_path)
      (w_root falcon_weights_checked)
    = Some (Dir [("rev_sha.txt", File latest Demo.t0)] mt).
Proof.
  destruct (marker_precedes_population Demo.llm "tiiuae/falcon-7b" WEIGHTS
              Demo.world0 falcon_weights_checked ltac:(vm_compute; reflexivity))
    as (latest & mt & Hl & Hdir & _).
  exists latest, mt. split; [exact Hl | exact Hdir].
Defined.

(** A model in a local directory beside the cache. *)
Lemma source_beside_cache_unchanged_witness :
  let w := Demo.local_world [Demo.config_json; Demo.safetensors "weights"] in
  latest_revision Demo.local_llm
    (snd (need_cache_refresh Demo.local_llm "models/tiny" WEIGHTS w))
  = latest_revision Demo.local_llm w.
Proof.
  intros w.
  apply (source_beside_cache_unchanged Demo.local_llm "models/tiny" WEIGHTS w
           (snd (need_cache_refresh Demo.local_llm "models/tiny" WEIGHTS w)) true).
  - vm_compute. reflexivity.
  - split; intros [k Hk]; vm_compute in Hk; discriminate Hk.
  - intros es mt [= <- _]. apply demo_entries_wf.
Defined.

Lemma lower_char_idem (c : ascii) :
  PyStr.lower_char (PyStr.lower_char c) = PyStr.lower_char c.
Proof. destruct c as [[] [] [] [] [] [] [] []]; vm_compute; reflexivity. Qed.

Lemma lower_idem (s : string) : PyStr.lower (PyStr.lower s) = PyStr.lower s.
Proof.
  induction s as [|c r IH]; [reflexivity|].
  cbn [PyStr.lower]. rewrite lower_char_idem, IH. reflexivity.
Qed.

(** X19: the resource path of an identity and the one of its lower-case
    form are the same, so that the adapter weights, which are written to
    the path of [hf_peft_model_id.lower()], land in the directory the check
    was made for; names that differ by case only share a cache directory. *)
Theorem resource_path_ignores_case (self : LLM) (name : string)
    (kind : CachedResourceType) (w : world) :
  get_resource_path self (PyStr.lower name) kind w
  = get_resource_path self name kind w /\
  (forall other, PyStr.lower other = PyStr.lower name ->
     get_resource_path self other kind w = get_resource_path self name kind w).
Proof.
  split.
  - unfold get_resource_path, bind. cbv [get]. rewrite lower_idem. reflexivity.
  - intros other H. unfold get_resource_path, bind. cbv [get]. rewrite H.
    reflexivity.
Qed.

(** X20: for a model name that is an absolute path, [os.path.join] drops
    the cache folder: the tokenizer resource path is the lower-cased name
    itself, and the weights path lies inside it.  For such a name in lower
    case the tokenizer cache is the model directory: a tokenizer check that
    refreshes leaves that directory with the marker as its only entry. *)
Theorem absolute_model_name_leaves_the_cache (self : LLM) (name : string) (w : world) :
  Os.startswith_slash (PyStr.lower name) = true ->
  resource_path self name TOKENIZER w = PyStr.lower name /\
  resource_path self name WEIGHTS w
  = Os.join2 (PyStr.lower name)
      match data_type self with
      | DT_FLOAT => "full-precision"
      | DT_HALF => "half-precision"
      end /\
  (forall w1,
     PyStr.lower name = name ->
     need_cache_refresh self name TOKENIZER w = (Returns true, w1) ->
     exists latest mt,
       Os.lookup (Os.resolve w name) (w_root w1)
       = Some (Dir [("rev_sha.txt", File latest (w_now w))] mt)).
Proof.
  intros Habs.
  assert (Htok : resource_path self name TOKENIZER w = PyStr.lower name).
  { unfold resource_path, get_resource_path, bind. cbv [get ret fst].
    unfold Os.join. cbn [fold_left]. unfold Os.join2 at 1. rewrite Habs.
    reflexivity. }
  split; [exact Htok|]. split.
  - unfold resource_path, get_resource_path, bind. cbv [get ret fst].
    unfold Os.join. cbn [fold_left]. f_equal.
    unfold Os.join2 at 1. rewrite Habs. reflexivity.
  - intros w1 Hlow H. rewrite need_cache_refresh_eq in H. cbv zeta in H.
    rewrite Htok, Hlow in H.
    destruct (stored_revision _ w) as [stored|e]; [|discriminate].
    destruct (latest_revision self w) as [latest|e]; [|discriminate].
    destruct (_ || _ || _); [|discriminate].
    apply refresh_steps_spec in H as (_ & n & mt & -> & Hdir & _).
    exists latest, mt. exact Hdir.
Qed.

Lemma absolute_model_name_leaves_the_cache_witness :
  let w := Demo.local_world [Demo.config_json; Demo.safetensors "weights"] in
  resource_path Demo.absolute_llm "/models/tiny" TOKENIZER w = "/models/tiny" /\
  fst (Os.listdir "/models/tiny" w) = Returns ["config.json"; "model.safetensors"] /\
  exists latest mt,
    Os.lookup ["models"; "tiny"]
      (w_root (snd (need_cache_refresh Demo.absolute_llm "/models/tiny" TOKENIZER w)))
    = Some (Dir [("rev_sha.txt", File latest Demo.t0)] mt).
Proof.
  intros w.
  destruct (absolute_model_name_leaves_the_cache Demo.absolute_llm "/models/tiny" w
              eq_refl) as (Htok & _ & Hwipe).
  split; [exact Htok|]. split; [vm_compute; reflexivity|].
  exact (Hwipe (snd (need_cache_refresh Demo.absolute_llm "/models/tiny" TOKENIZER w))
           eq_refl ltac:(vm_compute; reflexivity)).
Defined.

Lemma join_split_app (a b : string) :
  PyStr.join_split (a +:+ b) = PyStr.join_split a +:+ PyStr.join_split b.
Proof.
  induction a as [|c a IH]; [reflexivity|].
  change (String c a +:+ b) with (String c (a +:+ b)).
  cbn [PyStr.join_split]. rewrite IH.
  destruct (PyStr.isspace c); reflexivity.
Qed.

Lemma join_split_all_space (s : string) : all_space s -> PyStr.join_split s = "".
Proof.
  unfold all_space. induction s as [|c r IH]; [reflexivity|].
  cbn [PyStr.list_of_str PyStr.join_split]. intros H.
  inversion H as [|? ? Hc Hr]; subst. rewrite Hc. exact (IH Hr).
Qed.

(** X21: the stored revision is the content of [rev_sha.txt] without its
    white space: none when the file is missing, and for a file that holds a
    revision with white space around it (a final newline), that
    revision. *)
Theorem stored_revision_ignores_white_space (rp : string) (w : world) :
  (Os.lookup (Os.resolve w rp ++ ["rev_sha.txt"]) (w_root w) = None ->
   read_ff_revision rp w = (Returns None, w)) /\
  (forall t mt,
     Os.lookup (Os.resolve w rp ++ ["rev_sha.txt"]) (w_root w) = Some (File t mt) ->
     read_ff_revision rp w = (Returns (Some (PyStr.join_split t)), w) /\
     forall before revision after,
       t = before +:+ revision +:+ after ->
       all_space before -> all_space after -> PyStr.no_space revision ->
       read_ff_revision rp w = (Returns (Some revision), w)).
Proof.
  assert (Hp : Os.resolve w (Os.join rp ["rev_sha.txt"])
               = Os.resolve w rp ++ ["rev_sha.txt"])
    by exact (PathFacts.resolve_join w rp _ PathFacts.marker_is_plain).
  split.
  - intros Hnone. unfold read_ff_revision, bind. cbv [Os.exists_].
    rewrite Hp, Hnone. rewrite bool_decide_eq_false_2; [reflexivity|].
    intros [x Hx]. discriminate.
  - intros t mt Hfile.
    assert (Hread : read_ff_revision rp w
                    = (Returns (Some (PyStr.join_split t)), w)).
    { unfold read_ff_revision, bind. cbv [Os.exists_].
      rewrite Hp, Hfile. rewrite bool_decide_eq_true_2 by eauto.
      unfold Os.read_file. rewrite Hp, Hfile. reflexivity. }
    split; [exact Hread|].
    intros before revision after -> Hb Ha Hr. rewrite Hread.
    rewrite !join_split_app, (join_split_all_space _ Hb),
      (join_split_all_space _ Ha), (join_split_no_space _ Hr).
    cbn [String.append]. rewrite PathFacts.append_nil_r. reflexivity.
Qed.

(** ** The Falcon model class *)

(** X22: a configuration that passes the sanity checks of the constructor
    has a head count that is not zero and divides the hidden size, so that
    the converter's [hidden_size // n_head] raises nothing and is the exact
    head dimension; the head count is a multiple of the tensor parallelism
    degree and not below it. *)
Theorem sanity_checks_make_the_head_split_exact (cfg : hf_config) (tp : Z) :
  FlexFlowFalcon.sanity_checks cfg tp = inr tt ->
  let H := cfg_hidden_size cfg in
  let n := FlexFlowFalcon.n_head cfg in
  n <> 0 /\ n * (H / n) = H /\
  FlexFlowFalcon.qkv_sizes cfg = Returns [H; H / n; H / n] /\
  tp <> 0 /\ tp <= n /\ tp * (n / tp) = n.
Proof.
  unfold FlexFlowFalcon.sanity_checks, pymod, FlexFlowFalcon.qkv_sizes, floordiv.
  destruct (FlexFlowFalcon.n_head cfg =? 0) eqn:En; [discriminate|].
  destruct (cfg_hidden_size cfg mod FlexFlowFalcon.n_head cfg =? 0) eqn:Eh;
    cbn [negb]; [|discriminate].
  destruct (FlexFlowFalcon.n_head cfg <? tp) eqn:Elt; [discriminate|].
  destruct (tp =? 0) eqn:Etp; [discriminate|].
  destruct (FlexFlowFalcon.n_head cfg mod tp =? 0) eqn:Em; cbn [negb]; [|discriminate].
  intros _. cbv zeta.
  apply Z.eqb_neq in En, Etp. apply Z.eqb_eq in Eh, Em. apply Z.ltb_ge in Elt.
  repeat split; try assumption.
  - symmetry. apply Z.div_exact; assumption.
  - symmetry. apply Z.div_exact; assumption.
Qed.

Lemma sanity_checks_make_the_head_split_exact_witness :
  FlexFlowFalcon.sanity_checks falcon_7b_like 2 = inr tt /\
  FlexFlowFalcon.qkv_sizes falcon_7b_like = Returns [8; 2; 2] /\
  FlexFlowFalcon.sanity_checks (HfConfig None 3 8) 1
  = inl (FlexFlowFalcon.HiddenSizeNotDivisible 8 3) /\
  FlexFlowFalcon.sanity_checks (HfConfig (Some 0) 4 8) 1
  = inl (FlexFlowFalcon.InitRaised ZeroDivisionError).
Proof.
  split; [reflexivity|]. split; [|split; reflexivity].
  exact (proj1 (proj2 (proj2 (sanity_checks_make_the_head_split_exact
                                falcon_7b_like 2 eq_refl)))).
Defined.

(** X23: the split of a fused projection goes through exactly for a head
    count other than zero and a tensor of [H + 2 * (H // n_head)] rows, the
    sizes being non-negative; a head count of zero raises the division
    error, every other tensor the error of [torch.split]. *)
Theorem split_qkv_outcome (cfg : hf_config) (params : tensor) :
  let H := cfg_hidden_size cfg in
  let n := FlexFlowFalcon.n_head cfg in
  let rows := Z.of_nat (length params) in
  (n = 0 -> FlexFlowFalcon.split_qkv cfg params = Raises ZeroDivisionError) /\
  (n <> 0 ->
   (0 <= H /\ 0 <= H / n /\ rows = H + 2 * (H / n) <->
    exists q k v, FlexFlowFalcon.split_qkv cfg params = Returns (q, k, v)) /\
   (~ (0 <= H /\ 0 <= H / n /\ rows = H + 2 * (H / n)) ->
    FlexFlowFalcon.split_qkv cfg params
    = Raises (TorchSplitError [H; H / n; H / n] rows))).
Proof.
  intros H n rows. subst H n rows.
  unfold FlexFlowFalcon.split_qkv, FlexFlowFalcon.qkv_sizes, floordiv.
  split.
  - intros ->. reflexivity.
  - intros Hn. apply Z.eqb_neq in Hn. rewrite Hn.
    set (H := cfg_hidden_size cfg). set (kv := H / FlexFlowFalcon.n_head cfg).
    unfold Torch.split. cbn [forallb Torch.sum_sizes fold_right Torch.chunks andb].
    destruct ((0 <=? H) && ((0 <=? kv) && ((0 <=? kv) && true))
              && (H + (kv + (kv + 0)) =? Z.of_nat (length params))) eqn:E.
    + apply andb_prop in E as [E1 E2]. apply andb_prop in E1 as [E0 E1].
      apply andb_prop in E1 as [E1 _].
      apply Z.leb_le in E0, E1. apply Z.eqb_eq in E2.
      split.
      * split; [eauto | intros _; lia].
      * intros Hno. exfalso. apply Hno. lia.
    + split.
      * split.
        -- intros (H0 & H1 & H2). exfalso.
           apply andb_false_iff in E as [E | E].
           ++ apply andb_false_iff in E as [E | E];
                [apply Z.leb_gt in E; lia|].
              apply andb_false_iff in E as [E | E];
                [apply Z.leb_gt in E; lia|].
              apply andb_false_iff in E as [E | E];
                [apply Z.leb_gt in E; lia | discriminate].
           ++ apply Z.eqb_neq in E. lia.
        -- intros (q & k & v & Habs). discriminate.
      * intros _. reflexivity.
Qed.

Lemma update_stores now f x :
  (forall o r, f o = Returns r -> r = Some x) ->
  forall q seen n n',
    Os.update now seen q f n = Returns n' -> Os.lookup q n' = Some x.
Proof.
  intros Hf. induction q as [|c q IH]; intros seen n n'; [discriminate|].
  rewrite OsFacts.update_cons. destruct n as [|es mt]; [discriminate|].
  destruct q as [|c' q'].
  - destruct (f (Os.assoc c es)) as [r|e] eqn:E; [|discriminate].
    rewrite (Hf _ _ E). intros [= <-].
    cbn [Os.lookup]. rewrite OsFacts.assoc_set_entry. reflexivity.
  - destruct (Os.assoc c es) as [sub|]; [|discriminate].
    destruct (Os.update now (seen ++ [c]) (c' :: q') f sub) as [sub'|e] eqn:E;
      [|discriminate].
    intros [= <-]. rewrite OsFacts.lookup_cons, OsFacts.assoc_set_entry.
    exact (IH _ _ _ E).
Qed.

(** What [write_file] has written is what [read_file] reads. *)
Lemma write_then_read (p content : string) (w w1 : world) :
  Os.write_file p content w = (Returns tt, w1) ->
  Os.read_file p w1 = (Returns content, w1).
Proof.
  unfold Os.write_file, Os.update_root.
  destruct (Os.update _ _ _ _ _) as [n'|e] eqn:E; [|discriminate].
  intros [= <-]. unfold Os.read_file.
  change (Os.resolve (Os.with_root n' w) p) with (Os.resolve w p).
  cbn [w_root Os.with_root].
  eapply update_stores with (x := File content (w_now w)) in E.
  - rewrite E. reflexivity.
  - intros [[]|] r; intros [= <-] || discriminate; reflexivity.
Qed.

(** X24: a conversion that returns has written the LM head last: the file
    [lm_head.weight] of the destination folder holds the bytes of
    [model.lm_head.weight], also when a named parameter was written under
    that name before. *)
Theorem lm_head_is_written_last (model : hf_model) (dst_folder : string)
    (w w1 : world) :
  FlexFlowFalcon.convert_hf_model model dst_folder w = (Returns tt, w1) ->
  Os.read_file (Os.join dst_folder ["lm_head.weight"]) w1
  = (Returns (Torch.to_bytes (lm_head_weight model)), w1).
Proof.
  unfold FlexFlowFalcon.convert_hf_model. unfold bind at 1.
  destruct (Os.makedirs dst_folder w) as [[[]|e] w0]; [|discriminate].
  unfold bind at 1.
  destruct (for_each _ (named_parameters model) w0) as [[[]|e] w2]; [|discriminate].
  unfold Torch.tofile. apply write_then_read.
Qed.

Lemma lm_head_is_written_last_witness :
  let model := HfModel falcon_7b_like [("lm_head.weight", Demo.letters 3)]
                       (Demo.letters 2) in
  fst (Os.read_file "out/lm_head.weight"
         (snd (FlexFlowFalcon.convert_hf_model model "out" Demo.world0)))
  = Returns "ab".
Proof.
  intros model.
  pose proof (lm_head_is_written_last model "out" Demo.world0
                (snd (FlexFlowFalcon.convert_hf_model model "out" Demo.world0))
                ltac:(vm_compute; reflexivity)) as Hread.
  change (Os.join "out" ["lm_head.weight"]) with "out/lm_head.weight" in Hread.
  rewrite Hread. reflexivity.
Defined.

Lemma for_each_raises {S A} (body : A -> prog S unit) (l : list A) (x : A) :
  In x l ->
  (forall s, exists e, fst (body x s) = Raises e) ->
  forall s, exists e, fst (for_each body l s) = Raises e.
Proof.
  intros Hin Hx. induction l as [|y l IH]; [contradiction|].
  intros s. cbn [for_each]. unfold bind.
  destruct Hin as [-> | Hin].
  - destruct (Hx s) as [e He]. destruct (body x s) as [o s1]. cbn [fst] in He.
    subst o. eauto.
  - destruct (body y s) as [[[]|e] s1]; [exact (IH Hin s1) | eauto].
Qed.

(** X25: the conversion is fail-stop: a named parameter whose fused
    projection cannot be split makes [convert_hf_model] raise, whatever the
    other parameters are, and the LM head is not written after it. *)
Theorem conversion_stops_at_a_bad_projection (model : hf_model) (dst_folder : string)
    (np : string * tensor) (e : exn) (w : world) :
  In np (named_parameters model) ->
  FlexFlowFalcon.converted (hf_cfg model) np = Raises e ->
  exists e', fst (FlexFlowFalcon.convert_hf_model model dst_folder w) = Raises e'.
Proof.
  intros Hin Hbad. unfold FlexFlowFalcon.convert_hf_model. unfold bind at 1.
  destruct (Os.makedirs dst_folder w) as [[[]|e0] w0]; [|eauto].
  unfold bind at 1.
  match goal with
  | |- context [for_each ?b (named_parameters model) w0] =>
      destruct (for_each_raises b (named_parameters model) np Hin) with (s := w0)
        as [e1 He1]
  end.
  - intros s. unfold bind, lift. rewrite Hbad. eauto.
  - destruct (for_each _ (named_parameters model) w0) as [o w2].
    cbn [fst] in He1. subst o. eauto.
Qed.

Lemma conversion_stops_at_a_bad_projection_witness :
  (exists e',
     fst (FlexFlowFalcon.convert_hf_model Sample.broken_falcon "out" Demo.world0)
     = Raises e') /\
  fst (Os.listdir "out"
         (snd (FlexFlowFalcon.convert_hf_model Sample.broken_falcon "out" Demo.world0)))
  = Returns ["word_embeddings.weight"].
Proof.
  split; [|vm_compute; reflexivity].
  apply (conversion_stops_at_a_bad_projection Sample.broken_falcon "out"
           ("transformer.h.0.self_attention.query_key_value.weight", Demo.letters 5)
           (TorchSplitError [8; 2; 2] 5) Demo.world0).
  - right. left. reflexivity.
  - vm_compute. reflexivity.
Defined.

Lemma replace_absent (old new s : string) :
  PyStr.contains old s = false -> PyStr.replace old new s = s.
Proof.
  unfold PyStr.replace. induction s as [|c r IH]; [reflexivity|].
  cbn [PyStr.contains PyStr.replace_from].
  intros [H1 H2]%orb_false_iff. rewrite H1, (IH H2). reflexivity.
Qed.

Lemma startswith_app (p q s : string) :
  PyStr.startswith (p +:+ q) s = true -> PyStr.startswith p s = true.
Proof.
  revert s. induction p as [|a p IH]; intros s; [destruct s; reflexivity|].
  change (String a p +:+ q) with (String a (p +:+ q)).
  destruct s as [|b s]; cbn [PyStr.startswith]; [discriminate|].
  destruct (Ascii.eqb a b); [apply IH | discriminate].
Qed.

Lemma contains_app (p q s : string) :
  PyStr.contains p s = false -> PyStr.contains (p +:+ q) s = false.
Proof.
  induction s as [|c r IH].
  - cbn [PyStr.contains]. rewrite !orb_false_r. intros H.
    destruct (PyStr.startswith (p +:+ q) "") eqn:E; [|reflexivity].
    apply startswith_app in E. congruence.
  - cbn [PyStr.contains]. intros [H1 H2]%orb_false_iff.
    rewrite (IH H2), orb_false_r.
    destruct (PyStr.startswith (p +:+ q) (String c r)) eqn:E; [|reflexivity].
    apply startswith_app in E. congruence.
Qed.

(** X26: a parameter name that holds neither "transformer." nor
    "self_attention.dense" is its own FlexFlow name; such a parameter is
    written whole to one file under that name, unless it names a fused
    projection. *)
Theorem plain_weight_names_are_kept (name : string) :
  PyStr.contains "transformer." name = false ->
  PyStr.contains "self_attention.dense" name = false ->
  FlexFlowFalcon.convert_hf_weight_name name = name /\
  (PyStr.contains FlexFlowFalcon.qkv name = false ->
   forall cfg params,
     FlexFlowFalcon.converted cfg (name, params) = Returns [(name, params)]).
Proof.
  intros Ht Hd.
  assert (Hname : FlexFlowFalcon.convert_hf_weight_name name = name).
  { unfold FlexFlowFalcon.convert_hf_weight_name.
    rewrite (replace_absent "transformer.h." "layers." name)
      by exact (contains_app "transformer." "h." name Ht).
    rewrite (replace_absent _ _ _ Ht). exact (replace_absent _ _ _ Hd). }
  split; [exact Hname|].
  intros Hq cfg params. unfold FlexFlowFalcon.converted. cbn [fst snd].
  rewrite Hname, Hq. reflexivity.
Qed.

Lemma plain_weight_names_are_kept_witness :
  FlexFlowFalcon.convert_hf_weight_name "lm_head.weight" = "lm_head.weight" /\
  FlexFlowFalcon.convert_hf_weight_name "transformer.h.0.mlp.dense_4h_to_h.weight"
  = "layers.0.mlp.dense_4h_to_h.weight".
Proof.
  split; [|vm_compute; reflexivity].
  exact (proj1 (plain_weight_names_are_kept "lm_head.weight" eq_refl eq_refl)).
Defined.

(** X27: when [download_hf_weights_if_needed] returns after a check that
    refreshed, the model could be loaded and, with the Falcon converter,
    the weights directory holds its LM head in [lm_head.weight]. *)
Theorem refreshed_weights_hold_the_lm_head (self : LLM) (w w1 w2 : world) :
  model_class self = FlexFlowFalcon.model_class ->
  need_cache_refresh self (model_name self) WEIGHTS w = (Returns true, w1) ->
  download_hf_weights_if_needed self w = (Returns tt, w2) ->
  exists m,
    w_pretrained w !! model_name self = Some m /\
    Os.read_file
      (Os.join (resource_path self (model_name self) WEIGHTS w) ["lm_head.weight"]) w2
    = (Returns (Torch.to_bytes (lm_head_weight m)), w2).
Proof.
  intros Hclass Hcheck. unfold download_hf_weights_if_needed. unfold bind at 1.
  rewrite Hcheck. unfold download_and_convert_llm_weights.
  unfold bind at 1. unfold Hub.from_pretrained.
  assert (Hw1 : w_pretrained w1 = w_pretrained w /\
                resource_path self (model_name self) WEIGHTS w1
                = resource_path self (model_name self) WEIGHTS w).
  { rewrite need_cache_refresh_eq in Hcheck. cbv zeta in Hcheck.
    destruct (stored_revision _ w) as [stored|e]; [|discriminate].
    destruct (latest_revision self w) as [latest|e]; [|discriminate].
    destruct (_ || _ || _); [|discriminate].
    apply refresh_steps_spec in Hcheck as (_ & n & mt & -> & _).
    split; [reflexivity | apply resource_path_with_root]. }
  destruct Hw1 as [Hpre Hrp]. rewrite Hpre.
  destruct (w_pretrained w !! model_name self) as [m|]; [|discriminate].
  unfold bind at 1. rewrite get_resource_path_eq, Hrp, Hclass.
  cbn [convert_hf_model FlexFlowFalcon.model_class].
  intros Hconv. exists m. split; [reflexivity|].
  revert Hconv. unfold FlexFlowFalcon.convert_hf_model. unfold bind at 1.
  destruct (Os.makedirs _ w1) as [[[]|e] w0]; [|discriminate].
  unfold bind at 1.
  destruct (for_each _ (named_parameters m) w0) as [[[]|e] w3]; [|discriminate].
  unfold Torch.tofile. apply write_then_read.
Qed.

Lemma refreshed_weights_hold_the_lm_head_witness :
  fst (Os.read_file (Os.join falcon_weights_path ["lm_head.weight"])
         (snd (download_hf_weights_if_needed Demo.llm Sample.loading_world)))
  = Returns "ab".
Proof.
  destruct (refreshed_weights_hold_the_lm_head Demo.llm Sample.loading_world
              (snd (need_cache_refresh Demo.llm "tiiuae/falcon-7b" WEIGHTS
                      Sample.loading_world))
              (snd (download_hf_weights_if_needed Demo.llm Sample.loading_world))
              eq_refl ltac:(vm_compute; reflexivity) ltac:(vm_compute; reflexivity))
    as (m & Hm & Hread).
  assert (m = Demo.tiny_falcon) as ->
    by (vm_compute in Hm; injection Hm as <-; vm_compute; reflexivity).
  change (resource_path Demo.llm (model_name Demo.llm) WEIGHTS Sample.loading_world)
    with falcon_weights_path in Hread.
  rewrite Hread. reflexivity.
Defined.

(** ** The supported architectures *)

(** X28: the model type is decided by the first architecture alone: the
    call returns exactly when that is one of the seven supported names,
    whatever follows it; the two spellings of the Llama class and the two
    names of the Falcon class give the same classes; a configuration with
    no architecture, or with [None] first, is not supported. *)
Theorem model_type_is_decided_by_the_first_architecture
    (first : option string) (rest : list (option string)) :
  SupportedModels.get_ff_model_type (ArchList (first :: rest))
  = match SupportedModels.get_ff_model_type (ArchList [first]) with
    | inl _ => inl (NotYetSupported (first :: rest))
    | inr a => inr a
    end /\
  ((exists a, SupportedModels.get_ff_model_type (ArchList (first :: rest)) = inr a) <->
   exists name, first = Some name /\
     In name ["LlamaForCausalLM"; "LLaMAForCausalLM"; "OPTForCausalLM";
              "RWForCausalLM"; "FalconForCausalLM"; "GPTBigCodeForCausalLM";
              "MPTForCausalLM"]) /\
  SupportedModels.get_ff_model_type (ArchList (Some "LlamaForCausalLM" :: rest))
  = SupportedModels.get_ff_model_type (ArchList (Some "LLaMAForCausalLM" :: rest)) /\
  SupportedModels.get_ff_model_type (ArchList (Some "RWForCausalLM" :: rest))
  = SupportedModels.get_ff_model_type (ArchList (Some "FalconForCausalLM" :: rest)) /\
  SupportedModels.get_ff_model_type (ArchList []) = inl (NotYetSupported []) /\
  SupportedModels.get_ff_model_type (ArchList (None :: rest))
  = inl (NotYetSupported (None :: rest)).
Proof.
  split; [|split; [|repeat split]].
  - unfold SupportedModels.get_ff_model_type. destruct first as [name|]; [|reflexivity].
    destruct (dict_get name SupportedModels.supported_models); reflexivity.
  - unfold SupportedModels.get_ff_model_type. destruct first as [name|].
    + assert (Hget : is_Some (dict_get name SupportedModels.supported_models) <->
                     In name (map fst SupportedModels.supported_models)).
      { induction SupportedModels.supported_models as [|[k v] d IH];
          cbn [dict_get map fst In].
        - split; [intros [x Hx]; discriminate | contradiction].
        - destruct (decide (k = name)) as [->|Hne].
          + split; [auto | eauto].
          + rewrite IH. split; [auto | intros [H|H]; [contradiction | exact H]]. }
      split.
      * intros [a Ha]. exists name. split; [reflexivity|]. apply Hget.
        destruct (dict_get name SupportedModels.supported_models);
          [eauto | discriminate].
      * intros (name' & [= <-] & Hin). apply Hget in Hin as [a Ha].
        rewrite Ha. eauto.
    + split; [intros [a Ha]; discriminate | intros (name & Hn & _); discriminate].
Qed.

(** ** What a conversion writes *)

Lemma write_file_spec (p content : string) (w w1 : world) :
  Os.write_file p content w = (Returns tt, w1) ->
  exists n',
    w1 = Os.with_root n' w /\
    Os.lookup (Os.resolve w p) n' = Some (File content (w_now w)) /\
    forall p', unrelated p' (Os.resolve w p) ->
               Os.lookup p' n' = Os.lookup p' (w_root w).
Proof.
  unfold Os.write_file, Os.update_root.
  destruct (Os.update _ _ _ _ _) as [n'|e] eqn:E; [|discriminate].
  intros [= <-]. exists n'. split; [reflexivity|]. split.
  - eapply update_stores; [|exact E].
    intros [[]|] r; intros [= <-] || discriminate; reflexivity.
  - exact (OsFacts.update_frame _ _ _ _ _ _ E).
Qed.

Lemma unrelated_siblings (q : path) (m n : string) :
  m <> n -> unrelated (q ++ [m]) (q ++ [n]).
Proof.
  intros Hne. split; intros H; apply prefix_app_inv in H; destruct H as [k Hk];
    injection Hk as Hk _; congruence.
Qed.

Lemma with_root_same (w : world) : Os.with_root (w_root w) w = w.
Proof. destruct w; reflexivity. Qed.

(** A run of [tofile] calls into one folder, under plain names. *)
Lemma tofile_run (dst_folder : string) (files : list (string * tensor)) :
  Forall plain_name (map fst files) ->
  forall w w1,
    for_each (fun f => Torch.tofile (snd f) (Os.join dst_folder [fst f])) files w
    = (Returns tt, w1) ->
    exists n',
      w1 = Os.with_root n' w /\
      (forall p, unrelated p (Os.resolve w dst_folder) ->
                 Os.lookup p n' = Os.lookup p (w_root w)) /\
      (forall m, m ∉ map fst files ->
                 Os.lookup (Os.resolve w dst_folder ++ [m]) n'
                 = Os.lookup (Os.resolve w dst_folder ++ [m]) (w_root w)) /\
      (NoDup (map fst files) ->
       forall name t, In (name, t) files ->
         Os.lookup (Os.resolve w dst_folder ++ [name]) n'
         = Some (File (Torch.to_bytes t) (w_now w))).
Proof.
  induction files as [|[name t] files IH]; intros Hplain w w1.
  - intros [= <-]. exists (w_root w). rewrite with_root_same.
    repeat split; try reflexivity. intros _ ? ? [].
  - cbn [map fst] in Hplain. apply Forall_cons in Hplain as [Hname Hplain].
    cbn [for_each fst snd]. unfold bind at 1. unfold Torch.tofile at 1.
    destruct (Os.write_file _ _ w) as [[[]|e] w0] eqn:Ew; [|discriminate].
    apply write_file_spec in Ew as (n0 & -> & Hfile & Hframe).
    rewrite (PathFacts.resolve_join w dst_folder name Hname) in Hfile, Hframe.
    intros Hrest. destruct (IH Hplain _ _ Hrest) as (n' & -> & Hf & Hs & Hr).
    change (Os.resolve (Os.with_root n0 w) dst_folder)
      with (Os.resolve w dst_folder) in *.
    cbn [w_root w_now Os.with_root] in *.
    exists n'. split; [reflexivity|]. split; [|split].
    + intros p Hp. rewrite (Hf p Hp).
      apply Hframe, OsFacts.unrelated_snoc, Hp.
    + intros m Hm. cbn [map fst] in Hm. apply not_elem_of_cons in Hm as [Hne Hm].
      rewrite (Hs m Hm). apply Hframe, unrelated_siblings. exact Hne.
    + intros Hnd name' t' Hin. cbn [map fst] in Hnd.
      apply NoDup_cons in Hnd as [Hfresh Hnd].
      destruct Hin as [[= <- <-] | Hin].
      * rewrite (Hs name Hfresh). exact Hfile.
      * exact (Hr Hnd name' t' Hin).
Qed.

Lemma for_each_app {S A} (body : A -> prog S unit) (l1 l2 : list A) (s : S) :
  for_each body (l1 ++ l2) s
  = (for_each body l1 ;; for_each body l2) s.
Proof.
  revert s. induction l1 as [|x l1 IH]; intros s; [reflexivity|].
  cbn [app for_each]. unfold bind.
  destruct (body x s) as [[[]|e] s1]; [|reflexivity].
  rewrite IH. reflexivity.
Qed.

(** The loop of [convert_hf_model] as one run of [tofile] calls. *)
Lemma conversion_loop (cfg : hf_config) (dst_folder : string)
    (params : list (string * tensor)) :
  forall w w1,
    for_each
      (fun np =>
         let* files := lift (FlexFlowFalcon.converted cfg np) in
         for_each (fun f => Torch.tofile (snd f) (Os.join dst_folder [fst f])) files)
      params w
    = (Returns tt, w1) ->
    exists written,
      Forall2 (fun np files => FlexFlowFalcon.converted cfg np = Returns files)
              params written /\
      for_each (fun f => Torch.tofile (snd f) (Os.join dst_folder [fst f]))
               (concat written) w
      = (Returns tt, w1).
Proof.
  induction params as [|np params IH]; intros w w1.
  - intros [= <-]. exists []. split; [constructor | reflexivity].
  - cbn [for_each]. unfold bind at 1. unfold bind at 1. unfold lift at 1.
    destruct (FlexFlowFalcon.converted cfg np) as [files|e] eqn:Ec; [|discriminate].
    destruct (for_each _ files w) as [[[]|e] w0] eqn:Ef; [|discriminate].
    intros Hrest. destruct (IH _ _ Hrest) as (written & Hall & Hrun).
    exists (files :: written). split; [constructor; assumption|].
    cbn [concat]. rewrite for_each_app. unfold bind. rewrite Ef. exact Hrun.
Qed.

(** X29: a Falcon conversion that returns has split or kept every named
    parameter, and, the file names being plain, has written inside the
    destination folder only; when the names are distinct, each file holds
    the bytes of its tensor: a whole parameter, or the query, key or value
    part of a fused projection, or the LM head. *)
Theorem conversion_writes_each_tensor (model : hf_model) (dst_folder : string)
    (w w1 : world) :
  FlexFlowFalcon.convert_hf_model model dst_folder w = (Returns tt, w1) ->
  exists written,
    Forall2 (fun np files => FlexFlowFalcon.converted (hf_cfg model) np = Returns files)
            (named_parameters model) written /\
    let files := concat written ++ [("lm_head.weight", lm_head_weight model)] in
    (Forall plain_name (map fst files) ->
     (forall p, unrelated p (Os.resolve w dst_folder) ->
                Os.lookup p (w_root w1) = Os.lookup p (w_root w)) /\
     (NoDup (map fst files) ->
      forall name t, In (name, t) files ->
        Os.read_file (Os.join dst_folder [name]) w1 = (Returns (Torch.to_bytes t), w1))).
Proof.
  unfold FlexFlowFalcon.convert_hf_model. unfold bind at 1.
  unfold Os.makedirs at 1. unfold Os.update_root.
  destruct (Os.makedirs_in _ _ _ _) as [n0|e] eqn:Em; [|discriminate].
  cbv [Os.set_root]. unfold bind at 1.
  destruct (for_each _ (named_parameters model) _) as [[[]|e] w2] eqn:Eloop;
    [|discriminate].
  intros Hhead.
  apply conversion_loop in Eloop as (written & Hall & Hrun).
  exists written. split; [exact Hall|]. cbv zeta.
  set (files := concat written ++ [("lm_head.weight", lm_head_weight model)]).
  intros Hplain.
  assert (Hfiles : for_each
            (fun f => Torch.tofile (snd f) (Os.join dst_folder [fst f])) files
            (Os.with_root n0 w) = (Returns tt, w1)).
  { subst files. rewrite for_each_app. unfold bind. rewrite Hrun.
    cbn [for_each fst snd]. unfold bind. rewrite Hhead. reflexivity. }
  destruct (tofile_run dst_folder files Hplain _ _ Hfiles)
    as (n' & -> & Hf & _ & Hr).
  change (Os.resolve (Os.with_root n0 w) dst_folder)
    with (Os.resolve w dst_folder) in *.
  cbn [w_root w_now Os.with_root] in *. split.
  - intros p Hp. rewrite (Hf p Hp).
    exact (OsFacts.makedirs_in_frame _ _ _ _ _ Em p Hp).
  - intros Hnd name t Hin. unfold Os.read_file.
    assert (Hname : plain_name name).
    { rewrite Forall_forall in Hplain. apply Hplain.
      apply list_elem_of_In. apply in_map_iff. exists (name, t). auto. }
    rewrite !resolve_with_root.
    rewrite (PathFacts.resolve_join w dst_folder name Hname).
    cbn [w_root Os.with_root]. rewrite (Hr Hnd name t Hin). reflexivity.
Qed.

Lemma conversion_writes_each_tensor_witness :
  fst (Os.read_file "out/layers.0.self_attention.k_proj.weight"
         (snd (FlexFlowFalcon.convert_hf_model Demo.tiny_falcon "out" Demo.world0)))
  = Returns "ij".
Proof.
  destruct (conversion_writes_each_tensor Demo.tiny_falcon "out" Demo.world0
              (snd (FlexFlowFalcon.convert_hf_model Demo.tiny_falcon "out" Demo.world0))
              ltac:(vm_compute; reflexivity))
    as (written & Hall & Hread).
  cbn [named_parameters Demo.tiny_falcon] in Hall.
  apply Forall2_cons_inv_l in Hall as (f1 & written1 & H1 & Hall & ->).
  apply Forall2_cons_inv_l in Hall as (f2 & written2 & H2 & Hall & ->).
  apply Forall2_cons_inv_l in Hall as (f3 & written3 & H3 & Hall & ->).
  apply Forall2_nil_inv_l in Hall as ->.
  vm_compute in H1, H2, H3.
  injection H1 as <-. injection H2 as <-. injection H3 as <-.
  cbv zeta in Hread. cbn [concat app map fst] in Hread.
  destruct Hread as [_ Hread].
  - repeat constructor; try discriminate.
  - refine (f_equal fst (Hread _ "layers.0.self_attention.k_proj.weight"
                           (skipn 8 (firstn 10 (Demo.letters 12))) _)).
    + repeat (apply NoDup_cons; split;
              [rewrite ?elem_of_cons, elem_of_nil; intros H;
               repeat (destruct H as [H | H]; [discriminate H|]); exact H|]).
      apply NoDup_nil_2.
    + right. right. left. reflexivity.
Defined.

(** ** The tokenizer of a local model *)

Lemma unrelated_app (a b x y : path) :
  unrelated a b -> unrelated (a ++ x) (b ++ y).
Proof.
  intros [Hab Hba]. split; intros H.
  - destruct (prefix_weak_total a b (b ++ y)) as [H1 | H1];
      [etrans; [apply prefix_app_r; reflexivity | exact H]
      | apply prefix_app_r; reflexivity | auto | auto].
  - destruct (prefix_weak_total b a (a ++ x)) as [H1 | H1];
      [etrans; [apply prefix_app_r; reflexivity | exact H]
      | apply prefix_app_r; reflexivity | auto | auto].
Qed.

(** One pass of the loop of [download_hf_tokenizer_if_needed]. *)
Lemma copy_step (src_folder dst_folder file : string) (w w0 : world) :
  plain_name file ->
  (let* there := Os.exists_ (Os.join src_folder [file]) in
   if there : bool
   then Os.copy (Os.join src_folder [file]) (Os.join dst_folder [file])
   else ret tt) w
  = (Returns tt, w0) ->
  exists n0,
    w0 = Os.with_root n0 w /\
    (forall p, unrelated p (Os.resolve w dst_folder ++ [file]) ->
               Os.lookup p n0 = Os.lookup p (w_root w)) /\
    Os.lookup (Os.resolve w dst_folder ++ [file]) n0
    = match Os.lookup (Os.resolve w src_folder ++ [file]) (w_root w) with
      | Some (File content _) => Some (File content (w_now w))
      | _ => Os.lookup (Os.resolve w dst_folder ++ [file]) (w_root w)
      end.
Proof.
  intros Hfile. unfold bind at 1. cbv [Os.exists_].
  rewrite (PathFacts.resolve_join w src_folder file Hfile).
  destruct (Os.lookup (Os.resolve w src_folder ++ [file]) (w_root w))
    as [[content mt|es mt]|] eqn:Es.
  - rewrite bool_decide_eq_true_2 by eauto.
    unfold Os.copy, bind, Os.read_file.
    rewrite (PathFacts.resolve_join w src_folder file Hfile), Es.
    intros Ew. apply write_file_spec in Ew as (n0 & -> & Hf & Hframe).
    rewrite (PathFacts.resolve_join w dst_folder file Hfile) in Hf, Hframe.
    exists n0. auto.
  - rewrite bool_decide_eq_true_2 by eauto.
    unfold Os.copy, bind, Os.read_file.
    rewrite (PathFacts.resolve_join w src_folder file Hfile), Es. discriminate.
  - rewrite bool_decide_eq_false_2 by (intros [x Hx]; discriminate).
    intros [= <-]. exists (w_root w). rewrite with_root_same. auto.
Qed.

(** The loop of [download_hf_tokenizer_if_needed]: the files of the list
    that the source folder holds are copied to the destination folder. *)
Lemma copy_run (src_folder dst_folder : string) (files : list string) :
  Forall plain_name files ->
  forall w w1,
    unrelated (Os.resolve w src_folder) (Os.resolve w dst_folder) ->
    for_each
      (fun file =>
         let src_path := Os.join src_folder [file] in
         let dst_path := Os.join dst_folder [file] in
         let* there := Os.exists_ src_path in
         if there : bool then Os.copy src_path dst_path else ret tt)
      files w
    = (Returns tt, w1) ->
    exists n',
      w1 = Os.with_root n' w /\
      (forall p, unrelated p (Os.resolve w dst_folder) ->
                 Os.lookup p n' = Os.lookup p (w_root w)) /\
      (forall m, m ∉ files ->
                 Os.lookup (Os.resolve w dst_folder ++ [m]) n'
                 = Os.lookup (Os.resolve w dst_folder ++ [m]) (w_root w)) /\
      (NoDup files ->
       forall file, In file files ->
         Os.lookup (Os.resolve w dst_folder ++ [file]) n'
         = match Os.lookup (Os.resolve w src_folder ++ [file]) (w_root w) with
           | Some (File content _) => Some (File content (w_now w))
           | _ => Os.lookup (Os.resolve w dst_folder ++ [file]) (w_root w)
           end).
Proof.
  induction files as [|file files IH]; intros Hplain w w1 Hbeside.
  - intros [= <-]. exists (w_root w). rewrite with_root_same.
    repeat split; try reflexivity. intros _ ? [].
  - apply Forall_cons in Hplain as [Hfile Hplain].
    cbn [for_each]. unfold bind at 1. cbv zeta.
    match goal with
    | |- (let (_, _) := ?m in _) = _ -> _ => destruct m as [[[]|e] w0] eqn:E1
    end; cbv beta iota; [|discriminate].
    apply (copy_step _ _ _ _ _ Hfile) in E1 as (n0 & -> & Hframe0 & Hcopied).
    intros Hrest.
    destruct (IH Hplain (Os.with_root n0 w) w1 Hbeside Hrest)
      as (n' & -> & Hf & Hs & Hr).
    rewrite !resolve_with_root in *.
    cbn [w_root w_now Os.with_root] in *.
    set (src := Os.resolve w src_folder) in *.
    set (dst := Os.resolve w dst_folder) in *.
    exists n'. split; [reflexivity|]. split; [|split].
    + intros p Hp. rewrite (Hf p Hp).
      apply Hframe0, OsFacts.unrelated_snoc, Hp.
    + intros m Hm. apply not_elem_of_cons in Hm as [Hne Hm].
      rewrite (Hs m Hm). apply Hframe0, unrelated_siblings. exact Hne.
    + intros Hnd file' Hin. apply NoDup_cons in Hnd as [Hfresh Hnd].
      destruct Hin as [<- | Hin].
      * rewrite (Hs file Hfresh). exact Hcopied.
      * rewrite (Hr Hnd file' Hin).
        assert (Hne : file' <> file).
        { intros ->. apply Hfresh, list_elem_of_In, Hin. }
        rewrite (Hframe0 (src ++ [file'])), (Hframe0 (dst ++ [file']));
          [reflexivity | apply unrelated_siblings, Hne
          | apply unrelated_app, Hbeside].
Qed.

Lemma target_tokenizer_files_plain : Forall plain_name target_tokenizer_files.
Proof. repeat constructor; discriminate. Qed.

Lemma target_tokenizer_files_distinct :
  NoDup target_tokenizer_files /\ "rev_sha.txt" ∉ target_tokenizer_files.
Proof.
  split.
  - repeat (apply NoDup_cons; split;
            [rewrite ?elem_of_cons, elem_of_nil; intros H;
             repeat (destruct H as [H | H]; [discriminate H|]); exact H|]).
    apply NoDup_nil_2.
  - unfold target_tokenizer_files. rewrite ?elem_of_cons, elem_of_nil. intros H.
    repeat (destruct H as [H | H]; [discriminate H|]). exact H.
Qed.

(** X30: for a model kept in a local directory that lies beside the cache,
    a tokenizer download that refreshes and returns has copied, of the five
    tokenizer files, exactly those the model directory holds, each with its
    content, next to the marker; it has written nowhere outside the
    tokenizer directory, so that the model directory is as it was. *)
Theorem local_tokenizer_is_copied (self : LLM) (w w1 w2 : world) (model_dir : node) :
  let src := Os.resolve w (model_name self) in
  let dst := Os.resolve w (resource_path self (model_name self) TOKENIZER w) in
  need_cache_refresh self (model_name self) TOKENIZER w = (Returns true, w1) ->
  download_hf_tokenizer_if_needed self w = (Returns tt, w2) ->
  Os.lookup src (w_root w) = Some model_dir ->
  unrelated src dst ->
  (forall p, unrelated p dst -> Os.lookup p (w_root w2) = Os.lookup p (w_root w)) /\
  (forall file, In file target_tokenizer_files ->
     Os.lookup (dst ++ [file]) (w_root w2)
     = match Os.lookup (src ++ [file]) (w_root w) with
       | Some (File content _) => Some (File content (w_now w))
       | _ => None
       end) /\
  (exists latest,
     latest_revision self w = Returns latest /\
     Os.lookup (dst ++ ["rev_sha.txt"]) (w_root w2) = Some (File latest (w_now w))).
Proof.
  intros src dst Hcheck Hrun Hsrc Hbeside.
  unfold download_hf_tokenizer_if_needed in Hrun. unfold bind at 1 in Hrun.
  rewrite Hcheck in Hrun.
  rewrite need_cache_refresh_eq in Hcheck. cbv zeta in Hcheck.
  destruct (stored_revision _ w) as [stored|e]; [|discriminate].
  destruct (latest_revision self w) as [latest|e]; [|discriminate].
  destruct (_ || _ || _); [|discriminate].
  apply refresh_steps_spec in Hcheck as (_ & n1 & mt & -> & Hdir & Hmark & Hframe1).
  fold dst in Hdir, Hmark, Hframe1.
  unfold bind at 1 in Hrun. cbv [Os.exists_] in Hrun.
  rewrite resolve_with_root in Hrun. fold src in Hrun.
  cbn [w_root Os.with_root] in Hrun.
  rewrite (Hframe1 src Hbeside), Hsrc in Hrun.
  rewrite bool_decide_eq_true_2 in Hrun by eauto.
  unfold bind at 1 in Hrun. cbv [ret] in Hrun.
  unfold bind at 1 in Hrun.
  rewrite get_resource_path_eq, resource_path_with_root in Hrun.
  apply (copy_run _ _ _ target_tokenizer_files_plain) in Hrun
    as (n2 & -> & Hf & Hs & Hr);
    [|rewrite !resolve_with_root; exact Hbeside].
  rewrite !resolve_with_root in *. fold src dst in Hf, Hs, Hr.
  cbn [w_root w_now Os.with_root] in *.
  destruct target_tokenizer_files_distinct as [Hnd Hmarker].
  split; [|split].
  - intros p Hp. rewrite (Hf p Hp). exact (Hframe1 p Hp).
  - intros file Hin. rewrite (Hr Hnd file Hin).
    assert (Hfile : plain_name file).
    { pose proof target_tokenizer_files_plain as Hp. rewrite Forall_forall in Hp.
      apply Hp, list_elem_of_In, Hin. }
    pose proof (unrelated_app src dst [file] [] Hbeside) as Hu.
    rewrite app_nil_r in Hu. rewrite (Hframe1 (src ++ [file]) Hu).
    assert (Hnone : Os.lookup (dst ++ [file]) n1 = None).
    { rewrite lookup_app, Hdir. cbn [Os.lookup Os.assoc].
      destruct (String.eqb "rev_sha.txt" file) eqn:E; [|reflexivity].
      apply String.eqb_eq in E. subst file.
      exfalso. apply Hmarker, list_elem_of_In, Hin. }
    rewrite Hnone.
    destruct (Os.lookup (src ++ [file]) (w_root w)) as [[content t|es t]|];
      reflexivity.
  - exists latest. split; [reflexivity|]. rewrite (Hs _ Hmarker). exact Hmark.
Qed.

Lemma local_tokenizer_is_copied_witness :
  let w := Demo.local_world
             [("tokenizer.json", File "{}" Demo.t0); Demo.safetensors "weights"] in
  let w2 := snd (download_hf_tokenizer_if_needed Demo.local_llm w) in
  fst (Os.listdir "/home/user/.cache/flexflow/tokenizers/models/tiny" w2)
  = Returns ["rev_sha.txt"; "tokenizer.json"] /\
  Os.lookup ["home"; "user"; ".cache"; "flexflow"; "tokenizers"; "models"; "tiny";
             "tokenizer.json"] (w_root w2)
  = Some (File "{}" Demo.t0) /\
  Os.lookup ["models"; "tiny"] (w_root w2) = Os.lookup ["models"; "tiny"] (w_root w).
Proof.
  intros w w2. split; [vm_compute; reflexivity|].
  destruct (local_tokenizer_is_copied Demo.local_llm w
              (snd (need_cache_refresh Demo.local_llm "models/tiny" TOKENIZER w)) w2
              (Dir [("tokenizer.json", File "{}" Demo.t0); Demo.safetensors "weights"]
                   Demo.t0))
    as (Hframe & Hcopied & _).
  - vm_compute. reflexivity.
  - vm_compute. reflexivity.
  - reflexivity.
  - split; intros [k Hk]; vm_compute in Hk; discriminate Hk.
  - split.
    + exact (Hcopied "tokenizer.json" ltac:(left; reflexivity)).
    + apply Hframe. split; intros [k Hk]; vm_compute in Hk; discriminate Hk.
Defined.
